(** * POP-SORTE admin dashboard: ticket reconciliation and winner calculation

    A shallow embedding of the recharge validator
    ([src/homina/js/unified-page.js], module [RechargeValidator]) and of the
    winner calculator ([src/homina/js/winner-calculator.js]), with the
    properties their specification states, and of the functions around
    them: the cache and the groupings of [DataFetcher],
    [DataStore.filterByPlatform] ([src/homina/js/data-store.js]) and
    [ResultsFetcher.parseResultRow] ([src/homina/js/results-fetcher.js]).

    Conventions of the embedding.
    - A JavaScript [Date] that passes the guard
      [d && d instanceof Date && !isNaN(d.getTime())] is its time value, a
      [Z] of milliseconds since the epoch; a field holding a Date, [null] or
      an invalid Date is an [option Z].  The range limit of time values
      (8.64e15 ms) is not modelled.
    - The host time zone, which [getHours], [getDate], [getDay], [setHours]
      and [setDate] read, is a fixed offset [tz] (minutes east of UTC, no
      daylight saving).  America/Sao_Paulo is UTC-03:00, as the literals
      [-03:00] of the source have it.
    - Strings are [string]; [toUpperCase] acts on the letters a-z.
    - A JavaScript object used as a dictionary is a finite map on its own
      keys.  Reading it at a name that is not a key but names a member of
      [Object.prototype] gives that member ([isInheritedName]): the loops
      that fill such an object throw there.
    - [await] on a timer is a yield that changes nothing: a run is the
      sequence of its steps.
    - Numbers are [Z]; the one division, prize per winner, is exact in [Q];
      the contest number that [parseInt] reads is the nearest double
      ([nearestDouble]). *)

From Stdlib Require Import ZArith QArith Lia List String Ascii Bool.
From Stdlib Require Import DecimalString Sorting.Sorted Sorting.Permutation.
From stdpp Require Import base option list strings gmap fin_maps.

Import ListNotations.
Local Open Scope string_scope.
Local Open Scope Z_scope.

(** ** Exceptions *)

(** [Ok v]: the call returns [v]; [Throw msg]: it throws [new Error(msg)]
    (or a [TypeError] with that text). *)
Inductive result (A : Type) : Type :=
  | Ok (v : A)
  | Throw (msg : string).
Arguments Ok {A} v.
Arguments Throw {A} msg.

Definition bindR {A B : Type} (c : result A) (k : A -> result B) : result B :=
  match c with
  | Ok v => k v
  | Throw msg => Throw msg
  end.

Notation "'let!' x ':=' c 'in' k" := (bindR c (fun x => k))
  (at level 10, x pattern, c at level 100, k at level 200).

(** ** Time values (ECMAScript, section Date) *)

Definition msPerMinute : Z := 60000.
Definition msPerHour : Z := 3600000.
Definition msPerDay : Z := 86400000.

Definition Day (t : Z) : Z := t / msPerDay.
Definition TimeWithinDay (t : Z) : Z := t mod msPerDay.
Definition WeekDayOfDay (day : Z) : Z := (day + 4) mod 7.
Definition HourFromTime (t : Z) : Z := (t / msPerHour) mod 24.
Definition MinFromTime (t : Z) : Z := (t / msPerMinute) mod 60.

(** Length of the Gregorian cycle in days: 400 years, a whole number of
    weeks. *)
Definition daysPerEra : Z := 146097.

(** Civil date (year, month 1..12, day 1..31) of a day number counted from
    1970-01-01, in the proleptic Gregorian calendar. *)
Definition civilFromDays (z : Z) : Z * Z * Z :=
  let z := z + 719468 in
  let era := z / daysPerEra in
  let doe := z mod daysPerEra in
  let yoe := (doe - doe / 1460 + doe / 36524 - doe / 146096) / 365 in
  let y := yoe + era * 400 in
  let doy := doe - (365 * yoe + yoe / 4 - yoe / 100) in
  let mp := (5 * doy + 2) / 153 in
  let d := doy - (153 * mp + 2) / 5 + 1 in
  let m := if mp <? 10 then mp + 3 else mp - 9 in
  (if m <=? 2 then y + 1 else y, m, d).

Definition YearOfDay (day : Z) : Z := fst (fst (civilFromDays day)).
(** 0-indexed month, as [getMonth] returns it. *)
Definition MonthOfDay (day : Z) : Z := snd (fst (civilFromDays day)) - 1.
Definition DateOfDay (day : Z) : Z := snd (civilFromDays day).

(** ** Strings of numbers and dates *)

Definition decimal (n : Z) : string :=
  NilZero.string_of_uint (N.to_uint (Z.to_N n)).

(** [s.padStart(2, '0')] *)
Definition padStart2 (s : string) : string :=
  match String.length s with
  | O => "00" ++ s
  | S O => "0" ++ s
  | _ => s
  end.

(** The instant in Sao Paulo wall-clock coordinates. *)
Definition BrazilTime (t : Z) : Z := t - 3 * msPerHour.

(** [AdminCore.getBrazilDateString(date)] on a valid date: the parts
    year (numeric), month and day (2-digit) of the formatter, joined as
    YYYY-MM-DD. *)
Definition getBrazilDateString (t : Z) : string :=
  let day := Day (BrazilTime t) in
  decimal (YearOfDay day) ++ "-" ++ padStart2 (decimal (MonthOfDay day + 1))
    ++ "-" ++ padStart2 (decimal (DateOfDay day)).

(** [new Date(`${getBrazilDateString(t)}T00:00:00-03:00`)]: midnight, at
    UTC-03:00, of the Sao Paulo calendar day of [t]. *)
Definition brazilMidnight (t : Z) : Z :=
  Day (BrazilTime t) * msPerDay + 3 * msPerHour.

(** [new Date(`${getBrazilDateString(t)}T12:00:00-03:00`)] *)
Definition brazilNoon (t : Z) : Z :=
  Day (BrazilTime t) * msPerDay + 15 * msPerHour.

(** ** Draw calendar helpers *)

Definition DEFAULT_CUTOFF_HOUR : Z := 20.
Definition EARLY_CUTOFF_HOUR : Z := 16.

Section Host.

(** Offset of the host's local time, in minutes east of UTC. *)
Variable tz : Z.

Definition LocalTime (t : Z) : Z := t + tz * msPerMinute.
Definition getMonth (t : Z) : Z := MonthOfDay (Day (LocalTime t)).
Definition getDate (t : Z) : Z := DateOfDay (Day (LocalTime t)).
Definition getDay (t : Z) : Z := WeekDayOfDay (Day (LocalTime t)).
Definition getHours (t : Z) : Z := HourFromTime (LocalTime t).
Definition getMinutes (t : Z) : Z := MinFromTime (LocalTime t).

(** [d.setHours(0, 0, 0, 0)]: local midnight of the local day of [t]. *)
Definition setHoursZero (t : Z) : Z :=
  Day (LocalTime t) * msPerDay - tz * msPerMinute.

(** [d.setDate(d.getDate() + 1)]: the same local time on the next day. *)
Definition setDateNext (t : Z) : Z := t + msPerDay.

Definition isNoDrawDay (date : Z) : bool :=
  let month := getMonth date in
  let day := getDate date in
  let dayOfWeek := getDay date in
  if dayOfWeek =? 0 then true
  else if (month =? 11) && (day =? 25) then true
  else if (month =? 0) && (day =? 1) then true
  else false.

Definition isEarlyCutoffDay (date : Z) : bool :=
  let month := getMonth date in
  let day := getDate date in
  (month =? 11) && ((day =? 24) || (day =? 31)).

Definition getCutoffHour (date : Z) : Z :=
  if isEarlyCutoffDay date then EARLY_CUTOFF_HOUR else DEFAULT_CUTOFF_HOUR.

(** The loop of [getNextValidDrawDate], [remaining] iterations from index
    [i] on, over the no-draw test [noDraw]; leaving the loop throws. *)
Fixpoint scanDrawDays (noDraw : Z -> bool) (remaining : nat) (i : Z) (probe : Z)
  : result Z :=
  match remaining with
  | O => Throw "No valid draw date found in range"
  | S remaining' =>
      let probe := if 0 <? i then setDateNext probe else probe in
      if negb (noDraw probe) then Ok probe
      else scanDrawDays noDraw remaining' (i + 1) probe
  end.

Definition getNextValidDrawDate (fromDate : Z) : result Z :=
  let probe := setHoursZero fromDate in
  scanDrawDays isNoDrawDay 14 0 probe.

(** [getEligibleDrawDate(registrationTime)]; [None] is [null]. *)
Definition getEligibleDrawDate (registrationTime : option Z) : result (option Z) :=
  match registrationTime with
  | None => Ok None
  | Some t =>
      let regDateStr := getBrazilDateString t in
      if String.eqb regDateStr "" then Ok None
      else
        let regDate := brazilMidnight t in
        let regHour := getHours t in
        let cutoffHour := getCutoffHour regDate in
        if negb (isNoDrawDay regDate) && (regHour <? cutoffHour) then Ok (Some regDate)
        else
          let nextDay := setDateNext regDate in
          let! d := getNextValidDrawDate nextDay in Ok (Some d)
  end.

(** ** Records of the data layer *)

(** An entry (ticket) as [parseEntryRow] builds it.  [numbers] is [None]
    when the field is missing; an empty string stands for a missing or empty
    text field, which the source tests with [!x] or [x || default]. *)
Record Entry : Type := mkEntry {
  parsedDate : option Z;
  platform : string;
  gameId : string;
  numbers : option (list Z);
  drawDate : string;
  contest : string;
  ticketNumber : string;
  status : string
}.

Record Recharge : Type := mkRecharge {
  rechargeGameId : string;
  rechargeId : string;
  rechargeTime : option Z;
  amount : Z
}.

Inductive ValidationStatus : Type := VALID | INVALID | UNKNOWN | CUTOFF.

Record Validation : Type := mkValidation {
  ticket : Entry;
  vstatus : ValidationStatus;
  reason : string;
  matchedRecharge : option Recharge;
  isCutoff : bool
}.

(** ** String helpers of the host language *)

Definition upperAscii (c : ascii) : ascii :=
  let n := N_of_ascii c in
  if ((97 <=? n) && (n <=? 122))%N then ascii_of_N (n - 32) else c.

(** [s.toUpperCase()]: the letters a-z, and the accented Latin-1 letters
    (two bytes in UTF-8, the first one 195); other characters are kept. *)
Fixpoint toUpperCase (s : string) : string :=
  match s with
  | EmptyString => EmptyString
  | String c rest =>
      match rest with
      | String c2 rest2 =>
          let n := N_of_ascii c2 in
          if ((N_of_ascii c =? 195) && (160 <=? n) && (n <=? 190) && negb (n =? 183))%N
          then String c (String (ascii_of_N (n - 32)) (toUpperCase rest2))
          else String (upperAscii c) (toUpperCase rest)
      | EmptyString => String (upperAscii c) EmptyString
      end
  end.

(** [list.includes(x)] on strings *)
Definition includes (l : list string) (x : string) : bool :=
  existsb (String.eqb x) l.

(** ** Objects used as dictionaries *)

(** The members that an object literal [{}] inherits from
    [Object.prototype]: for such a name [k] that is not a key of [obj],
    [obj[k]] is the inherited member, a function (or, for [__proto__],
    [Object.prototype] itself), which is truthy and has no [push], [filter]
    or [forEach]. *)
Definition objectPrototypeNames : list string :=
  ["constructor"; "__defineGetter__"; "__defineSetter__"; "hasOwnProperty";
   "__lookupGetter__"; "__lookupSetter__"; "isPrototypeOf"; "propertyIsEnumerable";
   "toString"; "valueOf"; "__proto__"; "toLocaleString"].

Definition isInheritedName (k : string) : bool := includes objectPrototypeNames k.

(** [names.every(k => !(k in {}))] *)
Definition noInheritedNames (names : list string) : bool :=
  forallb (fun k => negb (isInheritedName k)) names.

(** The [length] of the inherited member: the number of parameters of the
    function.  [Object.prototype], which [__proto__] reads, has no [length]:
    the code has [undefined] where this model has 0. *)
Definition inheritedLength (k : string) : nat :=
  if includes ["__defineGetter__"; "__defineSetter__"] k then 2
  else if includes ["constructor"; "hasOwnProperty"; "__lookupGetter__"; "__lookupSetter__";
                    "isPrototypeOf"; "propertyIsEnumerable"] k then 1
  else 0.

(** [s.split(/[\/\-]/)] *)
Definition isDateSeparator (c : ascii) : bool :=
  Ascii.eqb c "/"%char || Ascii.eqb c "-"%char.

Fixpoint splitDateParts (s : string) : list string :=
  match s with
  | EmptyString => [EmptyString]
  | String c rest =>
      if isDateSeparator c then EmptyString :: splitDateParts rest
      else match splitDateParts rest with
           | part :: parts => String c part :: parts
           | [] => [String c EmptyString]
           end
  end.

(** String of a number in a template literal. *)
Definition numberToString (n : Z) : string :=
  if n <? 0 then "-" ++ decimal (- n) else decimal n.

(** [array.sort(compare)]: stable; [x] moves behind [y] only when
    [compare x y] is positive. *)
Fixpoint sortInsert {A : Type} (compare : A -> A -> Z) (x : A) (l : list A) : list A :=
  match l with
  | [] => [x]
  | y :: l' => if compare x y <=? 0 then x :: y :: l' else y :: sortInsert compare x l'
  end.

Definition jsSort {A : Type} (compare : A -> A -> Z) (l : list A) : list A :=
  fold_right (sortInsert compare) [] l.

(** ** Recharge matching *)

(** [r.rechargeTime.getTime()], called on recharges that passed the filter
    on valid recharge times. *)
Definition rechargeMs (r : Recharge) : Z :=
  match rechargeTime r with Some t => t | None => 0 end.

(** The normalisation of the ticket's draw date inside the loop of
    [findMatchingRecharge]. *)
Definition normalizeDrawDate (ticketDrawDate : string) : string :=
  if String.eqb ticketDrawDate "" then ""
  else
    match splitDateParts ticketDrawDate with
    | [p0; p1; p2] =>
        if Nat.eqb (String.length p0) 4 then ticketDrawDate
        else p2 ++ "-" ++ padStart2 p1 ++ "-" ++ padStart2 p0
    | _ => ""
    end.

(** The filter that collects the prior tickets of a candidate recharge. *)
Definition isPriorTicket (tk : Entry) (ticketTime : Z) (recharge : Recharge) (t : Entry) : bool :=
  negb (String.eqb (ticketNumber t) (ticketNumber tk)) &&
  match parsedDate t with
  | Some pt => (pt <? ticketTime) && (rechargeMs recharge <? pt)
  | None => false
  end.

(** The inner loop: does a prior ticket map to the recharge's draw date? *)
Fixpoint rechargeUsedBy (eligibleDrawStr : string) (priorTickets : list Entry) : result bool :=
  match priorTickets with
  | [] => Ok false
  | prior :: rest =>
      let! priorEligibleDraw := getEligibleDrawDate (parsedDate prior) in
      match priorEligibleDraw with
      | None => rechargeUsedBy eligibleDrawStr rest
      | Some d =>
          let priorDrawStr := getBrazilDateString d in
          if String.eqb priorDrawStr eligibleDrawStr then Ok true
          else rechargeUsedBy eligibleDrawStr rest
      end
  end.

(** The loop over the candidate recharges, most recent first. *)
Fixpoint matchLoop (tk : Entry) (ticketTime : Z) (allTickets : list Entry)
    (eligibleRecharges : list Recharge) : result (option Recharge) :=
  match eligibleRecharges with
  | [] => Ok None
  | recharge :: rest =>
      let! eligibleDraw := getEligibleDrawDate (rechargeTime recharge) in
      match eligibleDraw with
      | None => matchLoop tk ticketTime allTickets rest
      | Some d =>
          let eligibleDrawStr := getBrazilDateString d in
          if String.eqb eligibleDrawStr "" then matchLoop tk ticketTime allTickets rest
          else
            let ticketDrawStr := normalizeDrawDate (drawDate tk) in
            if negb (String.eqb ticketDrawStr eligibleDrawStr)
            then matchLoop tk ticketTime allTickets rest
            else
              let priorTickets := List.filter (isPriorTicket tk ticketTime recharge) allTickets in
              if Nat.eqb (List.length priorTickets) 0 then Ok (Some recharge)
              else
                let! rechargeUsed := rechargeUsedBy eligibleDrawStr priorTickets in
                if negb rechargeUsed then Ok (Some recharge)
                else matchLoop tk ticketTime allTickets rest
      end
  end.

Definition findMatchingRecharge (tk : Entry) (recharges : list Recharge)
    (allTickets : list Entry) : result (option Recharge) :=
  match parsedDate tk with
  | None => Ok None
  | Some ticketTime =>
      if Nat.eqb (List.length recharges) 0 then Ok None
      else
        let eligibleRecharges :=
          List.filter (fun r => match rechargeTime r with
                                | Some rt => rt <? ticketTime
                                | None => false
                                end) recharges in
        if Nat.eqb (List.length eligibleRecharges) 0 then Ok None
        else
          let sorted := jsSort (fun a b => rechargeMs b - rechargeMs a) eligibleRecharges in
          matchLoop tk ticketTime allTickets sorted
  end.

(** ** Ticket validation *)

Section Matcher.

(** The recharge matcher that [validateTicket] calls. *)
Variable matcher : Entry -> list Recharge -> list Entry -> result (option Recharge).

(** [validateTicket], called once, by [validateAllTickets] after its
    grouping loops.  The two maps are the objects that these loops build:
    their keys do not name members of [Object.prototype], and the loop of
    the tickets throws before this call when the game id of a ticket does.
    So [rechargesByGameId[gameId] || []] is the list under the key, or the
    empty list. *)
Definition validateTicketWith (tk : Entry)
    (rechargesByGameId : gmap string (list Recharge))
    (ticketsByGameId : gmap string (list Entry)) : result Validation :=
  let existingStatus := toUpperCase (status tk) in
  if includes ["VALID"; "VALIDADO"; "VALIDATED"] existingStatus then
    Ok (mkValidation tk VALID "Pre-validated in source data" None false)
  else if includes ["INVALID"; "INVÃLIDO"] existingStatus then
    Ok (mkValidation tk INVALID "Marked invalid in source data" None false)
  else
    let gameId := gameId tk in
    if String.eqb gameId "" then
      Ok (mkValidation tk INVALID "Missing Game ID" None false)
    else
      let recharges := default [] (rechargesByGameId !! gameId) in
      let tickets := default [] (ticketsByGameId !! gameId) in
      if Nat.eqb (List.length recharges) 0 then
        Ok (mkValidation tk INVALID ("No recharge found for Game ID: " ++ gameId) None false)
      else
        let cutoff :=
          match parsedDate tk with
          | Some t =>
              let regHour := getHours t in
              let regMinute := getMinutes t in
              let dateStr := getBrazilDateString t in
              if String.eqb dateStr "" then false
              else
                let checkDate := brazilNoon t in
                let cutoffHour := getCutoffHour checkDate in
                (cutoffHour <=? regHour) || ((regHour =? cutoffHour - 1) && (59 <? regMinute))
          | None => false
          end in
        let! matched := matcher tk recharges tickets in
        match matched with
        | Some r =>
            Ok (mkValidation tk VALID
                  ("Matched recharge R$" ++ (if amount r =? 0 then "?" else numberToString (amount r)))
                  (Some r) cutoff)
        | None =>
            Ok (mkValidation tk INVALID
                  "Recharge exists but timing does not match draw window" None cutoff)
        end.

End Matcher.

Definition validateTicket : Entry -> gmap string (list Recharge) ->
    gmap string (list Entry) -> result Validation :=
  validateTicketWith findMatchingRecharge.

End Host.

(** ** Winner calculator *)

Definition DEFAULT_PRIZE_POOL : Z := 1000.
Definition MIN_MATCHES_TO_WIN : nat := 3.

(** [AdminCore.PLATFORM_PRIZES] and [AdminCore.getPlatformPrize] *)
Definition PLATFORM_PRIZES : list (string * Z) :=
  [("POPN1", 1000); ("POPLUZ", 1000); ("DEFAULT", 1000)].

Fixpoint assocGet {V : Type} (k : string) (l : list (string * V)) : option V :=
  match l with
  | [] => None
  | (k', v) :: rest => if String.eqb k' k then Some v else assocGet k rest
  end.

Definition getPlatformPrize (platform : string) : Z :=
  let fallback := default 0 (assocGet "DEFAULT" PLATFORM_PRIZES) in
  match assocGet platform PLATFORM_PRIZES with
  | Some p => if p =? 0 then fallback else p
  | None => fallback
  end.

(** [getPrizePool]; the page loads admin-core.js, so [AdminCore] is
    defined. *)
Definition getPrizePool (platform : string) : Z := getPlatformPrize platform.

Definition INVALID_STATUSES : list string :=
  ["INVALID"; "INVÃLIDO"; "REJECTED"; "CANCELLED"].

(** An entry of [PRIZE_TIERS] (the emoji is left out). *)
Record TierInfo : Type := mkTierInfo {
  tierName : string;
  tierLabel : string;
  tierIsWinner : bool
}.

Definition PRIZE_TIERS (tier : nat) : option TierInfo :=
  match tier with
  | 5%nat => Some (mkTierInfo "Jackpot" "5 matches" true)
  | 4%nat => Some (mkTierInfo "2nd Prize" "4 matches" true)
  | 3%nat => Some (mkTierInfo "3rd Prize" "3 matches" true)
  | 2%nat => Some (mkTierInfo "No Prize" "2 matches" false)
  | 1%nat => Some (mkTierInfo "No Prize" "1 match" false)
  | _ => None
  end.

(** A draw result as [parseResultRow] builds it. *)
Record DrawResult : Type := mkDrawResult {
  resultContest : string;
  resultDrawDate : string;
  resultNumbers : list Z;
  isNoDraw : bool
}.

Record MatchResult : Type := mkMatchResult {
  count : nat;
  matchedNumbers : list Z
}.

Definition countMatches (entryNumbers winningNumbers : list Z) : MatchResult :=
  let matched := List.filter (fun n => existsb (Z.eqb n) winningNumbers) entryNumbers in
  mkMatchResult (List.length matched) (jsSort (fun a b => a - b) matched).

Definition isValidEntry (entry : Entry) : bool :=
  let status := toUpperCase (status entry) in
  negb (includes INVALID_STATUSES status).

(** The object [{...entry, matches, matchedNumbers, isValidEntry}]. *)
Record Winner : Type := mkWinner {
  winnerEntry : Entry;
  matches : nat;
  winnerMatched : list Z;
  winnerIsValid : bool
}.

(** The result object of [calculateContestWinners]; the fields that the
    object of the no-result branch lacks are options. *)
Record ContestWinners : Type := mkContestWinners {
  cwContest : string;
  cwDrawDate : string;
  winningNumbers : list Z;
  hasResult : bool;
  totalEntries : nat;
  validEntries : option nat;
  winners : list Winner;
  byTier : gmap nat (list Winner);
  winningTier : nat;
  prizePerWinner : Q;
  prizePool : Z;
  totalPrizeAwarded : option Z;
  tierInfo : option TierInfo;
  cwPlatform : string
}.

(** [a || b] on strings *)
Definition orElse (a b : string) : string :=
  if String.eqb a "" then b else a.

(** [byTier[tier]]; the object built by [calculateContestWinners] on a
    result has the keys 1 to 5 (lemma [byTier_keys]). *)
Definition tierList (byTier : gmap nat (list Winner)) (tier : nat) : list Winner :=
  default [] (byTier !! tier).

Definition emptyTiers : gmap nat (list Winner) :=
  <[1%nat := []]> (<[2%nat := []]> (<[3%nat := []]> (<[4%nat := []]> (<[5%nat := []]> ∅)))).

(** The body of [entries.forEach] in [calculateContestWinners]. *)
Definition scoreEntry (winningNumbers : list Z)
    (st : list Winner * gmap nat (list Winner)) (entry : Entry)
  : list Winner * gmap nat (list Winner) :=
  let '(winners, byTier) := st in
  match numbers entry with
  | None => st
  | Some nums =>
      if Nat.eqb (List.length nums) 0 then st
      else
        let matchResult := countMatches nums winningNumbers in
        if (0 <? count matchResult)%nat then
          let winner := mkWinner entry (count matchResult) (matchedNumbers matchResult)
                          (isValidEntry entry) in
          let byTier :=
            match byTier !! count matchResult with
            | Some l => <[count matchResult := (l ++ [winner])%list]> byTier
            | None => byTier
            end in
          let winners :=
            if winnerIsValid winner && (MIN_MATCHES_TO_WIN <=? count matchResult)%nat
            then (winners ++ [winner])%list else winners in
          (winners, byTier)
        else st
  end.

(** The loop [for (tier = 5; tier >= MIN_MATCHES_TO_WIN; tier--)]. *)
Fixpoint winningTierFrom (byTier : gmap nat (list Winner)) (tier : nat) : nat :=
  if (MIN_MATCHES_TO_WIN <=? tier)%nat then
    let validWinners := List.filter winnerIsValid (tierList byTier tier) in
    if (0 <? List.length validWinners)%nat then tier
    else match tier with
         | O => O
         | S tier' => winningTierFrom byTier tier'
         end
  else O.

Definition calculateContestWinners (entries : list Entry) (result : option DrawResult)
    (platform : string) (contestId : string) : ContestWinners :=
  let contest :=
    orElse (match result with Some r => resultContest r | None => "" end)
      (orElse contestId
         (orElse (match entries with e :: _ => contest e | [] => "" end) "Unknown")) in
  let drawDate := match result with Some r => resultDrawDate r | None => "" end in
  let noResult :=
    mkContestWinners contest drawDate [] false (List.length entries) None [] ∅ 0
      0%Q (getPrizePool platform) None None platform in
  match result with
  | None => noResult
  | Some r =>
      if isNoDraw r || negb (Nat.eqb (List.length (resultNumbers r)) 5) then noResult
      else
        let winningNumbers := resultNumbers r in
        let prizePool := getPrizePool platform in
        let '(winners, byTier) :=
          fold_left (scoreEntry winningNumbers) entries ([], emptyTiers) in
        let winners :=
          jsSort (fun a b => Z.of_nat (matches b) - Z.of_nat (matches a)) winners in
        let winningTier := winningTierFrom byTier 5 in
        let tierWinners := List.filter winnerIsValid (tierList byTier winningTier) in
        let awarded := (0 <? winningTier)%nat && (0 <? List.length tierWinners)%nat in
        let prizePerWinner :=
          if awarded then (inject_Z prizePool / inject_Z (Z.of_nat (List.length tierWinners)))%Q
          else 0%Q in
        let totalPrizeAwarded := if awarded then prizePool else 0 in
        mkContestWinners contest drawDate winningNumbers true (List.length entries)
          (Some (List.length (List.filter isValidEntry entries)))
          winners byTier winningTier prizePerWinner prizePool (Some totalPrizeAwarded)
          (PRIZE_TIERS winningTier) platform
  end.

(** ** Results of whole runs, and the cache of the data fetcher *)

Record ValidationStats : Type := mkValidationStats {
  total : nat;
  valid : nat;
  invalid : nat;
  unknown : nat;
  cutoff : nat
}.

(** The object [{results, stats, rechargeCount}] of [validateAllTickets]. *)
Record ValidationRun : Type := mkValidationRun {
  results : list Validation;
  stats : ValidationStats;
  rechargeCount : nat
}.

Record WinnerStats : Type := mkWinnerStats {
  totalContests : nat;
  contestsWithWinners : nat;
  statsByTier : gmap nat nat;
  totalWinners : nat;
  statsTotalPrizeAwarded : Z;
  statsPlatform : string;
  statsPrizePool : Z
}.

(** The object [{contestResults, allWinners, stats, platform}] of
    [calculateAllWinners]. *)
Record AllWinners : Type := mkAllWinners {
  contestResults : list ContestWinners;
  allWinners : list Winner;
  winnerStats : WinnerStats;
  awPlatform : string
}.

(** What [cache.validation.data] can hold: the object stored by
    [RechargeValidator.validateAllTickets], or the counts
    [{valid, invalid, unknown}] stored by
    [DataStore.getAccurateValidationCounts]. *)
Inductive CachedValidation : Type :=
  | CachedRun (run : ValidationRun)
  | CachedCounts (nValid nInvalid nUnknown : nat).

(** The [cache] object of [DataFetcher]; [None] is [null]. *)
Record Cache : Type := mkCache {
  cacheEntries : option (list Entry);
  cacheValidation : option CachedValidation;
  cacheValidationHash : option string;
  cacheWinners : option AllWinners;
  cacheWinnersEntriesHash : option string;
  cacheWinnersResultsHash : option string
}.

(** [x?.ticketNumber || x?.contest || ''] for an entry and for a result
    (which has no ticket number). *)
Definition entryHashKey (e : option Entry) : string :=
  match e with
  | Some e => orElse (ticketNumber e) (orElse (contest e) "")
  | None => ""
  end.

Definition resultHashKey (r : option DrawResult) : string :=
  match r with
  | Some r => orElse (resultContest r) ""
  | None => ""
  end.

(** [DataFetcher.simpleHash(data)], on the entries and on the results. *)
Definition simpleHashEntries (data : list Entry) : string :=
  numberToString (Z.of_nat (List.length data)) ++ "-" ++ entryHashKey (head data)
    ++ "-" ++ entryHashKey (last data).

Definition simpleHashResults (data : list DrawResult) : string :=
  numberToString (Z.of_nat (List.length data)) ++ "-" ++ resultHashKey (head data)
    ++ "-" ++ resultHashKey (last data).

Definition getCachedValidation (cache : Cache) : option CachedValidation :=
  match cacheEntries cache, cacheValidation cache with
  | Some entries, Some data =>
      let currentHash := simpleHashEntries entries in
      match cacheValidationHash cache with
      | Some h => if String.eqb h currentHash then Some data else None
      | None => None
      end
  | _, _ => None
  end.

Definition setCachedValidation (cache : Cache) (data : CachedValidation) : Cache :=
  mkCache (cacheEntries cache) (Some data)
    (Some (match cacheEntries cache with
           | Some entries => simpleHashEntries entries
           | None => ""
           end))
    (cacheWinners cache) (cacheWinnersEntriesHash cache) (cacheWinnersResultsHash cache).

Definition getCachedWinners (cache : Cache) : option AllWinners := cacheWinners cache.

Definition setCachedWinners (cache : Cache) (data : AllWinners)
    (entriesHash resultsHash : string) : Cache :=
  mkCache (cacheEntries cache) (cacheValidation cache) (cacheValidationHash cache)
    (Some data) (Some entriesHash) (Some resultsHash).

Definition isWinnersCacheValid (cache : Cache) (entries : list Entry)
    (results : list DrawResult) : bool :=
  match cacheWinners cache with
  | None => false
  | Some _ =>
      match cacheWinnersEntriesHash cache, cacheWinnersResultsHash cache with
      | Some eh, Some rh =>
          String.eqb eh (simpleHashEntries entries) && String.eqb rh (simpleHashResults results)
      | _, _ => false
      end
  end.


(** ** Batched loops *)

Fixpoint foldResult {A St : Type} (body : St -> A -> result St) (items : list A) (s : St)
  : result St :=
  match items with
  | [] => Ok s
  | x :: rest => let! s' := body s x in foldResult body rest s'
  end.

(** [for (let i = 0; i < items.length; i += batchSize)] over
    [items.slice(i, i + batchSize)], with a yield to the host between two
    batches.  [None]: the iterations allowed by [fuel] did not end the
    loop. *)
Fixpoint forBatches {A St : Type} (batchSize : nat) (body : St -> A -> result St)
    (fuel : nat) (i : nat) (items : list A) (s : St) : option (result St) :=
  match fuel with
  | O => None
  | S fuel' =>
      if (i <? List.length items)%nat then
        let batch := firstn batchSize (skipn i items) in
        match foldResult body batch s with
        | Ok s' => forBatches batchSize body fuel' (i + batchSize) items s'
        | Throw msg => Some (Throw msg)
        end
      else Some (Ok s)
  end.

(** ** Validation of all tickets *)

(** The two [forEach] loops that group by game id,
    [if (!x.gameId) return; if (!byId[x.gameId]) byId[x.gameId] = [];
     byId[x.gameId].push(x)], on an object literal [byId].  For a game id
    that names a member of [Object.prototype], [byId[x.gameId]] is that
    member: nothing is assigned and [push] is not a function ([subject] is
    the expression that the message of the error names). *)
Definition groupByGameId {A : Type} (key : A -> string) (subject : string) (items : list A)
  : result (gmap string (list A)) :=
  foldResult (fun (byId : gmap string (list A)) x =>
                if String.eqb (key x) "" then Ok byId
                else
                  match byId !! key x with
                  | Some l => Ok (<[key x := (l ++ [x])%list]> byId)
                  | None =>
                      if isInheritedName (key x)
                      then Throw ("TypeError: " ++ subject ++ ".push is not a function")
                      else Ok (<[key x := [x]]> byId)
                  end)
             items ∅.

(** The maps that the two loops build when they do not throw (lemma
    [groupByGameId_spec]). *)
Definition groupRecharges (recharges : list Recharge) : gmap string (list Recharge) :=
  fold_left (fun (m : gmap string (list Recharge)) r =>
               if String.eqb (rechargeGameId r) "" then m
               else <[rechargeGameId r := (default [] (m !! rechargeGameId r) ++ [r])%list]> m)
            recharges ∅.

Definition groupTickets (entries : list Entry) : gmap string (list Entry) :=
  fold_left (fun (m : gmap string (list Entry)) e =>
               if String.eqb (gameId e) "" then m
               else <[gameId e := (default [] (m !! gameId e) ++ [e])%list]> m)
            entries ∅.

Definition countValidation (st : ValidationStats) (v : Validation) : ValidationStats :=
  let st :=
    match vstatus v with
    | VALID => mkValidationStats (total st) (S (valid st)) (invalid st) (unknown st) (cutoff st)
    | INVALID => mkValidationStats (total st) (valid st) (S (invalid st)) (unknown st) (cutoff st)
    | _ => mkValidationStats (total st) (valid st) (invalid st) (S (unknown st)) (cutoff st)
    end in
  if isCutoff v
  then mkValidationStats (total st) (valid st) (invalid st) (unknown st) (S (cutoff st))
  else st.

Section HostRun.

Variable tz : Z.

(** The body of the loop over a batch. *)
Definition validateStep (rechargesByGameId : gmap string (list Recharge))
    (ticketsByGameId : gmap string (list Entry))
    (st : list Validation * ValidationStats) (entry : Entry)
  : result (list Validation * ValidationStats) :=
  let! validation := validateTicket tz entry rechargesByGameId ticketsByGameId in
  Ok ((fst st ++ [validation])%list, countValidation (snd st) validation).

(** [validateAllTickets] with the batch size as a parameter. *)
Definition validateAllTicketsBatched (batchSize : nat) (cache : Cache)
    (entries : list Entry) (recharges : list Recharge) (skipCache : bool)
  : option (result (ValidationRun * Cache)) :=
  let compute :=
    match groupByGameId rechargeGameId "rechargesByGameId[r.gameId]" recharges with
    | Throw msg => Some (Throw msg)
    | Ok rechargesByGameId =>
        match groupByGameId gameId "ticketsByGameId[e.gameId]" entries with
        | Throw msg => Some (Throw msg)
        | Ok ticketsByGameId =>
            let stats0 := mkValidationStats (List.length entries) 0 0 0 0 in
            match forBatches batchSize (validateStep rechargesByGameId ticketsByGameId)
                    (S (List.length entries)) 0 entries ([], stats0) with
            | None => None
            | Some (Throw msg) => Some (Throw msg)
            | Some (Ok (results, stats)) =>
                let result := mkValidationRun results stats (List.length recharges) in
                Some (Ok (result, setCachedValidation cache (CachedRun result)))
            end
        end
    end in
  if skipCache then compute
  else
    match getCachedValidation cache with
    | None => compute
    | Some (CachedCounts _ _ _) =>
        (* cached.stats is undefined *)
        Some (Throw "TypeError: Cannot read properties of undefined (reading 'total')")
    | Some (CachedRun run) =>
        (* cached.entriesCount is undefined: the comparison is false *)
        if Nat.eqb (total (stats run)) (List.length entries) && false
        then Some (Ok (run, cache))
        else compute
    end.

Definition validateAllTickets : Cache -> list Entry -> list Recharge -> bool ->
    option (result (ValidationRun * Cache)) :=
  validateAllTicketsBatched 50.

End HostRun.

(** ** Winners of all contests *)

(** [DataStore.filterByPlatform] *)
Definition filterByPlatform (entries : list Entry) (code : string) : list Entry :=
  if String.eqb code "" || String.eqb code "ALL" then entries
  else List.filter (fun e => String.eqb (toUpperCase (orElse (platform e) "POPN1"))
                                        (toUpperCase code)) entries.

(** A JavaScript object with string keys whose key order matters: the
    properties in the order of their creation. *)
Fixpoint assocPush {V : Type} (k : string) (v : V) (l : list (string * list V))
  : list (string * list V) :=
  match l with
  | [] => [(k, [v])]
  | (k', vs) :: rest =>
      if String.eqb k' k then (k', (vs ++ [v])%list) :: rest
      else (k', vs) :: assocPush k v rest
  end.

(** [DataFetcher.groupEntriesByContest].  [grouped] is an object literal: for
    a contest that names a member of [Object.prototype] and is not yet a
    key, [grouped[contest]] is that member, nothing is assigned, and [push]
    is not a function. *)
Definition groupEntriesByContest (entries : list Entry)
  : result (list (string * list Entry)) :=
  foldResult (fun grouped entry =>
                let contest := orElse (contest entry) "Unknown" in
                match assocGet contest grouped with
                | Some _ => Ok (assocPush contest entry grouped)
                | None =>
                    if isInheritedName contest
                    then Throw "TypeError: grouped[contest].push is not a function"
                    else Ok (assocPush contest entry grouped)
                end)
             entries [].

(** Value of a string of decimal digits; [None] when a character is not a
    digit or the string is empty. *)
Definition digitValue (c : ascii) : option Z :=
  let n := Z.of_N (N_of_ascii c) in
  if (48 <=? n) && (n <=? 57) then Some (n - 48) else None.

Fixpoint digitsValue (acc : Z) (s : string) : option Z :=
  match s with
  | EmptyString => Some acc
  | String c rest =>
      match digitValue c with
      | Some d => digitsValue (10 * acc + d) rest
      | None => None
      end
  end.

(** The index that a property key denotes when it is an array index: a
    canonical decimal numeral below 2^32 - 1. *)
Definition arrayIndex (k : string) : option Z :=
  match k with
  | EmptyString => None
  | _ =>
      match digitsValue 0 k with
      | Some n => if String.eqb (decimal n) k && (n <? 4294967295) then Some n else None
      | None => None
      end
  end.

(** [Object.keys(obj)]: the array indices in ascending order, then the
    other keys in the order of their creation. *)
Definition objectKeys {V : Type} (obj : list (string * V)) : list string :=
  let keys := map fst obj in
  let indices := List.filter (fun k => match arrayIndex k with Some _ => true | None => false end) keys in
  let names := List.filter (fun k => match arrayIndex k with Some _ => false | None => true end) keys in
  (jsSort (fun a b => default 0 (arrayIndex a) - default 0 (arrayIndex b)) indices ++ names)%list.

(** [set.add(x)] on a [Set] kept in insertion order. *)
Definition setAdd (x : string) (l : list string) : list string :=
  if includes l x then l else (l ++ [x])%list.

Definition isSpaceChar (c : ascii) : bool :=
  let n := N_of_ascii c in
  (((9 <=? n) && (n <=? 13)) || (n =? 32))%N.

Fixpoint skipSpaces (s : string) : string :=
  match s with
  | String c rest => if isSpaceChar c then skipSpaces rest else s
  | EmptyString => s
  end.

(** Value of the longest prefix of digits, [None] when there is none. *)
Fixpoint digitPrefix (acc : option Z) (s : string) : option Z :=
  match s with
  | String c rest =>
      match digitValue c with
      | Some d => digitPrefix (Some (10 * default 0 acc + d)) rest
      | None => acc
      end
  | EmptyString => acc
  end.

(** The IEEE double nearest to a natural number, ties to even: for the
    digits that [parseInt] reads, the number that it returns.  [2^1024]
    stands for [Infinity]. *)
Definition nearestDouble (n : Z) : Z :=
  if n <? 2 ^ 53 then n
  else
    let e := Z.log2 n - 52 in
    let q := n / 2 ^ e in
    let r := n mod 2 ^ e in
    let half := 2 ^ (e - 1) in
    let q' := if (half <? r) || ((r =? half) && Z.odd q) then q + 1 else q in
    Z.min (q' * 2 ^ e) (2 ^ 1024).

(** [parseInt(s, 10) || 0], a double.  With [2^1024] for [Infinity], the
    difference of two such numbers in [Z] has the sign of their difference
    as doubles, and is 0 where that difference is [NaN] (two infinities),
    which a comparator of [sort] returns as 0. *)
Definition parseIntOrZero (s : string) : Z :=
  match skipSpaces s with
  | String "-"%char rest => - nearestDouble (default 0 (digitPrefix None rest))
  | String "+"%char rest => nearestDouble (default 0 (digitPrefix None rest))
  | s' => nearestDouble (default 0 (digitPrefix None s'))
  end.

Definition emptyTierCounts : gmap nat nat :=
  <[1%nat := 0%nat]> (<[2%nat := 0%nat]> (<[3%nat := 0%nat]> (<[4%nat := 0%nat]> (<[5%nat := 0%nat]> ∅)))).

(** The loop [for (tier = 5; tier >= 1; tier--)] that adds the valid
    entries of each tier to [stats.byTier]. *)
Fixpoint addTierCounts (cw : ContestWinners) (tier : nat) (counts : gmap nat nat)
  : gmap nat nat :=
  match tier with
  | O => counts
  | S tier' =>
      let validInTier := List.filter winnerIsValid (tierList (byTier cw) tier) in
      addTierCounts cw tier'
        (<[tier := (default 0 (counts !! tier) + List.length validInTier)%nat]> counts)
  end.

(** The object [{..., totalEntries: n, ...}] *)
Definition withTotalEntries (n : nat) (cw : ContestWinners) : ContestWinners :=
  mkContestWinners (cwContest cw) (cwDrawDate cw) (winningNumbers cw) (hasResult cw)
    n (validEntries cw) (winners cw) (byTier cw) (winningTier cw)
    (prizePerWinner cw) (prizePool cw) (totalPrizeAwarded cw) (tierInfo cw) (cwPlatform cw).

Section Aggregator.

(** [typeof DataStore !== 'undefined'] *)
Variable dataStoreLoaded : bool.

(** The body of the loop over a batch of contest ids, from the call of
    [calculateContestWinners] on: [contestEntries] is the array read at
    [entriesByContest[contest] || []]. *)
Definition contestStepWith (contestEntries : list Entry) (drawResult : option DrawResult)
    (effectivePlatform : string) (prizePool : Z)
    (st : list ContestWinners * list Winner * WinnerStats) (contest : string)
  : result (list ContestWinners * list Winner * WinnerStats) :=
  let '(contestResults, allWinners, stats) := st in
  let contestWinners :=
    calculateContestWinners contestEntries drawResult effectivePlatform contest in
  let contestResults := (contestResults ++ [contestWinners])%list in
  if hasResult contestWinners then
    let withWinners := (0 <? winningTier contestWinners)%nat in
    let awarded :=
      match totalPrizeAwarded contestWinners with
      | Some p => if p =? 0 then prizePool else p
      | None => prizePool
      end in
    let stats :=
      mkWinnerStats (S (totalContests stats))
        (if withWinners then S (contestsWithWinners stats) else contestsWithWinners stats)
        (addTierCounts contestWinners 5 (statsByTier stats))
        (totalWinners stats)
        (if withWinners then statsTotalPrizeAwarded stats + awarded
         else statsTotalPrizeAwarded stats)
        (statsPlatform stats) (statsPrizePool stats) in
    Ok (contestResults, (allWinners ++ winners contestWinners)%list, stats)
  else Ok (contestResults, allWinners, stats).

(** The body of the loop over a batch of contest ids.  For a contest of the
    results that no entry has and that names a member of
    [Object.prototype], [entriesByContest[contest] || []] is that member
    and not an array: [calculateContestWinners] returns its zero value with
    the [length] of the member as [totalEntries] when the result is not
    usable, and throws at [entries.forEach] when it is. *)
Definition contestStep (entriesByContest : list (string * list Entry))
    (resultsMap : gmap string DrawResult) (effectivePlatform : string) (prizePool : Z)
    (st : list ContestWinners * list Winner * WinnerStats) (contest : string)
  : result (list ContestWinners * list Winner * WinnerStats) :=
  let result := resultsMap !! contest in
  match assocGet contest entriesByContest with
  | Some contestEntries =>
      contestStepWith contestEntries result effectivePlatform prizePool st contest
  | None =>
      if isInheritedName contest then
        let '(contestResults, allWinners, stats) := st in
        let contestWinners := calculateContestWinners [] result effectivePlatform contest in
        if hasResult contestWinners
        then Throw "TypeError: entries.forEach is not a function"
        else Ok ((contestResults
                  ++ [withTotalEntries (inheritedLength contest) contestWinners])%list,
                 allWinners, stats)
      else contestStepWith [] result effectivePlatform prizePool st contest
  end.

(** [calculateAllWinners] with the batch size as a parameter. *)
Definition calculateAllWinnersBatched (batchSize : nat) (cache : Cache)
    (entries : list Entry) (results : list DrawResult) (platform : string)
  : option (result (AllWinners * Cache)) :=
  let cached :=
    if isWinnersCacheValid cache entries results then
      match getCachedWinners cache with
      | Some c => if String.eqb (awPlatform c) platform then Some c else None
      | None => None
      end
    else None in
  match cached with
  | Some c => Some (Ok (c, cache))
  | None =>
      let filteredEntries :=
        if negb (String.eqb platform "") && negb (String.eqb platform "ALL") && dataStoreLoaded
        then filterByPlatform entries platform else entries in
      match groupEntriesByContest filteredEntries with
      | Throw msg => Some (Throw msg)
      | Ok entriesByContest =>
        let '(resultsMap, allContestIds) :=
          fold_left (fun (acc : gmap string DrawResult * list string) r =>
                       if String.eqb (resultContest r) "" then acc
                       else (<[resultContest r := r]> (fst acc), setAdd (resultContest r) (snd acc)))
                    results (∅, []) in
        let allContestIds :=
          fold_left (fun ids contest => setAdd contest ids) (objectKeys entriesByContest)
                    allContestIds in
        let effectivePlatform := if String.eqb platform "ALL" then "DEFAULT" else platform in
        let prizePool := getPrizePool effectivePlatform in
        let stats0 := mkWinnerStats 0 0 emptyTierCounts 0 0 platform prizePool in
        let contestKeys := allContestIds in
        match forBatches batchSize
                (contestStep entriesByContest resultsMap effectivePlatform prizePool)
                (S (List.length contestKeys)) 0 contestKeys ([], [], stats0) with
        | None => None
        | Some (Throw msg) => Some (Throw msg)
        | Some (Ok (contestResults, allWinners, stats)) =>
            let stats :=
              mkWinnerStats (totalContests stats) (contestsWithWinners stats) (statsByTier stats)
                (List.length allWinners) (statsTotalPrizeAwarded stats)
                (statsPlatform stats) (statsPrizePool stats) in
            let contestResults :=
              jsSort (fun a b => parseIntOrZero (cwContest b) - parseIntOrZero (cwContest a))
                     contestResults in
            let result := mkAllWinners contestResults allWinners stats platform in
            Some (Ok (result,
                      setCachedWinners cache result (simpleHashEntries entries)
                        (simpleHashResults results)))
        end
      end
  end.

Definition calculateAllWinners : Cache -> list Entry -> list DrawResult -> string ->
    option (result (AllWinners * Cache)) :=
  calculateAllWinnersBatched 10.

End Aggregator.

(** [WinnerCalculator.getContestWinners]: [calculateContestWinners] is
    called with its default platform ['POPN1'] and without contest id. *)
Definition getContestWinners (contestId : string) (entries : list Entry)
    (results : list DrawResult) : ContestWinners :=
  let contestEntries := List.filter (fun e => String.eqb (contest e) contestId) entries in
  let result := List.find (fun r => String.eqb (resultContest r) contestId) results in
  calculateContestWinners contestEntries result "POPN1" "".

(** ** Engagement of the rechargers *)

(** [new Set(ids.filter(Boolean))]: the non-empty ids, each one once, in
    the order of their first occurrence. *)
Definition uniqueIds (ids : list string) : list string :=
  fold_left (fun set id => setAdd id set)
            (List.filter (fun id => negb (String.eqb id "")) ids) [].

(** [counts[k] = (counts[k] || 0) + 1] on an object whose properties are kept
    in the order of their creation. *)
Fixpoint assocIncr (k : string) (counts : list (string * nat)) : list (string * nat) :=
  match counts with
  | [] => [(k, 1%nat)]
  | (k', n) :: rest =>
      if String.eqb k' k then (k', S n) :: rest else (k', n) :: assocIncr k rest
  end.

(** [Object.entries(obj)], in the order of [Object.keys]. *)
Definition objectEntries {V : Type} (obj : list (string * V)) : list (string * option V) :=
  map (fun k => (k, assocGet k obj)) (objectKeys obj).

(** The object that [analyzeEngagement] returns, but for its
    [participationRate], a floating-point number formatted by [toFixed]. *)
Record Engagement : Type := mkEngagement {
  totalRechargers : nat;
  totalParticipants : nat;
  rechargedNoTicket : nat;
  multiRechargeNoTicket : nat;
  rechargerIds : list string;
  participantIds : list string;
  rechargedNoTicketIds : list string
}.

Definition analyzeEngagement (entries : list Entry) (recharges : list Recharge)
  : Engagement :=
  let rechargerIds := uniqueIds (map rechargeGameId recharges) in
  let ticketCreatorIds := uniqueIds (map gameId entries) in
  let participantIds :=
    fold_left (fun set id => setAdd id set)
              (List.filter (fun id => includes rechargerIds id) ticketCreatorIds) [] in
  let rechargedNoTicket :=
    fold_left (fun set id => setAdd id set)
              (List.filter (fun id => negb (includes ticketCreatorIds id)) rechargerIds) [] in
  let rechargeCounts :=
    fold_left (fun counts r =>
                 if String.eqb (rechargeGameId r) "" then counts
                 else assocIncr (rechargeGameId r) counts) recharges [] in
  let multiRechargers :=
    map fst (List.filter (fun kv => (1 <? default 0%nat (snd kv))%nat)
                         (objectEntries rechargeCounts)) in
  let multiRechargeNoTicket :=
    List.filter (fun id => negb (includes ticketCreatorIds id)) multiRechargers in
  mkEngagement (List.length rechargerIds) (List.length participantIds)
    (List.length rechargedNoTicket) (List.length multiRechargeNoTicket)
    rechargerIds participantIds rechargedNoTicket.

(** ** Rows of the results sheet *)

Definition lowerAscii (c : ascii) : ascii :=
  let n := N_of_ascii c in
  if ((65 <=? n) && (n <=? 90))%N then ascii_of_N (n + 32) else c.

(** [s.toLowerCase()]: the letters A-Z, and the accented Latin-1 capitals
    (two bytes in UTF-8, the first one 195); other characters are kept. *)
Fixpoint toLowerCase (s : string) : string :=
  match s with
  | EmptyString => EmptyString
  | String c rest =>
      match rest with
      | String c2 rest2 =>
          let n := N_of_ascii c2 in
          if ((N_of_ascii c =? 195) && (128 <=? n) && (n <=? 158) && negb (n =? 151))%N
          then String c (String (ascii_of_N (n + 32)) (toLowerCase rest2))
          else String (lowerAscii c) (toLowerCase rest)
      | EmptyString => String (lowerAscii c) EmptyString
      end
  end.

Definition stringRev (s : string) : string :=
  string_of_list_ascii (rev (list_ascii_of_string s)).

(** [s.trim()], for the white space of ASCII. *)
Definition trim (s : string) : string :=
  stringRev (skipSpaces (stringRev (skipSpaces s))).

(** [s.includes(needle)] on strings *)
Fixpoint stringIncludes (needle s : string) : bool :=
  String.prefix needle s ||
  match s with
  | String _ rest => stringIncludes needle rest
  | EmptyString => false
  end.

(** [parseInt(s, 10)]; [None] is [NaN]. *)
Definition parseInt10 (s : string) : option Z :=
  match skipSpaces s with
  | String "-"%char rest => option_map Z.opp (digitPrefix None rest)
  | String "+"%char rest => digitPrefix None rest
  | s' => digitPrefix None s'
  end.

(** [ResultsFetcher.parseResultRow]; [None] is [null].  A cell that the row
    does not have is [undefined], which [parseInt] reads as [NaN].  The
    fields [drawDateParsed], [savedAt] and [source] of the result object are
    not part of [DrawResult]. *)
Definition parseResultRow (row : list string) : option DrawResult :=
  let contest := trim (nth 0 row "") in
  let drawDateRaw := trim (nth 1 row "") in
  if String.eqb contest "" then None
  else
    let fullRow := toLowerCase (String.concat " " row) in
    if stringIncludes "no draw" fullRow then
      Some (mkDrawResult contest drawDateRaw [] true)
    else
      let numbers :=
        fold_left (fun numbers i =>
                     match nth_error row i with
                     | Some cell =>
                         match parseInt10 cell with
                         | Some num =>
                             if (1 <=? num) && (num <=? 80) then (numbers ++ [num])%list
                             else numbers
                         | None => numbers
                         end
                     | None => numbers
                     end)
                  [2; 3; 4; 5; 6]%nat [] in
      if negb (Nat.eqb (List.length numbers) 5) then None
      else Some (mkDrawResult contest drawDateRaw (jsSort (fun a b => a - b) numbers) false).

(** ** Auxiliary definitions of the proofs *)

(** The steps of [civilFromDays]: day of the era, year of the era, first
    day of a year of the era, day of the year (counted from March 1). *)
Definition doeOf (d : Z) : Z := (d + 719468) mod daysPerEra.

Definition eraFold (doe : Z) : Z := doe - doe / 1460 + doe / 36524 - doe / 146096.

Definition yoeOf (doe : Z) : Z := eraFold doe / 365.

Definition yearStart (y : Z) : Z := 365 * y + y / 4 - y / 100.

Definition yearBegin (y : Z) : Z := yearStart y + y / 400.

Definition doyOf (doe : Z) : Z := doe - yearStart (yoeOf doe).

Definition monthOfDoy (doy : Z) : Z :=
  let mp := (5 * doy + 2) / 153 in (if mp <? 10 then mp + 3 else mp - 9) - 1.

Definition dateOfDoy (doy : Z) : Z :=
  let mp := (5 * doy + 2) / 153 in doy - (153 * mp + 2) / 5 + 1.

Definition holidayOfDoy (doy : Z) : bool :=
  ((monthOfDoy doy =? 11) && (dateOfDoy doy =? 25)) || ((monthOfDoy doy =? 0) && (dateOfDoy doy =? 1)).

Fixpoint allBelow (f : Z -> bool) (n : nat) : bool :=
  match n with
  | O => true
  | S k => f (Z.of_nat k) && allBelow f k
  end.

Definition yearCheck (y : Z) : bool :=
  (yoeOf (yearBegin y) =? y) && (yoeOf (yearBegin (y + 1) - 1) =? y)
  && (365 <=? yearBegin (y + 1) - yearBegin y) && (yearBegin (y + 1) - yearBegin y <=? 366).

Definition doyCheck (doy : Z) : bool :=
  Bool.eqb (holidayOfDoy doy) ((doy =? 299) || (doy =? 306)).

Definition holidayOfDay (d : Z) : bool :=
  ((MonthOfDay d =? 11) && (DateOfDay d =? 25)) || ((MonthOfDay d =? 0) && (DateOfDay d =? 1)).

Definition noDrawOfDay (d : Z) : bool :=
  if WeekDayOfDay d =? 0 then true
  else if (MonthOfDay d =? 11) && (DateOfDay d =? 25) then true
  else if (MonthOfDay d =? 0) && (DateOfDay d =? 1) then true
  else false.

(** The draw day that [getEligibleDrawDate] yields for a valid time. *)
Definition eligibleDrawOf (tz : Z) (t : Z) : Z :=
  match getEligibleDrawDate tz (Some t) with
  | Ok (Some d) => d
  | _ => 0
  end.

(** The draw date, as a string, of the window of a valid time. *)
Definition eligibleDrawStrOf (tz : Z) (t : Z) : string :=
  getBrazilDateString (eligibleDrawOf tz t).

(** The test that the loop of [findMatchingRecharge] applies to a
    candidate: the draw dates agree and no prior ticket maps to the
    candidate's draw date. *)
Definition rechargeFree (tz : Z) (tk : Entry) (ticketTime : Z) (allTickets : list Entry)
    (recharge : Recharge) : bool :=
  match rechargeTime recharge with
  | None => false
  | Some rt =>
      String.eqb (normalizeDrawDate (drawDate tk)) (eligibleDrawStrOf tz rt) &&
      negb (existsb (fun prior =>
                       match parsedDate prior with
                       | Some pt => String.eqb (eligibleDrawStrOf tz pt) (eligibleDrawStrOf tz rt)
                       | None => false
                       end)
                    (List.filter (isPriorTicket tk ticketTime recharge) allTickets))
  end.

(** The cache of a page that has fetched nothing yet. *)
Definition emptyCache : Cache := mkCache None None None None None None.

(** The upstream status of the ticket decides the validation: one of the
    two early returns of [validateTicket] on [existingStatus]. *)
Definition shortCircuited (tk : Entry) : bool :=
  includes ["VALID"; "VALIDADO"; "VALIDATED"] (toUpperCase (status tk)) ||
  includes ["INVALID"; "INVÃLIDO"] (toUpperCase (status tk)).

(** Sample data: Monday 2024-01-08 at [h] o'clock in Sao Paulo, a recharge
    of player 1234567890 at 19:00 and tickets of that player. *)
Definition mondayAt (h : Z) : Z := 19730 * msPerDay + (h + 3) * msPerHour.

Definition sampleRecharge : Recharge :=
  mkRecharge "1234567890" "R-1" (Some (mondayAt 19)) 50.

Definition sampleTicket (number : string) (time : Z) (draw : string) : Entry :=
  mkEntry (Some time) "POPN1" "1234567890" (Some [1; 2; 3; 4; 5]) draw "10" number "PENDING".

(** The outcome of [validateTicket] ([validateTicket] never throws, lemma
    [validateTicket_Ok]). *)
Definition outcomeOf (tz : Z) (rmap : gmap string (list Recharge))
    (tmap : gmap string (list Entry)) (tk : Entry) : Validation :=
  match validateTicket tz tk rmap tmap with
  | Ok v => v
  | Throw _ => mkValidation tk UNKNOWN "" None false
  end.

(** The winner object that the loop of [calculateContestWinners] builds
    for an entry, [None] when the entry is skipped (no numbers, or no
    match). *)
Definition scoreOf (winningNumbers : list Z) (entry : Entry) : option Winner :=
  match numbers entry with
  | None => None
  | Some nums =>
      if Nat.eqb (List.length nums) 0 then None
      else
        let matchResult := countMatches nums winningNumbers in
        if (0 <? count matchResult)%nat
        then Some (mkWinner entry (count matchResult) (matchedNumbers matchResult)
                     (isValidEntry entry))
        else None
  end.

Definition scoredEntries (winningNumbers : list Z) (entries : list Entry) : list Winner :=
  omap (scoreOf winningNumbers) entries.

(** The test of the winners list: a valid entry with enough matches. *)
Definition qualifies (w : Winner) : bool :=
  winnerIsValid w && (MIN_MATCHES_TO_WIN <=? matches w)%nat.

(** The valid entries of a tier of a contest. *)
Definition validInTier (cw : ContestWinners) (tier : nat) : list Winner :=
  List.filter winnerIsValid (tierList (byTier cw) tier).

(** A draw result with which [calculateContestWinners] computes winners. *)
Definition wellFormedResult (r : DrawResult) : bool :=
  negb (isNoDraw r) && Nat.eqb (List.length (resultNumbers r)) 5.

(** Sample contest: draw 10 with the numbers 1 to 5, two entries with
    five matches and three with four. *)
Definition sampleResult : DrawResult :=
  mkDrawResult "10" "08/01/2024" [1; 2; 3; 4; 5] false.



Definition sampleEntry (number : string) (nums : list Z) : Entry :=
  mkEntry (Some (mondayAt 12)) "POPN1" "1234567890" (Some nums) "08/01/2024" "10" number
    "PENDING".

Definition sampleContest : list Entry :=
  [sampleEntry "T-1" [1; 2; 3; 4; 5]; sampleEntry "T-2" [5; 4; 3; 2; 1];
   sampleEntry "T-3" [1; 2; 3; 4; 9]; sampleEntry "T-4" [1; 2; 3; 9; 5];
   sampleEntry "T-5" [9; 2; 3; 4; 5]].

(** The value of a call that does not throw. *)
Definition okOr {A : Type} (fallback : A) (r : result A) : A :=
  match r with
  | Ok v => v
  | Throw _ => fallback
  end.

(** The map of the results that [calculateAllWinners] builds, and the
    contest ids that it collects from the results. *)
Definition resultsFold (results : list DrawResult) : gmap string DrawResult * list string :=
  fold_left (fun (acc : gmap string DrawResult * list string) r =>
               if String.eqb (resultContest r) "" then acc
               else (<[resultContest r := r]> (fst acc), setAdd (resultContest r) (snd acc)))
            results (∅, []).

(** The object that [groupEntriesByContest] returns when it does not throw
    (lemma [groupEntriesByContest_spec]). *)
Definition groupedByContest (entries : list Entry) : list (string * list Entry) :=
  fold_left (fun grouped entry => assocPush (orElse (contest entry) "Unknown") entry grouped)
            entries [].

(** The key under which [groupEntriesByContest] files an entry. *)
Definition contestKey (e : Entry) : string := orElse (contest e) "Unknown".

(** The step of the loop over the contests on a contest for which
    [entriesByContest[contest] || []] is an array (lemma
    [contestStep_plain]). *)
Definition plainContestStep (entriesByContest : list (string * list Entry))
    (resultsMap : gmap string DrawResult) (effectivePlatform : string) (prizePool : Z)
    (st : list ContestWinners * list Winner * WinnerStats) (contest : string)
  : result (list ContestWinners * list Winner * WinnerStats) :=
  contestStepWith (default [] (assocGet contest entriesByContest)) (resultsMap !! contest)
    effectivePlatform prizePool st contest.

(** The cached result that [calculateAllWinners] returns instead of
    computing: the cache is valid for the entries and the results, and its
    result is of the platform asked for. *)
Definition cachedWinnersFor (cache : Cache) (entries : list Entry)
    (results : list DrawResult) (platform : string) : option AllWinners :=
  if isWinnersCacheValid cache entries results then
    match getCachedWinners cache with
    | Some c => if String.eqb (awPlatform c) platform then Some c else None
    | None => None
    end
  else None.

(** A string without a date separator. *)
Fixpoint hasNoSeparator (s : string) : bool :=
  match s with
  | EmptyString => true
  | String c rest => negb (isDateSeparator c) && hasNoSeparator rest
  end.

(** The entries that [calculateAllWinners] groups: those of the platform,
    when a platform is asked for and [DataStore] is loaded. *)
Definition entriesOfPlatform (dataStoreLoaded : bool) (entries : list Entry)
    (platform : string) : list Entry :=
  if negb (String.eqb platform "") && negb (String.eqb platform "ALL") && dataStoreLoaded
  then filterByPlatform entries platform else entries.

(** The contest ids that [calculateAllWinners] goes through: those of the
    results, then the keys of the grouped entries. *)
Definition contestKeysOf (entriesByContest : list (string * list Entry))
    (results : list DrawResult) : list string :=
  fold_left (fun ids contest => setAdd contest ids) (objectKeys entriesByContest)
            (snd (resultsFold results)).

(** The state of the loop of [calculateAllWinners] after the contests
    [keys]. *)
Definition runContests (entriesByContest : list (string * list Entry))
    (resultsMap : gmap string DrawResult) (effectivePlatform : string) (prizePool : Z)
    (keys : list string) (init : list ContestWinners * list Winner * WinnerStats)
  : list ContestWinners * list Winner * WinnerStats :=
  fold_left (fun st contest =>
               okOr st (plainContestStep entriesByContest resultsMap effectivePlatform prizePool
                          st contest)) keys init.

(** The result that [calculateAllWinners] computes when it does not return
    from the cache. *)
Definition computedWinners (dataStoreLoaded : bool) (entries : list Entry)
    (results : list DrawResult) (platform : string) : AllWinners :=
  let entriesByContest :=
    groupedByContest (entriesOfPlatform dataStoreLoaded entries platform) in
  let effectivePlatform := if String.eqb platform "ALL" then "DEFAULT" else platform in
  let prizePool := getPrizePool effectivePlatform in
  let '(contestResults, allWinners, stats) :=
    runContests entriesByContest (fst (resultsFold results)) effectivePlatform prizePool
      (contestKeysOf entriesByContest results)
      ([], [], mkWinnerStats 0 0 emptyTierCounts 0 0 platform prizePool) in
  mkAllWinners
    (jsSort (fun a b => parseIntOrZero (cwContest b) - parseIntOrZero (cwContest a))
       contestResults)
    allWinners
    (mkWinnerStats (totalContests stats) (contestsWithWinners stats) (statsByTier stats)
       (List.length allWinners) (statsTotalPrizeAwarded stats)
       (statsPlatform stats) (statsPrizePool stats))
    platform.

(** The invariant of the loop over the contests. *)
Definition statsInvariant (prizePool : Z)
    (st : list ContestWinners * list Winner * WinnerStats) : Prop :=
  let '(crs, aws, stats) := st in
  totalContests stats = List.length (List.filter hasResult crs) /\
  contestsWithWinners stats
    = List.length (List.filter (fun cw => hasResult cw && (0 <? winningTier cw)%nat) crs) /\
  statsTotalPrizeAwarded stats = prizePool * Z.of_nat (contestsWithWinners stats) /\
  statsPrizePool stats = prizePool /\
  aws = concat (map winners (List.filter hasResult crs)).

(** A contest result with another platform code. *)
Definition withPlatform (code : string) (cw : ContestWinners) : ContestWinners :=
  mkContestWinners (cwContest cw) (cwDrawDate cw) (winningNumbers cw) (hasResult cw)
    (totalEntries cw) (validEntries cw) (winners cw) (byTier cw) (winningTier cw)
    (prizePerWinner cw) (prizePool cw) (totalPrizeAwarded cw) (tierInfo cw) code.

(** * Properties *)

(** ** The calendar *)

Lemma allBelow_spec f n :
  allBelow f n = true -> forall k, 0 <= k < Z.of_nat n -> f k = true.
Proof.
  induction n as [|n IH]; intros H k Hk; [lia|].
  cbn [allBelow] in H. apply andb_prop in H as [Hn Hrest].
  destruct (Z.eq_dec k (Z.of_nat n)) as [->|Hne]; [exact Hn|].
  apply IH; [exact Hrest|lia].
Qed.

Lemma MonthOfDay_doy d : MonthOfDay d = monthOfDoy (doyOf (doeOf d)).
Proof. reflexivity. Qed.

Lemma DateOfDay_doy d : DateOfDay d = dateOfDoy (doyOf (doeOf d)).
Proof. reflexivity. Qed.

Lemma years_checked : allBelow yearCheck 400 = true.
Proof. vm_compute. reflexivity. Qed.

Lemma doys_checked : allBelow doyCheck 366 = true.
Proof. vm_compute. reflexivity. Qed.

Lemma eraFold_step x : 0 <= x < 146096 -> eraFold x <= eraFold (x + 1).
Proof.
  intros Hx. unfold eraFold.
  Z.to_euclidean_division_equations; lia.
Qed.

Lemma eraFold_mono x y : 0 <= x <= y -> y <= 146096 -> eraFold x <= eraFold y.
Proof.
  intros Hxy Hy.
  replace y with (x + Z.of_nat (Z.to_nat (y - x))) in * by lia.
  induction (Z.to_nat (y - x)) as [|n IH]; [rewrite Z.add_0_r; lia|].
  rewrite Nat2Z.inj_succ in *.
  etransitivity; [apply IH; lia|].
  replace (x + Z.succ (Z.of_nat n)) with (x + Z.of_nat n + 1) by lia.
  apply eraFold_step. lia.
Qed.

Lemma yoeOf_mono x y : 0 <= x <= y -> y <= 146096 -> yoeOf x <= yoeOf y.
Proof.
  intros Hxy Hy. unfold yoeOf. apply Z.div_le_mono; [lia|].
  apply eraFold_mono; assumption.
Qed.

Lemma yearBegin_400 : yearBegin 400 = daysPerEra.
Proof. vm_compute. reflexivity. Qed.

Lemma yearBegin_start y : 0 <= y < 400 -> yearBegin y = yearStart y.
Proof. intros. unfold yearBegin. rewrite Z.div_small by lia. lia. Qed.

Lemma year_facts y :
  0 <= y < 400 ->
  yoeOf (yearBegin y) = y /\ yoeOf (yearBegin (y + 1) - 1) = y /\
  365 <= yearBegin (y + 1) - yearBegin y <= 366.
Proof.
  intros Hy. pose proof (allBelow_spec _ _ years_checked y) as H.
  specialize (H ltac:(lia)). unfold yearCheck in H.
  repeat (apply andb_prop in H as [H ?]). lia.
Qed.

Lemma yearBegin_nonneg y : 0 <= y -> 0 <= yearBegin y.
Proof. intros. unfold yearBegin, yearStart. Z.to_euclidean_division_equations; lia. Qed.

Lemma yearBegin_le_era y : 0 <= y <= 400 -> yearBegin y <= daysPerEra.
Proof. intros. unfold yearBegin, yearStart, daysPerEra. Z.to_euclidean_division_equations; lia. Qed.

(** Every day of the era lies in one of its 400 years. *)
Lemma year_of_doe (n : nat) doe :
  0 <= doe < yearBegin (Z.of_nat n) ->
  exists y, 0 <= y < Z.of_nat n /\ yearBegin y <= doe < yearBegin (y + 1).
Proof.
  induction n as [|n IH]; intros H.
  - change (yearBegin (Z.of_nat 0)) with 0 in H. lia.
  - destruct (Z_lt_dec doe (yearBegin (Z.of_nat n))) as [Hlt|Hge].
    + destruct IH as (y & Hy & Hr); [lia|]. exists y. split; [lia|exact Hr].
    + exists (Z.of_nat n). split; [lia|].
      replace (Z.of_nat n + 1) with (Z.of_nat (S n)) by lia. lia.
Qed.

Lemma yoeOf_in_year y doe :
  0 <= y < 400 -> yearBegin y <= doe < yearBegin (y + 1) -> yoeOf doe = y.
Proof.
  intros Hy Hdoe. destruct (year_facts y Hy) as (Hlo & Hhi & Hlen).
  pose proof (yearBegin_nonneg y ltac:(lia)).
  pose proof (yearBegin_le_era (y + 1) ltac:(lia)). unfold daysPerEra in *.
  pose proof (yoeOf_mono (yearBegin y) doe ltac:(lia) ltac:(lia)).
  pose proof (yoeOf_mono doe (yearBegin (y + 1) - 1) ltac:(lia) ltac:(lia)).
  lia.
Qed.

(** The day of the year advances with the day, away from the year's end. *)
Lemma doyOf_next d k :
  0 <= k <= 2 -> doyOf (doeOf d) <= 362 ->
  doyOf (doeOf (d + k)) = doyOf (doeOf d) + k /\ 0 <= doyOf (doeOf d).
Proof.
  intros Hk Hdoy.
  assert (Hdoe : 0 <= doeOf d < daysPerEra) by (apply Z.mod_pos_bound; reflexivity).
  destruct (year_of_doe 400 (doeOf d)) as (y & Hy & Hr).
  { change (Z.of_nat 400) with 400. rewrite yearBegin_400. exact Hdoe. }
  change (Z.of_nat 400) with 400 in Hy.
  destruct (year_facts y Hy) as (_ & _ & Hlen).
  pose proof (yearBegin_le_era (y + 1) ltac:(lia)) as Hle.
  pose proof (yearBegin_start y Hy) as Hs.
  unfold doyOf in *. rewrite (yoeOf_in_year y (doeOf d) Hy Hr) in *.
  assert (Hnext : doeOf (d + k) = doeOf d + k).
  { unfold doeOf in *. replace (d + k + 719468) with (d + 719468 + k) by lia.
    rewrite <- Zplus_mod_idemp_l. apply Z.mod_small. lia. }
  rewrite Hnext. rewrite (yoeOf_in_year y (doeOf d + k) Hy) by lia. lia.
Qed.

Lemma doyOf_range d : 0 <= doyOf (doeOf d) <= 365.
Proof.
  assert (Hdoe : 0 <= doeOf d < daysPerEra) by (apply Z.mod_pos_bound; reflexivity).
  destruct (year_of_doe 400 (doeOf d)) as (y & Hy & Hr).
  { change (Z.of_nat 400) with 400. rewrite yearBegin_400. exact Hdoe. }
  change (Z.of_nat 400) with 400 in Hy.
  destruct (year_facts y Hy) as (_ & _ & Hlen).
  pose proof (yearBegin_start y Hy) as Hs.
  unfold doyOf. rewrite (yoeOf_in_year y (doeOf d) Hy Hr). lia.
Qed.

Lemma holidayOfDay_doy d :
  holidayOfDay d = (doyOf (doeOf d) =? 299) || (doyOf (doeOf d) =? 306).
Proof.
  unfold holidayOfDay. rewrite MonthOfDay_doy, DateOfDay_doy.
  pose proof (doyOf_range d) as Hr.
  pose proof (allBelow_spec _ _ doys_checked (doyOf (doeOf d)) ltac:(lia)) as H.
  unfold doyCheck, holidayOfDoy in H. apply Bool.eqb_prop in H. exact H.
Qed.

(** No holiday is followed by another within the next two days. *)
Lemma holiday_apart d k :
  1 <= k <= 2 -> holidayOfDay d = true -> holidayOfDay (d + k) = false.
Proof.
  intros Hk H. rewrite holidayOfDay_doy in *.
  assert (Hd : doyOf (doeOf d) = 299 \/ doyOf (doeOf d) = 306) by lia.
  destruct (doyOf_next d k ltac:(lia) ltac:(lia)) as [-> _]. lia.
Qed.

Lemma noDrawOfDay_cases d :
  noDrawOfDay d = (WeekDayOfDay d =? 0) || holidayOfDay d.
Proof.
  unfold noDrawOfDay, holidayOfDay.
  destruct (WeekDayOfDay d =? 0); [reflexivity|].
  destruct ((MonthOfDay d =? 11) && (DateOfDay d =? 25)); [reflexivity|].
  destruct ((MonthOfDay d =? 0) && (DateOfDay d =? 1)); reflexivity.
Qed.

(** Among three consecutive days one is a draw day. *)
Lemma draw_within_three d :
  noDrawOfDay d = false \/ noDrawOfDay (d + 1) = false \/ noDrawOfDay (d + 2) = false.
Proof.
  rewrite !noDrawOfDay_cases.
  pose proof (holiday_apart d 1 ltac:(lia)) as H01.
  pose proof (holiday_apart d 2 ltac:(lia)) as H02.
  pose proof (holiday_apart (d + 1) 1 ltac:(lia)) as H12.
  replace (d + 1 + 1) with (d + 2) in H12 by lia.
  assert (Hw : WeekDayOfDay (d + 1) = (WeekDayOfDay d + 1) mod 7
            /\ WeekDayOfDay (d + 2) = (WeekDayOfDay d + 2) mod 7
            /\ 0 <= WeekDayOfDay d < 7).
  { unfold WeekDayOfDay. Z.to_euclidean_division_equations; lia. }
  destruct Hw as (Hw1 & Hw2 & Hw0).
  destruct (holidayOfDay d), (holidayOfDay (d + 1)), (holidayOfDay (d + 2));
    try (specialize (H01 eq_refl)); try (specialize (H02 eq_refl));
    try (specialize (H12 eq_refl)); try discriminate;
    rewrite ?orb_false_r, ?orb_true_r;
    destruct (Z.eqb_spec (WeekDayOfDay d) 0), (Z.eqb_spec (WeekDayOfDay (d + 1)) 0),
      (Z.eqb_spec (WeekDayOfDay (d + 2)) 0); auto;
    exfalso; revert Hw1 Hw2; Z.to_euclidean_division_equations; lia.
Qed.

Section CalendarFacts.

Variable tz : Z.

Lemma isNoDrawDay_day t : isNoDrawDay tz t = noDrawOfDay (Day (LocalTime tz t)).
Proof. reflexivity. Qed.

Lemma Day_setHoursZero_add t k :
  Day (LocalTime tz (setHoursZero tz t + k * msPerDay)) = Day (LocalTime tz t) + k.
Proof.
  unfold setHoursZero, LocalTime, Day.
  replace (t / msPerDay * msPerDay) with (t / msPerDay * msPerDay) by reflexivity.
  match goal with |- ?a / _ = _ => replace a with (((t + tz * msPerMinute) / msPerDay + k) * msPerDay) by lia end.
  apply Z.div_mul. discriminate.
Qed.

Lemma scanDrawDays_found noDraw : forall (n : nat) (i probe : Z) (k : nat),
  0 <= i -> (k < n)%nat ->
  let first := if 0 <? i then setDateNext probe else probe in
  (forall j : nat, (j < k)%nat -> noDraw (first + Z.of_nat j * msPerDay) = true) ->
  noDraw (first + Z.of_nat k * msPerDay) = false ->
  scanDrawDays noDraw n i probe = Ok (first + Z.of_nat k * msPerDay).
Proof.
  induction n as [|n IH]; intros i probe k Hi Hk first Hbefore Hat; [lia|].
  cbn [scanDrawDays]. fold first.
  destruct k as [|k].
  - rewrite Z.mul_0_l, Z.add_0_r in *. rewrite Hat. reflexivity.
  - pose proof (Hbefore O ltac:(lia)) as H0. rewrite Z.mul_0_l, Z.add_0_r in H0.
    rewrite H0. cbn [negb].
    assert (Hshift : forall j : nat,
              first + Z.of_nat (S j) * msPerDay = setDateNext first + Z.of_nat j * msPerDay).
    { intros j. unfold setDateNext. lia. }
    rewrite Hshift. 
    replace (setDateNext first) with (if 0 <? i + 1 then setDateNext first else first)
      by (destruct (Z.ltb_spec 0 (i + 1)); [reflexivity|lia]).
    apply IH; [lia|lia| |].
    + intros j Hj. destruct (Z.ltb_spec 0 (i + 1)); [|lia].
      rewrite <- Hshift. apply Hbefore. lia.
    + destruct (Z.ltb_spec 0 (i + 1)); [|lia]. rewrite <- Hshift. exact Hat.
Qed.

Lemma scanDrawDays_exhausted noDraw : forall (n : nat) (i probe : Z),
  0 <= i ->
  let first := if 0 <? i then setDateNext probe else probe in
  (forall j : nat, (j < n)%nat -> noDraw (first + Z.of_nat j * msPerDay) = true) ->
  scanDrawDays noDraw n i probe = Throw "No valid draw date found in range".
Proof.
  induction n as [|n IH]; intros i probe Hi first Hall; [reflexivity|].
  cbn [scanDrawDays]. fold first.
  pose proof (Hall O ltac:(lia)) as H0. rewrite Z.mul_0_l, Z.add_0_r in H0.
  rewrite H0. cbn [negb].
  apply IH; [lia|]. intros j Hj. destruct (Z.ltb_spec 0 (i + 1)); [|lia].
  specialize (Hall (S j) ltac:(lia)).
  replace (setDateNext first + Z.of_nat j * msPerDay)
    with (first + Z.of_nat (S j) * msPerDay) by (unfold setDateNext; lia).
  exact Hall.
Qed.

(** The day that [getNextValidDrawDate] returns: the first draw day among
    the local day of [fromDate] and the two days after it. *)
Lemma getNextValidDrawDate_ok fromDate :
  exists k : nat, (k <= 2)%nat /\
    getNextValidDrawDate tz fromDate = Ok (setHoursZero tz fromDate + Z.of_nat k * msPerDay) /\
    isNoDrawDay tz (setHoursZero tz fromDate + Z.of_nat k * msPerDay) = false /\
    forall j : nat, (j < k)%nat ->
      isNoDrawDay tz (setHoursZero tz fromDate + Z.of_nat j * msPerDay) = true.
Proof.
  set (m := setHoursZero tz fromDate).
  assert (Hnd : forall j : nat, isNoDrawDay tz (m + Z.of_nat j * msPerDay)
                  = noDrawOfDay (Day (LocalTime tz fromDate) + Z.of_nat j)).
  { intros j. rewrite isNoDrawDay_day. unfold m. rewrite Day_setHoursZero_add. reflexivity. }
  assert (Hk : exists k : nat, (k <= 2)%nat /\
             isNoDrawDay tz (m + Z.of_nat k * msPerDay) = false /\
             forall j : nat, (j < k)%nat -> isNoDrawDay tz (m + Z.of_nat j * msPerDay) = true).
  { pose proof (draw_within_three (Day (LocalTime tz fromDate))) as H3.
    assert (H0 : isNoDrawDay tz (m + Z.of_nat 0 * msPerDay)
                 = noDrawOfDay (Day (LocalTime tz fromDate)))
      by (rewrite (Hnd 0%nat); f_equal; apply Z.add_0_r).
    assert (H1 : isNoDrawDay tz (m + Z.of_nat 1 * msPerDay)
                 = noDrawOfDay (Day (LocalTime tz fromDate) + 1)) by apply (Hnd 1%nat).
    assert (H2 : isNoDrawDay tz (m + Z.of_nat 2 * msPerDay)
                 = noDrawOfDay (Day (LocalTime tz fromDate) + 2)) by apply (Hnd 2%nat).
    destruct (noDrawOfDay (Day (LocalTime tz fromDate))) eqn:E0.
    - destruct (noDrawOfDay (Day (LocalTime tz fromDate) + 1)) eqn:E1.
      + exists 2%nat. split; [lia|]. split.
        * rewrite H2. destruct H3 as [H3|[H3|H3]]; [discriminate H3|discriminate H3|exact H3].
        * intros j Hj. destruct j as [|[|j]]; [exact H0|exact H1|lia].
      + exists 1%nat. split; [lia|]. split; [exact H1|].
        intros j Hj. destruct j as [|j]; [exact H0|lia].
    - exists 0%nat. split; [lia|]. split; [exact H0|]. intros j Hj. lia. }
  destruct Hk as (k & Hk2 & Hat & Hbefore).
  exists k. split; [exact Hk2|]. split; [|split; assumption].
  unfold getNextValidDrawDate. fold m.
  apply (scanDrawDays_found (isNoDrawDay tz) 14 0 m k); [lia|lia|exact Hbefore|exact Hat].
Qed.


(** C5. [getNextValidDrawDate] scans at most 14 days, from the local day of
    the starting date on, and throws when all of them are no-draw days
    (first part, for any no-draw test); with the rule of [isNoDrawDay]
    (Sundays, December 25, January 1) it never throws: it returns the
    midnight of the earliest draw day at or after the starting date, which
    is at most two days away. *)
Theorem getNextValidDrawDate_bounded_total :
  (forall (noDraw : Z -> bool) (probe : Z),
      (forall j : nat, (j < 14)%nat -> noDraw (probe + Z.of_nat j * msPerDay) = true) ->
      scanDrawDays noDraw 14 0 probe = Throw "No valid draw date found in range") /\
  (forall fromDate : Z, exists k : nat, (k <= 2)%nat /\
      getNextValidDrawDate tz fromDate
        = Ok (setHoursZero tz fromDate + Z.of_nat k * msPerDay) /\
      isNoDrawDay tz (setHoursZero tz fromDate + Z.of_nat k * msPerDay) = false /\
      forall j : nat, (j < k)%nat ->
        isNoDrawDay tz (setHoursZero tz fromDate + Z.of_nat j * msPerDay) = true).
Proof.
  split.
  - intros noDraw probe Hall.
    apply (scanDrawDays_exhausted noDraw 14 0 probe); [lia|exact Hall].
  - exact getNextValidDrawDate_ok.
Qed.

End CalendarFacts.

Lemma getNextValidDrawDate_bounded_total_witness :
  scanDrawDays (fun _ => true) 14 0 0 = Throw "No valid draw date found in range".
Proof.
  apply (proj1 (getNextValidDrawDate_bounded_total 0)).
  intros j Hj. reflexivity.
Defined.

(** ** The recharge matcher *)

Lemma append_dash_nonempty a b : String.eqb (a ++ "-" ++ b) "" = false.
Proof. destruct a; reflexivity. Qed.

Lemma getBrazilDateString_nonempty t : String.eqb (getBrazilDateString t) "" = false.
Proof. unfold getBrazilDateString. cbv zeta. apply append_dash_nonempty. Qed.

Lemma In_sortInsert {A : Type} (compare : A -> A -> Z) x y l :
  In y (sortInsert compare x l) <-> y = x \/ In y l.
Proof.
  induction l as [|z l IH]; cbn [sortInsert].
  - cbn. intuition.
  - destruct (compare x z <=? 0); cbn [In]; [intuition|].
    rewrite IH. cbn [In]. intuition.
Qed.

Lemma In_jsSort {A : Type} (compare : A -> A -> Z) y l :
  In y (jsSort compare l) <-> In y l.
Proof.
  induction l as [|x l IH]; cbn [jsSort fold_right]; [reflexivity|].
  fold (jsSort compare l). rewrite In_sortInsert, IH. cbn [In]. intuition.
Qed.

Lemma length_sortInsert {A : Type} (compare : A -> A -> Z) x l :
  List.length (sortInsert compare x l) = S (List.length l).
Proof.
  induction l as [|z l IH]; cbn [sortInsert]; [reflexivity|].
  destruct (compare x z <=? 0); cbn [List.length]; [reflexivity|]. rewrite IH. reflexivity.
Qed.

Lemma length_jsSort {A : Type} (compare : A -> A -> Z) l :
  List.length (jsSort compare l) = List.length l.
Proof.
  induction l as [|x l IH]; cbn [jsSort fold_right]; [reflexivity|].
  fold (jsSort compare l). rewrite length_sortInsert, IH. reflexivity.
Qed.

Section MatcherFacts.

Variable tz : Z.

(** [getEligibleDrawDate] never throws, and yields a day for a valid time. *)
Lemma getEligibleDrawDate_Some t :
  getEligibleDrawDate tz (Some t) = Ok (Some (eligibleDrawOf tz t)).
Proof.
  unfold eligibleDrawOf, getEligibleDrawDate. cbv zeta.
  rewrite getBrazilDateString_nonempty.
  destruct (negb (isNoDrawDay tz (brazilMidnight t)) &&
            (getHours tz t <? getCutoffHour tz (brazilMidnight t))); [reflexivity|].
  destruct (getNextValidDrawDate_ok tz (setDateNext (brazilMidnight t))) as (k & _ & -> & _).
  reflexivity.
Qed.

(** From here on the draw day of a time is used through the two lemmas
    above only. *)
Opaque eligibleDrawOf getBrazilDateString.

Lemma rechargeUsedBy_existsb eligibleDrawStr priors :
  rechargeUsedBy tz eligibleDrawStr priors
  = Ok (existsb (fun prior =>
                   match parsedDate prior with
                   | Some pt => String.eqb (eligibleDrawStrOf tz pt) eligibleDrawStr
                   | None => false
                   end) priors).
Proof.
  induction priors as [|p priors IH]; [reflexivity|].
  cbn [rechargeUsedBy existsb].
  destruct (parsedDate p) as [pt|].
  - rewrite getEligibleDrawDate_Some. cbn [bindR].
    change (getBrazilDateString (eligibleDrawOf tz pt)) with (eligibleDrawStrOf tz pt).
    destruct (String.eqb (eligibleDrawStrOf tz pt) eligibleDrawStr); [reflexivity|exact IH].
  - cbn [getEligibleDrawDate bindR]. exact IH.
Qed.

Lemma matchLoop_find tk ticketTime allTickets rs :
  matchLoop tz tk ticketTime allTickets rs
  = Ok (List.find (rechargeFree tz tk ticketTime allTickets) rs).
Proof.
  induction rs as [|r rs IH]; [reflexivity|].
  cbn [matchLoop List.find]. unfold rechargeFree at 1.
  destruct (rechargeTime r) as [rt|].
  - rewrite getEligibleDrawDate_Some. cbn [bindR].
    rewrite getBrazilDateString_nonempty.
    change (getBrazilDateString (eligibleDrawOf tz rt)) with (eligibleDrawStrOf tz rt).
    destruct (String.eqb (normalizeDrawDate (drawDate tk)) (eligibleDrawStrOf tz rt));
      cbn [negb andb]; [|exact IH].
    rewrite rechargeUsedBy_existsb. cbn [bindR].
    destruct (List.filter (isPriorTicket tk ticketTime r) allTickets) as [|p ps] eqn:Ef.
    + reflexivity.
    + cbn [List.length Nat.eqb].
      match goal with |- context [existsb ?f (p :: ps)] => destruct (existsb f (p :: ps)) end;
        cbn [negb]; [exact IH|reflexivity].
  - cbn [getEligibleDrawDate bindR]. exact IH.
Qed.

(** [findMatchingRecharge] never throws. *)
Lemma findMatchingRecharge_Ok tk recharges allTickets :
  exists o, findMatchingRecharge tz tk recharges allTickets = Ok o.
Proof.
  unfold findMatchingRecharge.
  destruct (parsedDate tk) as [tt|]; [|eauto].
  destruct (Nat.eqb (List.length recharges) 0); [eauto|].
  match goal with |- context [Nat.eqb ?n 0] => destruct (Nat.eqb n 0) end; [eauto|].
  rewrite matchLoop_find. eauto.
Qed.

Lemma findMatchingRecharge_Some tk recharges allTickets r :
  findMatchingRecharge tz tk recharges allTickets = Ok (Some r) ->
  exists ticketTime rt,
    parsedDate tk = Some ticketTime /\ rechargeTime r = Some rt /\ rt < ticketTime /\
    In r recharges /\ rechargeFree tz tk ticketTime allTickets r = true.
Proof.
  unfold findMatchingRecharge.
  destruct (parsedDate tk) as [tt|]; [|discriminate].
  destruct (Nat.eqb (List.length recharges) 0); [discriminate|].
  match goal with |- context [Nat.eqb ?n 0] => destruct (Nat.eqb n 0) end; [discriminate|].
  rewrite matchLoop_find. intros H. injection H as H.
  apply List.find_some in H as [Hin Hfree].
  apply In_jsSort in Hin. apply List.filter_In in Hin as [Hin Hlt].
  destruct (rechargeTime r) as [rt|] eqn:Ert; [|discriminate].
  exists tt, rt. repeat split; try assumption. lia.
Qed.

(** C8. A recharge returned by [findMatchingRecharge] is one of the
    recharges passed in, its time is valid and strictly earlier than the
    ticket's registration time, and the draw date of its eligible draw, as
    [getBrazilDateString] renders it (YYYY-MM-DD), is the ticket's draw date
    as the function normalises it (DD/MM/YYYY turned into YYYY-MM-DD, a
    date that starts with a four-character part kept as it is). *)
Theorem findMatchingRecharge_postcondition tk recharges allTickets r :
  findMatchingRecharge tz tk recharges allTickets = Ok (Some r) ->
  exists ticketTime rt d,
    parsedDate tk = Some ticketTime /\ rechargeTime r = Some rt /\ rt < ticketTime /\
    In r recharges /\
    getEligibleDrawDate tz (rechargeTime r) = Ok (Some d) /\
    getBrazilDateString d = normalizeDrawDate (drawDate tk).
Proof.
  intros H. apply findMatchingRecharge_Some in H as (tt & rt & Htk & Hr & Hlt & Hin & Hfree).
  exists tt, rt, (eligibleDrawOf tz rt). repeat split; try assumption.
  - rewrite Hr. apply getEligibleDrawDate_Some.
  - unfold rechargeFree in Hfree. rewrite Hr in Hfree.
    apply andb_prop in Hfree as [Heq _]. apply String.eqb_eq in Heq. symmetry. exact Heq.
Qed.

End MatcherFacts.

Lemma findMatchingRecharge_postcondition_witness :
  exists ticketTime rt d,
    parsedDate (sampleTicket "T-1" (mondayAt 19 + 60000) "08/01/2024") = Some ticketTime /\
    rechargeTime sampleRecharge = Some rt /\ rt < ticketTime /\
    In sampleRecharge [sampleRecharge] /\
    getEligibleDrawDate (-180) (rechargeTime sampleRecharge) = Ok (Some d) /\
    getBrazilDateString d
      = normalizeDrawDate (drawDate (sampleTicket "T-1" (mondayAt 19 + 60000) "08/01/2024")).
Proof.
  apply (findMatchingRecharge_postcondition (-180)
           (sampleTicket "T-1" (mondayAt 19 + 60000) "08/01/2024")
           [sampleRecharge] [sampleTicket "T-1" (mondayAt 19 + 60000) "08/01/2024"]
           sampleRecharge).
  vm_compute. reflexivity.
Defined.

(** ** The ticket validator *)

Lemma filter_nil_forall {A : Type} (P : A -> bool) l :
  (forall x, In x l -> P x = false) -> List.filter P l = [].
Proof.
  induction l as [|x l IH]; intros H; [reflexivity|].
  cbn [List.filter]. rewrite (H x (or_introl eq_refl)). apply IH.
  intros y Hy. apply H. right. exact Hy.
Qed.

Lemma MinFromTime_bound t : 0 <= MinFromTime t < 60.
Proof. unfold MinFromTime. apply Z.mod_pos_bound. lia. Qed.

Lemma HourFromTime_bound t : 0 <= HourFromTime t < 24.
Proof. unfold HourFromTime. apply Z.mod_pos_bound. lia. Qed.

Section ValidatorFacts.

Variable tz : Z.

(** What [validateTicket] computes once the upstream status, the game id
    and the recharges of the player let it reach the matcher. *)
Lemma validateTicketWith_reaches_matcher matcher tk rmap tmap :
  shortCircuited tk = false ->
  String.eqb (gameId tk) "" = false ->
  Nat.eqb (List.length (default [] (rmap !! gameId tk))) 0 = false ->
  validateTicketWith tz matcher tk rmap tmap
  = let cutoff :=
        match parsedDate tk with
        | Some t => getCutoffHour tz (brazilNoon t) <=? getHours tz t
        | None => false
        end in
    let! matched := matcher tk (default [] (rmap !! gameId tk)) (default [] (tmap !! gameId tk)) in
    match matched with
    | Some r =>
        Ok (mkValidation tk VALID
              ("Matched recharge R$" ++ (if amount r =? 0 then "?" else numberToString (amount r)))
              (Some r) cutoff)
    | None =>
        Ok (mkValidation tk INVALID
              "Recharge exists but timing does not match draw window" None cutoff)
    end.
Proof.
  intros Hsc Hg Hr. unfold shortCircuited in Hsc.
  apply orb_false_elim in Hsc as [Hv Hi].
  unfold validateTicketWith. rewrite Hv, Hi, Hg, Hr. cbv zeta.
  destruct (parsedDate tk) as [t|]; [|reflexivity].
  rewrite getBrazilDateString_nonempty.
  pose proof (MinFromTime_bound (LocalTime tz t)) as Hm. unfold getMinutes.
  replace (59 <? MinFromTime (LocalTime tz t)) with false
    by (symmetry; apply Z.ltb_ge; lia).
  rewrite andb_false_r, orb_false_r. reflexivity.
Qed.

(** [validateTicket] never throws. *)
Lemma validateTicket_Ok tk rmap tmap :
  exists v, validateTicket tz tk rmap tmap = Ok v /\ ticket v = tk.
Proof.
  unfold validateTicket.
  destruct (shortCircuited tk) eqn:Hsc.
  - unfold shortCircuited in Hsc. unfold validateTicketWith.
    destruct (includes ["VALID"; "VALIDADO"; "VALIDATED"] (toUpperCase (status tk))); [eauto|].
    cbn [orb] in Hsc. rewrite Hsc. eauto.
  - destruct (String.eqb (gameId tk) "") eqn:Hg.
    { unfold shortCircuited in Hsc. apply orb_false_elim in Hsc as [Hv Hi].
      unfold validateTicketWith. rewrite Hv, Hi, Hg. eauto. }
    destruct (Nat.eqb (List.length (default [] (rmap !! gameId tk))) 0) eqn:Hr.
    { unfold shortCircuited in Hsc. apply orb_false_elim in Hsc as [Hv Hi].
      unfold validateTicketWith. rewrite Hv, Hi, Hg, Hr. eauto. }
    rewrite validateTicketWith_reaches_matcher by assumption. cbv zeta.
    destruct (findMatchingRecharge_Ok tz tk (default [] (rmap !! gameId tk))
                (default [] (tmap !! gameId tk))) as [o ->].
    cbn [bindR]. destruct o; eauto.
Qed.

(** C1 (as amended). For a ticket that the upstream status does not decide
    and that has a game id with at least one recharge on record,
    [validateTicket] returns, and the cutoff flag of its outcome is true
    exactly when the ticket has a valid registration time whose hour is at
    or after the cutoff hour of its registration day; the flag is the same
    whatever recharges are on record for the player (as long as there is
    one) and whatever the matcher finds.  Without a game id or without a
    recharge on record the flag is false. *)
Theorem validateTicket_cutoff_flag tk rmap tmap :
  shortCircuited tk = false ->
  exists v, validateTicket tz tk rmap tmap = Ok v /\
    isCutoff v =
      if String.eqb (gameId tk) "" || Nat.eqb (List.length (default [] (rmap !! gameId tk))) 0
      then false
      else match parsedDate tk with
           | Some t => getCutoffHour tz (brazilNoon t) <=? getHours tz t
           | None => false
           end.
Proof.
  intros Hsc. unfold validateTicket.
  destruct (String.eqb (gameId tk) "") eqn:Hg.
  { unfold shortCircuited in Hsc. apply orb_false_elim in Hsc as [Hv Hi].
    unfold validateTicketWith. rewrite Hv, Hi, Hg. eauto. }
  destruct (Nat.eqb (List.length (default [] (rmap !! gameId tk))) 0) eqn:Hr.
  { unfold shortCircuited in Hsc. apply orb_false_elim in Hsc as [Hv Hi].
    unfold validateTicketWith. rewrite Hv, Hi, Hg, Hr. eauto. }
  rewrite validateTicketWith_reaches_matcher by assumption. cbv zeta.
  destruct (findMatchingRecharge_Ok tz tk (default [] (rmap !! gameId tk))
              (default [] (tmap !! gameId tk))) as [o ->].
  cbn [bindR orb]. destruct o; eauto.
Qed.

(** C6 (as amended). A ticket whose upstream status is VALID, VALIDADO or
    VALIDATED in any letter case is returned VALID with the reason
    [Pre-validated in source data], no recharge and no cutoff flag, whatever
    the matcher is: the matcher is not called, a matcher that throws
    included. *)
Theorem validateTicket_prevalidated matcher tk rmap tmap :
  includes ["VALID"; "VALIDADO"; "VALIDATED"] (toUpperCase (status tk)) = true ->
  validateTicketWith tz matcher tk rmap tmap
  = Ok (mkValidation tk VALID "Pre-validated in source data" None false).
Proof.
  intros H. unfold validateTicketWith. rewrite H. reflexivity.
Qed.

(** The outcome for the earlier and the later of two tickets behind one
    recharge, and the rule that the matcher enforces between two tickets. *)
Lemma two_tickets_one_recharge r t1 t2 T0 T1 T2 d0 d1 rmap tmap tickets :
  rechargeTime r = Some T0 -> parsedDate t1 = Some T1 -> parsedDate t2 = Some T2 ->
  T0 < T1 -> T1 < T2 ->
  gameId t1 = gameId t2 -> String.eqb (gameId t1) "" = false ->
  ticketNumber t1 <> ticketNumber t2 ->
  shortCircuited t1 = false -> shortCircuited t2 = false ->
  rmap !! gameId t1 = Some [r] ->
  tmap !! gameId t1 = Some tickets ->
  tickets = [t1; t2] \/ tickets = [t2; t1] ->
  getEligibleDrawDate tz (Some T0) = Ok (Some d0) ->
  getEligibleDrawDate tz (Some T1) = Ok (Some d1) ->
  getBrazilDateString d1 = getBrazilDateString d0 ->
  normalizeDrawDate (drawDate t1) = getBrazilDateString d0 ->
  exists v1 v2,
    validateTicket tz t1 rmap tmap = Ok v1 /\ vstatus v1 = VALID /\ matchedRecharge v1 = Some r /\
    validateTicket tz t2 rmap tmap = Ok v2 /\ vstatus v2 = INVALID /\ matchedRecharge v2 = None.
Proof.
  intros Hr Ht1 Ht2 H01 H12 Hg Hg1 Hnum Hs1 Hs2 Hrm Htm Horder He0 He1 Hd Hn.
  assert (Htk : forall t, In t tickets <-> t = t1 \/ t = t2).
  { intros t. destruct Horder as [-> | ->]; cbn [In]; intuition. }
  rewrite getEligibleDrawDate_Some in He0, He1.
  injection He0 as <-. injection He1 as <-.
  assert (Hfilter : forall tt, T0 < tt ->
            List.filter (fun x => match rechargeTime x with
                                  | Some rt => rt <? tt | None => false end) [r] = [r]).
  { intros tt Hlt. cbn [List.filter]. rewrite Hr.
    destruct (Z.ltb_spec T0 tt); [reflexivity|lia]. }
  assert (Hrun : forall tk tt, parsedDate tk = Some tt -> T0 < tt ->
            findMatchingRecharge tz tk [r] tickets
            = Ok (if rechargeFree tz tk tt tickets r then Some r else None)).
  { intros tk tt Htk' Hlt. unfold findMatchingRecharge. rewrite Htk'.
    cbn [List.length Nat.eqb]. rewrite (Hfilter tt Hlt). cbn [List.length Nat.eqb].
    rewrite matchLoop_find. cbn [jsSort fold_right sortInsert List.find]. reflexivity. }
  unfold validateTicket.
  rewrite (validateTicketWith_reaches_matcher _ t1), (validateTicketWith_reaches_matcher _ t2);
    try assumption; rewrite <- ?Hg; try assumption; try (rewrite Hrm; reflexivity).
  rewrite !Hrm, !Htm. cbn [default from_option id]. cbv zeta.
  rewrite (Hrun t1 T1 Ht1 H01), (Hrun t2 T2 Ht2 ltac:(lia)).
  assert (Hfree1 : rechargeFree tz t1 T1 tickets r = true).
  { unfold rechargeFree. rewrite Hr. unfold eligibleDrawStrOf. rewrite Hn, String.eqb_refl.
    rewrite filter_nil_forall; [reflexivity|].
    intros x Hx. apply Htk in Hx as [->| ->]; unfold isPriorTicket.
    - rewrite String.eqb_refl. reflexivity.
    - rewrite Ht2. destruct (Z.ltb_spec T2 T1); [lia|]. apply andb_false_r. }
  assert (Hfree2 : rechargeFree tz t2 T2 tickets r = false).
  { unfold rechargeFree. rewrite Hr.
    destruct (String.eqb (normalizeDrawDate (drawDate t2)) (eligibleDrawStrOf tz T0));
      [|reflexivity].
    cbn [andb]. apply negb_false_iff. apply existsb_exists. exists t1. split.
    - apply List.filter_In. split; [apply Htk; left; reflexivity|].
      unfold isPriorTicket, rechargeMs. rewrite Ht1, Hr.
      destruct (String.eqb_spec (ticketNumber t1) (ticketNumber t2)); [contradiction|].
      destruct (Z.ltb_spec T1 T2); [|lia]. destruct (Z.ltb_spec T0 T1); [reflexivity|lia].
    - rewrite Ht1. unfold eligibleDrawStrOf. rewrite Hd. apply String.eqb_refl. }
  rewrite Hfree1, Hfree2. cbn [bindR]. eauto 10.
Qed.

Lemma matched_recharge_not_claimed tk recharges allTickets r prior Tp Tt T0 dp d0 :
  findMatchingRecharge tz tk recharges allTickets = Ok (Some r) ->
  In prior allTickets -> ticketNumber prior <> ticketNumber tk ->
  parsedDate prior = Some Tp -> parsedDate tk = Some Tt -> rechargeTime r = Some T0 ->
  T0 < Tp -> Tp < Tt ->
  getEligibleDrawDate tz (Some Tp) = Ok (Some dp) ->
  getEligibleDrawDate tz (Some T0) = Ok (Some d0) ->
  getBrazilDateString dp <> getBrazilDateString d0.
Proof.
  intros H Hin Hnum Hp Htk Hr H0p Hpt Hep He0 Heq.
  rewrite getEligibleDrawDate_Some in Hep, He0.
  injection Hep as <-. injection He0 as <-.
  apply findMatchingRecharge_Some in H as (tt & rt & Htk' & Hr' & _ & _ & Hfree).
  rewrite Htk in Htk'. injection Htk' as <-. rewrite Hr in Hr'. injection Hr' as <-.
  unfold rechargeFree in Hfree. rewrite Hr in Hfree.
  apply andb_prop in Hfree as [_ Hnone]. apply negb_true_iff in Hnone.
  assert (Hex : existsb (fun prior0 =>
             match parsedDate prior0 with
             | Some pt => String.eqb (eligibleDrawStrOf tz pt) (eligibleDrawStrOf tz T0)
             | None => false
             end) (List.filter (isPriorTicket tk Tt r) allTickets) = true).
  { apply existsb_exists. exists prior. split.
    - apply List.filter_In. split; [exact Hin|].
      unfold isPriorTicket, rechargeMs. rewrite Hp, Hr.
      destruct (String.eqb_spec (ticketNumber prior) (ticketNumber tk)); [contradiction|].
      destruct (Z.ltb_spec Tp Tt); [|lia]. destruct (Z.ltb_spec T0 Tp); [reflexivity|lia].
    - rewrite Hp. unfold eligibleDrawStrOf. rewrite Heq. apply String.eqb_refl. }
  congruence.
Qed.

(** C3 (as amended).  One recharge at [T0], two tickets of one player with
    different ticket numbers registered at [T1 < T2], both after [T0],
    neither of them decided by its upstream status (VALID, VALIDADO,
    VALIDATED, INVALID or the source's second invalid literal), no other
    recharge and no other ticket of the player: when the recharge's
    eligible draw date is the draw date of the earlier ticket and the
    earlier ticket's registration time maps to that draw date too, the
    earlier ticket is VALID with that recharge and the later one INVALID.
    In general a ticket is not matched to a recharge when another ticket
    of the list (another ticket number), registered strictly between the
    recharge and the ticket, maps by its registration time to the
    recharge's eligible draw date. *)
Theorem recharge_exclusivity :
  (forall r t1 t2 T0 T1 T2 d0 d1 rmap tmap tickets,
      rechargeTime r = Some T0 -> parsedDate t1 = Some T1 -> parsedDate t2 = Some T2 ->
      T0 < T1 -> T1 < T2 ->
      gameId t1 = gameId t2 -> String.eqb (gameId t1) "" = false ->
      ticketNumber t1 <> ticketNumber t2 ->
      shortCircuited t1 = false -> shortCircuited t2 = false ->
      rmap !! gameId t1 = Some [r] ->
      tmap !! gameId t1 = Some tickets ->
      tickets = [t1; t2] \/ tickets = [t2; t1] ->
      getEligibleDrawDate tz (Some T0) = Ok (Some d0) ->
      getEligibleDrawDate tz (Some T1) = Ok (Some d1) ->
      getBrazilDateString d1 = getBrazilDateString d0 ->
      normalizeDrawDate (drawDate t1) = getBrazilDateString d0 ->
      exists v1 v2,
        validateTicket tz t1 rmap tmap = Ok v1 /\ vstatus v1 = VALID /\
        matchedRecharge v1 = Some r /\
        validateTicket tz t2 rmap tmap = Ok v2 /\ vstatus v2 = INVALID /\
        matchedRecharge v2 = None) /\
  (forall tk recharges allTickets r prior Tp Tt T0 dp d0,
      findMatchingRecharge tz tk recharges allTickets = Ok (Some r) ->
      In prior allTickets -> ticketNumber prior <> ticketNumber tk ->
      parsedDate prior = Some Tp -> parsedDate tk = Some Tt -> rechargeTime r = Some T0 ->
      T0 < Tp -> Tp < Tt ->
      getEligibleDrawDate tz (Some Tp) = Ok (Some dp) ->
      getEligibleDrawDate tz (Some T0) = Ok (Some d0) ->
      getBrazilDateString dp <> getBrazilDateString d0).
Proof.
  split.
  - exact two_tickets_one_recharge.
  - exact matched_recharge_not_claimed.
Qed.

End ValidatorFacts.

Lemma validateTicket_cutoff_flag_witness :
  exists v,
    validateTicket (-180) (sampleTicket "T-1" (mondayAt 21) "09/01/2024")
      (groupRecharges [sampleRecharge]) ∅ = Ok v /\
    isCutoff v = true.
Proof.
  apply (validateTicket_cutoff_flag (-180) (sampleTicket "T-1" (mondayAt 21) "09/01/2024")
           (groupRecharges [sampleRecharge]) ∅).
  vm_compute. reflexivity.
Defined.

(** C1, as stated, fails: a ticket registered at 21:00 on Monday 2024-01-08
    (cutoff hour 20) has the cutoff flag when a recharge of its player is on
    record and does not have it when none is. *)
Lemma validateTicket_cutoff_flag_counterexample :
  getHours (-180) (mondayAt 21) = 21 /\
  getCutoffHour (-180) (brazilNoon (mondayAt 21)) = 20 /\
  shortCircuited (sampleTicket "T-1" (mondayAt 21) "09/01/2024") = false /\
  (exists v, validateTicket (-180) (sampleTicket "T-1" (mondayAt 21) "09/01/2024")
               (groupRecharges [sampleRecharge]) ∅ = Ok v /\ isCutoff v = true) /\
  (exists v, validateTicket (-180) (sampleTicket "T-1" (mondayAt 21) "09/01/2024")
               (groupRecharges []) ∅ = Ok v /\ isCutoff v = false).
Proof.
  repeat split; try (vm_compute; reflexivity);
    eexists; (split; [vm_compute; reflexivity|reflexivity]).
Qed.

Lemma validateTicket_prevalidated_witness :
  validateTicketWith (-180) (fun _ _ _ => Throw "matcher called")
    (mkEntry (Some (mondayAt 21)) "POPN1" "1234567890" (Some [1; 2; 3; 4; 5])
       "08/01/2024" "10" "T-1" "Validado")
    ∅ ∅
  = Ok (mkValidation
          (mkEntry (Some (mondayAt 21)) "POPN1" "1234567890" (Some [1; 2; 3; 4; 5])
             "08/01/2024" "10" "T-1" "Validado")
          VALID "Pre-validated in source data" None false).
Proof.
  apply validateTicket_prevalidated. vm_compute. reflexivity.
Defined.

(** C6, as stated, fails on the reason: it is the text of the source, not
    [pre-validated upstream]. *)
Lemma validateTicket_prevalidated_counterexample :
  exists v,
    validateTicket (-180)
      (mkEntry (Some (mondayAt 21)) "POPN1" "1234567890" (Some [1; 2; 3; 4; 5])
         "08/01/2024" "10" "T-1" "VALID")
      ∅ ∅ = Ok v /\
    vstatus v = VALID /\
    reason v = "Pre-validated in source data" /\
    reason v <> "pre-validated upstream".
Proof.
  eexists. split; [vm_compute; reflexivity|].
  repeat split. discriminate.
Qed.

Lemma recharge_exclusivity_witness :
  exists v1 v2,
    validateTicket (-180) (sampleTicket "T-1" (mondayAt 19 + 60000) "08/01/2024")
      (groupRecharges [sampleRecharge])
      (groupTickets [sampleTicket "T-1" (mondayAt 19 + 60000) "08/01/2024";
                     sampleTicket "T-2" (mondayAt 19 + 120000) "08/01/2024"]) = Ok v1 /\
    vstatus v1 = VALID /\ matchedRecharge v1 = Some sampleRecharge /\
    validateTicket (-180) (sampleTicket "T-2" (mondayAt 19 + 120000) "08/01/2024")
      (groupRecharges [sampleRecharge])
      (groupTickets [sampleTicket "T-1" (mondayAt 19 + 60000) "08/01/2024";
                     sampleTicket "T-2" (mondayAt 19 + 120000) "08/01/2024"]) = Ok v2 /\
    vstatus v2 = INVALID /\ matchedRecharge v2 = None.
Proof.
  apply (proj1 (recharge_exclusivity (-180)) sampleRecharge
           (sampleTicket "T-1" (mondayAt 19 + 60000) "08/01/2024")
           (sampleTicket "T-2" (mondayAt 19 + 120000) "08/01/2024")
           (mondayAt 19) (mondayAt 19 + 60000) (mondayAt 19 + 120000)
           (mondayAt 0) (mondayAt 0) (groupRecharges [sampleRecharge])
           (groupTickets [sampleTicket "T-1" (mondayAt 19 + 60000) "08/01/2024";
                          sampleTicket "T-2" (mondayAt 19 + 120000) "08/01/2024"])
           [sampleTicket "T-1" (mondayAt 19 + 60000) "08/01/2024";
            sampleTicket "T-2" (mondayAt 19 + 120000) "08/01/2024"]);
    try (vm_compute; reflexivity); try (vm_compute; lia).
  - vm_compute. discriminate.
  - left. reflexivity.
Defined.

(** C3, as stated, fails: a recharge at 19:00 and two tickets of the player
    at 21:00 and 22:00 of the same Monday, both for the draw of that Monday
    (the recharge's eligible draw) and both mapping, by their registration
    time, to the same next draw: both are VALID, matched to the one
    recharge. *)
Lemma recharge_exclusivity_counterexample :
  rechargeTime sampleRecharge = Some (mondayAt 19) /\
  mondayAt 19 < mondayAt 21 < mondayAt 22 /\
  getEligibleDrawDate (-180) (Some (mondayAt 21))
    = getEligibleDrawDate (-180) (Some (mondayAt 22)) /\
  exists cache,
    validateAllTickets (-180) emptyCache
      [sampleTicket "T-1" (mondayAt 21) "2024-01-08";
       sampleTicket "T-2" (mondayAt 22) "2024-01-08"]
      [sampleRecharge] false
    = Some (Ok (mkValidationRun
                  [mkValidation (sampleTicket "T-1" (mondayAt 21) "2024-01-08") VALID
                     "Matched recharge R$50" (Some sampleRecharge) true;
                   mkValidation (sampleTicket "T-2" (mondayAt 22) "2024-01-08") VALID
                     "Matched recharge R$50" (Some sampleRecharge) true]
                  (mkValidationStats 2 2 0 0 2) 1,
                cache)).
Proof.
  repeat split; try (vm_compute; reflexivity).
  eexists. vm_compute. reflexivity.
Qed.

(** ** Validation of all tickets *)

Lemma foldResult_app {A St : Type} (body : St -> A -> result St) l1 l2 s :
  foldResult body (l1 ++ l2)%list s
  = let! s' := foldResult body l1 s in foldResult body l2 s'.
Proof.
  revert s. induction l1 as [|x l1 IH]; intros s; [reflexivity|].
  cbn [foldResult app]. destruct (body s x) as [s'|msg]; cbn [bindR]; [apply IH|reflexivity].
Qed.

(** A batched loop with a positive batch size and one unit of fuel per
    remaining item (and one more) runs to its end, and computes what the
    loop over all the items computes. *)
Lemma forBatches_foldResult {A St : Type} (body : St -> A -> result St) (b : nat) items :
  forall (fuel i : nat) (s : St),
    (List.length items - i < fuel)%nat ->
    forBatches (S b) body fuel i items s = Some (foldResult body (skipn i items) s).
Proof.
  induction fuel as [|fuel IH]; intros i s Hfuel; [lia|].
  cbn [forBatches].
  destruct (Nat.ltb_spec i (List.length items)) as [Hlt|Hge].
  - rewrite <- (firstn_skipn (S b) (skipn i items)) at 2.
    rewrite foldResult_app.
    destruct (foldResult body (firstn (S b) (skipn i items)) s) as [s'|msg];
      cbn [bindR]; [|reflexivity].
    rewrite IH by lia. rewrite skipn_skipn. do 2 f_equal. f_equal. lia.
  - rewrite skipn_all2 by lia. reflexivity.
Qed.

(** The grouping loop throws at the first game id that names a member of
    [Object.prototype]; without such an id it builds the map of the records
    by game id. *)
Lemma groupByGameId_spec {A : Type} (key : A -> string) (subject : string) (items : list A) :
  groupByGameId key subject items
  = if noInheritedNames (map key items)
    then Ok (fold_left (fun (m : gmap string (list A)) x =>
                          if String.eqb (key x) "" then m
                          else <[key x := (default [] (m !! key x) ++ [x])%list]> m)
                       items ∅)
    else Throw ("TypeError: " ++ subject ++ ".push is not a function").
Proof.
  unfold groupByGameId.
  assert (H : forall m : gmap string (list A),
            (forall k, isInheritedName k = true -> m !! k = None) ->
            foldResult (fun (byId : gmap string (list A)) x =>
                          if String.eqb (key x) "" then Ok byId
                          else
                            match byId !! key x with
                            | Some l => Ok (<[key x := (l ++ [x])%list]> byId)
                            | None =>
                                if isInheritedName (key x)
                                then Throw ("TypeError: " ++ subject ++ ".push is not a function")
                                else Ok (<[key x := [x]]> byId)
                            end) items m
            = if noInheritedNames (map key items)
              then Ok (fold_left (fun (m : gmap string (list A)) x =>
                                    if String.eqb (key x) "" then m
                                    else <[key x := (default [] (m !! key x) ++ [x])%list]> m)
                                 items m)
              else Throw ("TypeError: " ++ subject ++ ".push is not a function")).
  { induction items as [|x xs IH]; intros m Hm; [reflexivity|].
    cbn [foldResult map fold_left]. unfold noInheritedNames. cbn [forallb].
    fold (noInheritedNames (map key xs)).
    destruct (String.eqb_spec (key x) "") as [He|Hne].
    - rewrite He. cbn [bindR negb andb]. apply IH, Hm.
    - destruct (isInheritedName (key x)) eqn:Ei.
      + rewrite (Hm _ Ei). reflexivity.
      + cbn [negb andb].
        assert (Hm' : forall l k, isInheritedName k = true ->
                        (<[key x := l]> m : gmap string (list A)) !! k = None).
        { intros l k Hk. rewrite lookup_insert_ne; [apply Hm, Hk|].
          intros E. rewrite E in Ei. congruence. }
        destruct (m !! key x) as [l|]; cbn [bindR default from_option id app];
          apply IH, Hm'. }
  apply H. intros k _. apply lookup_empty.
Qed.

Lemma groupByGameId_recharges subject recharges :
  noInheritedNames (map rechargeGameId recharges) = true ->
  groupByGameId rechargeGameId subject recharges = Ok (groupRecharges recharges).
Proof. intros H. rewrite groupByGameId_spec, H. reflexivity. Qed.

Lemma groupByGameId_tickets subject entries :
  noInheritedNames (map gameId entries) = true ->
  groupByGameId gameId subject entries = Ok (groupTickets entries).
Proof. intros H. rewrite groupByGameId_spec, H. reflexivity. Qed.

Section RunFacts.

Variable tz : Z.

Lemma validateTicket_outcomeOf rmap tmap tk :
  validateTicket tz tk rmap tmap = Ok (outcomeOf tz rmap tmap tk).
Proof.
  unfold outcomeOf. destruct (validateTicket_Ok tz tk rmap tmap) as (v & -> & _). reflexivity.
Qed.


Lemma foldResult_validateStep rmap tmap entries :
  forall acc st,
    foldResult (validateStep tz rmap tmap) entries (acc, st)
    = Ok ((acc ++ map (outcomeOf tz rmap tmap) entries)%list,
          fold_left countValidation (map (outcomeOf tz rmap tmap) entries) st).
Proof.
  induction entries as [|e entries IH]; intros acc st.
  - cbn. rewrite app_nil_r. reflexivity.
  - cbn [foldResult map fold_left]. unfold validateStep at 1.
    rewrite validateTicket_outcomeOf. cbn [bindR fst snd].
    rewrite IH. rewrite <- app_assoc. reflexivity.
Qed.

Lemma countValidation_sum st v :
  total (countValidation st v) = total st /\
  (valid (countValidation st v) + invalid (countValidation st v)
   + unknown (countValidation st v) = S (valid st + invalid st + unknown st))%nat.
Proof.
  unfold countValidation. destruct (vstatus v), (isCutoff v); cbn; lia.
Qed.

Lemma fold_countValidation_sum vs : forall st,
  total (fold_left countValidation vs st) = total st /\
  (valid (fold_left countValidation vs st) + invalid (fold_left countValidation vs st)
   + unknown (fold_left countValidation vs st)
   = valid st + invalid st + unknown st + List.length vs)%nat.
Proof.
  induction vs as [|v vs IH]; intros st; cbn [fold_left List.length]; [lia|].
  destruct (IH (countValidation st v)) as [Ht Hs].
  destruct (countValidation_sum st v) as [Ht' Hs']. lia.
Qed.

(** The run that [validateAllTickets] computes when it does not return
    from the cache and the grouping loops do not throw. *)
Lemma validateAllTickets_compute b cache entries recharges :
  noInheritedNames (map rechargeGameId recharges) = true ->
  noInheritedNames (map gameId entries) = true ->
  validateAllTicketsBatched tz (S b) cache entries recharges true
  = let outcomes := map (outcomeOf tz (groupRecharges recharges) (groupTickets entries)) entries in
    let run := mkValidationRun outcomes
                 (fold_left countValidation outcomes
                    (mkValidationStats (List.length entries) 0 0 0 0))
                 (List.length recharges) in
    Some (Ok (run, setCachedValidation cache (CachedRun run))).
Proof.
  intros Hr He. unfold validateAllTicketsBatched. cbv zeta.
  rewrite (groupByGameId_recharges _ _ Hr), (groupByGameId_tickets _ _ He).
  rewrite forBatches_foldResult by lia.
  cbn [skipn]. rewrite foldResult_validateStep. reflexivity.
Qed.






End RunFacts.



(** ** The winners of a contest *)

Lemma emptyTiers_lookup t :
  emptyTiers !! t = if ((1 <=? t) && (t <=? 5))%nat then Some [] else None.
Proof.
  destruct t as [|[|[|[|[|[|t]]]]]]; try reflexivity.
  unfold emptyTiers. rewrite !lookup_insert_ne by lia. reflexivity.
Qed.

Lemma scoreEntry_scoreOf wn ws bt e :
  scoreEntry wn (ws, bt) e
  = match scoreOf wn e with
    | None => (ws, bt)
    | Some w =>
        (if qualifies w then (ws ++ [w])%list else ws,
         match bt !! matches w with
         | Some l => <[matches w := (l ++ [w])%list]> bt
         | None => bt
         end)
    end.
Proof.
  unfold scoreEntry, scoreOf. destruct (numbers e) as [nums|]; [|reflexivity].
  destruct (Nat.eqb (List.length nums) 0); [reflexivity|]. cbv zeta.
  destruct (0 <? count (countMatches nums wn))%nat; reflexivity.
Qed.

Lemma scoredEntries_cons wn e entries :
  scoredEntries wn (e :: entries)
  = match scoreOf wn e with
    | Some w => w :: scoredEntries wn entries
    | None => scoredEntries wn entries
    end.
Proof. reflexivity. Qed.

Lemma scoredEntries_app wn l1 l2 :
  scoredEntries wn (l1 ++ l2)%list = (scoredEntries wn l1 ++ scoredEntries wn l2)%list.
Proof.
  induction l1 as [|e l1 IH]; [reflexivity|].
  cbn [app]. rewrite !scoredEntries_cons. destruct (scoreOf wn e); cbn [app]; congruence.
Qed.

Lemma In_scoredEntries wn entries w :
  In w (scoredEntries wn entries) <-> exists e, In e entries /\ scoreOf wn e = Some w.
Proof.
  induction entries as [|e entries IH].
  - cbn. split; [tauto|]. intros (e & [] & _).
  - rewrite scoredEntries_cons. split.
    + destruct (scoreOf wn e) as [w'|] eqn:E.
      * intros [<-|H]; [exists e; split; [left; reflexivity|exact E]|].
        apply IH in H as (e' & He' & Hs). exists e'. split; [right; exact He'|exact Hs].
      * intros H. apply IH in H as (e' & He' & Hs). exists e'. split; [right; exact He'|exact Hs].
    + intros (e' & [<-|He'] & Hs).
      * rewrite Hs. left. reflexivity.
      * assert (In w (scoredEntries wn entries)) by (apply IH; eauto).
        destruct (scoreOf wn e); [right|]; assumption.
Qed.

(** The winners and the tiers after the loop over the entries. *)
Lemma fold_scoreEntry wn entries : forall ws bt,
  fst (fold_left (scoreEntry wn) entries (ws, bt))
    = (ws ++ List.filter qualifies (scoredEntries wn entries))%list /\
  forall t, snd (fold_left (scoreEntry wn) entries (ws, bt)) !! t
    = (fun l => (l ++ List.filter (fun w => Nat.eqb (matches w) t)
                        (scoredEntries wn entries))%list) <$> (bt !! t).
Proof.
  induction entries as [|e entries IH]; intros ws bt.
  - cbn. split; [rewrite app_nil_r; reflexivity|].
    intros t. destruct (bt !! t); cbn; [rewrite app_nil_r|]; reflexivity.
  - cbn [fold_left]. rewrite scoreEntry_scoreOf, scoredEntries_cons.
    destruct (scoreOf wn e) as [w|]; [|apply IH].
    match goal with |- context [fold_left _ _ (?a, ?b)] => destruct (IH a b) as [Hw Ht] end.
    split.
    + rewrite Hw. cbn [List.filter]. destruct (qualifies w); [|reflexivity].
      rewrite <- app_assoc. reflexivity.
    + intros t. rewrite Ht. cbn [List.filter].
      destruct (Nat.eqb_spec (matches w) t) as [->|Hne].
      * destruct (bt !! t) as [l|] eqn:El.
        -- rewrite lookup_insert_eq. cbn. rewrite <- app_assoc. reflexivity.
        -- rewrite El. reflexivity.
      * destruct (bt !! matches w) as [l|] eqn:El; [|reflexivity].
        rewrite lookup_insert_ne by exact Hne. reflexivity.
Qed.

Lemma calculateContestWinners_noResult entries result platform contestId :
  match result with
  | None => True
  | Some r => wellFormedResult r = false
  end ->
  calculateContestWinners entries result platform contestId
  = mkContestWinners
      (orElse (match result with Some r => resultContest r | None => "" end)
         (orElse contestId
            (orElse (match entries with e :: _ => contest e | [] => "" end) "Unknown")))
      (match result with Some r => resultDrawDate r | None => "" end)
      [] false (List.length entries) None [] ∅ 0 0%Q (getPrizePool platform) None None platform.
Proof.
  intros H. unfold calculateContestWinners. destruct result as [r|]; [|reflexivity].
  unfold wellFormedResult in H. cbv zeta.
  destruct (isNoDraw r); [reflexivity|]. cbn [negb andb orb] in *. rewrite H. reflexivity.
Qed.

(** The fields of the result of [calculateContestWinners] on a well-formed
    draw result. *)
Lemma calculateContestWinners_fields entries r platform contestId :
  wellFormedResult r = true ->
  let cw := calculateContestWinners entries (Some r) platform contestId in
  let scored := scoredEntries (resultNumbers r) entries in
  hasResult cw = true /\
  totalEntries cw = List.length entries /\
  winners cw = jsSort (fun a b => Z.of_nat (matches b) - Z.of_nat (matches a))
                 (List.filter qualifies scored) /\
  (forall t, byTier cw !! t
             = if ((1 <=? t) && (t <=? 5))%nat
               then Some (List.filter (fun w => Nat.eqb (matches w) t) scored) else None) /\
  winningTier cw = winningTierFrom (byTier cw) 5 /\
  prizePool cw = getPrizePool platform /\
  prizePerWinner cw
    = (if (0 <? winningTier cw)%nat && (0 <? List.length (validInTier cw (winningTier cw)))%nat
       then (inject_Z (prizePool cw) / inject_Z (Z.of_nat (List.length (validInTier cw (winningTier cw)))))%Q
       else 0%Q) /\
  totalPrizeAwarded cw
    = Some (if (0 <? winningTier cw)%nat && (0 <? List.length (validInTier cw (winningTier cw)))%nat
            then prizePool cw else 0).
Proof.
  intros Hwf cw scored. unfold wellFormedResult in Hwf.
  apply andb_prop in Hwf as [Hnd Hlen]. apply negb_true_iff in Hnd.
  unfold cw, calculateContestWinners. rewrite Hnd, Hlen. cbn [negb orb]. cbv zeta.
  destruct (fold_scoreEntry (resultNumbers r) entries [] emptyTiers) as [Hw Ht].
  destruct (fold_left (scoreEntry (resultNumbers r)) entries ([], emptyTiers)) as [ws bt].
  cbn [fst snd] in Hw, Ht. cbn [app] in Hw. subst ws.
  unfold validInTier.
  cbn [hasResult totalEntries winners byTier winningTier prizePool prizePerWinner
       totalPrizeAwarded].
  repeat split.
  intros t. rewrite Ht, emptyTiers_lookup.
  destruct ((1 <=? t) && (t <=? 5))%nat; reflexivity.
Qed.

Lemma winningTierFrom_5 bt :
  winningTierFrom bt 5
  = if (0 <? List.length (List.filter winnerIsValid (tierList bt 5)))%nat then 5%nat
    else if (0 <? List.length (List.filter winnerIsValid (tierList bt 4)))%nat then 4%nat
    else if (0 <? List.length (List.filter winnerIsValid (tierList bt 3)))%nat then 3%nat
    else 0%nat.
Proof. reflexivity. Qed.

Lemma length_pos_nonempty {A : Type} (l : list A) :
  (0 <? List.length l)%nat = true <-> l <> [].
Proof.
  destruct l; cbn; split; intros H; try congruence; try discriminate; reflexivity.
Qed.

Lemma length_zero_empty {A : Type} (l : list A) :
  (0 <? List.length l)%nat = false <-> l = [].
Proof.
  destruct l; cbn; split; intros H; try congruence; try discriminate; reflexivity.
Qed.

(** C2 (as amended). On a well-formed result of 5 numbers: the buckets 3 to
    5 hold the scored entries with that many matches; the winning tier is
    the highest tier from 3 to 5 with a valid entry in its bucket, 0 when
    there is none; the prize per winner is the prize pool divided by the
    number of valid entries of the winning tier, and the whole pool is
    awarded to that tier; the winners list holds every valid entry with 3
    matches or more, of whatever tier.  So with 2 valid entries in bucket 5
    the winning tier is 5 and the prize per winner is the pool divided by
    2, and the valid entries of bucket 4 are in the winners list too. *)
Theorem calculateContestWinners_tier entries r platform contestId :
  wellFormedResult r = true ->
  let cw := calculateContestWinners entries (Some r) platform contestId in
  (forall t, (3 <= t <= 5)%nat ->
     tierList (byTier cw) t
     = List.filter (fun w => Nat.eqb (matches w) t)
         (scoredEntries (resultNumbers r) entries)) /\
  ((winningTier cw = 0%nat /\ forall t, (3 <= t <= 5)%nat -> validInTier cw t = []) \/
   ((3 <= winningTier cw <= 5)%nat /\ validInTier cw (winningTier cw) <> [] /\
    forall t, (winningTier cw < t <= 5)%nat -> validInTier cw t = [])) /\
  (winningTier cw = 0%nat -> prizePerWinner cw = 0%Q /\ totalPrizeAwarded cw = Some 0) /\
  ((0 < winningTier cw)%nat ->
     prizePerWinner cw
     = (inject_Z (getPrizePool platform)
        / inject_Z (Z.of_nat (List.length (validInTier cw (winningTier cw)))))%Q /\
     totalPrizeAwarded cw = Some (getPrizePool platform)) /\
  (forall w, In w (winners cw) <->
     In w (scoredEntries (resultNumbers r) entries) /\ winnerIsValid w = true /\
     (3 <= matches w)%nat) /\
  (List.length (validInTier cw 5) = 2%nat ->
     winningTier cw = 5%nat /\
     prizePerWinner cw = (inject_Z (getPrizePool platform) / inject_Z 2)%Q /\
     forall w, In w (validInTier cw 4) -> In w (winners cw)).
Proof.
  intros Hwf cw.
  destruct (calculateContestWinners_fields entries r platform contestId Hwf)
    as (_ & _ & Hwin & Hbt & Htier & Hpool & Hprize & Htotal).
  fold cw in Hwin, Hbt, Htier, Hpool, Hprize, Htotal.
  assert (Hlist : forall t, (3 <= t <= 5)%nat ->
            tierList (byTier cw) t
            = List.filter (fun w => Nat.eqb (matches w) t)
                (scoredEntries (resultNumbers r) entries)).
  { intros t Ht. unfold tierList. rewrite Hbt.
    destruct (Nat.leb_spec 1 t); [|lia]. destruct (Nat.leb_spec t 5); [|lia]. reflexivity. }
  assert (Hmem : forall w, In w (winners cw) <->
            In w (scoredEntries (resultNumbers r) entries) /\ winnerIsValid w = true /\
            (3 <= matches w)%nat).
  { intros w. rewrite Hwin, In_jsSort, List.filter_In. unfold qualifies, MIN_MATCHES_TO_WIN.
    rewrite andb_true_iff, Nat.leb_le. tauto. }
  assert (Hcases :
    (winningTier cw = 0%nat /\ forall t, (3 <= t <= 5)%nat -> validInTier cw t = []) \/
    ((3 <= winningTier cw <= 5)%nat /\ validInTier cw (winningTier cw) <> [] /\
      forall t, (winningTier cw < t <= 5)%nat -> validInTier cw t = [])).
  { rewrite Htier, winningTierFrom_5. unfold validInTier.
    destruct (0 <? List.length (List.filter winnerIsValid (tierList (byTier cw) 5)))%nat eqn:E5.
    { right. apply length_pos_nonempty in E5. repeat split; [lia|lia|exact E5|]. intros; lia. }
    destruct (0 <? List.length (List.filter winnerIsValid (tierList (byTier cw) 4)))%nat eqn:E4.
    { right. apply length_pos_nonempty in E4. apply length_zero_empty in E5.
      repeat split; [lia|lia|exact E4|].
      intros t Ht. replace t with 5%nat by lia. exact E5. }
    destruct (0 <? List.length (List.filter winnerIsValid (tierList (byTier cw) 3)))%nat eqn:E3.
    { right. apply length_pos_nonempty in E3. apply length_zero_empty in E5, E4.
      repeat split; [lia|lia|exact E3|].
      intros t Ht. assert (t = 4 \/ t = 5)%nat as [-> | ->] by lia; assumption. }
    left. apply length_zero_empty in E5, E4, E3. split; [reflexivity|].
    intros t Ht. assert (t = 3 \/ t = 4 \/ t = 5)%nat as [-> | [-> | ->]] by lia; assumption. }
  split; [exact Hlist|]. split; [exact Hcases|].
  split; [|split; [|split; [exact Hmem|]]].
  - intros H0. rewrite Hprize, Htotal, H0. split; reflexivity.
  - intros Hpos. destruct Hcases as [[H0 _]|(Hr & Hne & _)]; [lia|].
    apply length_pos_nonempty in Hne. rewrite Hprize, Htotal, Hne, Hpool.
    destruct (Nat.ltb_spec 0 (winningTier cw)); [|lia]. split; reflexivity.
  - intros H2.
    assert (H5 : winningTier cw = 5%nat).
    { rewrite Htier, winningTierFrom_5. fold (validInTier cw 5). rewrite H2. reflexivity. }
    split; [exact H5|]. split.
    + rewrite Hprize, H5, H2, Hpool. reflexivity.
    + intros w Hw. apply Hmem. unfold validInTier in Hw. rewrite Hlist in Hw by lia.
      apply List.filter_In in Hw as [Hw Hv]. apply List.filter_In in Hw as [Hw Hm].
      apply Nat.eqb_eq in Hm. repeat split; [exact Hw|exact Hv|lia].
Qed.

Lemma scoreOf_entry wn e w : scoreOf wn e = Some w -> winnerEntry w = e.
Proof.
  unfold scoreOf. destruct (numbers e); [|discriminate].
  destruct (Nat.eqb _ 0); [discriminate|]. cbv zeta.
  destruct (0 <? _)%nat; [|discriminate]. intros H. injection H as <-. reflexivity.
Qed.

Lemma scoreOf_skipped wn e :
  (numbers e = None \/ numbers e = Some [] \/
   exists nums, numbers e = Some nums /\ count (countMatches nums wn) = 0%nat) ->
  scoreOf wn e = None.
Proof.
  unfold scoreOf. intros [->|[->|(nums & -> & H)]]; [reflexivity|reflexivity|].
  destruct (Nat.eqb (List.length nums) 0); [reflexivity|]. cbv zeta. rewrite H. reflexivity.
Qed.

(** C10. An entry without numbers, with an empty list of numbers, or with
    no number among the winning numbers counts in [totalEntries] and
    nowhere else: the result of [calculateContestWinners] has the same
    tiers, winners, winning tier and prizes with and without it, and no
    object of a tier or of the winners list is built from it. *)
Theorem calculateContestWinners_skips_unscored l1 l2 e r platform contestId :
  wellFormedResult r = true ->
  (numbers e = None \/ numbers e = Some [] \/
   exists nums, numbers e = Some nums /\
                count (countMatches nums (resultNumbers r)) = 0%nat) ->
  let cw := calculateContestWinners (l1 ++ e :: l2) (Some r) platform contestId in
  let cw' := calculateContestWinners (l1 ++ l2) (Some r) platform contestId in
  totalEntries cw = List.length (l1 ++ e :: l2) /\
  totalEntries cw = S (totalEntries cw') /\
  byTier cw = byTier cw' /\ winners cw = winners cw' /\
  winningTier cw = winningTier cw' /\ prizePerWinner cw = prizePerWinner cw' /\
  totalPrizeAwarded cw = totalPrizeAwarded cw' /\
  (forall t w, In w (tierList (byTier cw) t) -> winnerEntry w <> e) /\
  (forall w, In w (winners cw) -> winnerEntry w <> e).
Proof.
  intros Hwf Hskip cw cw'. apply scoreOf_skipped in Hskip.
  assert (Hfold : fold_left (scoreEntry (resultNumbers r)) (l1 ++ e :: l2) ([], emptyTiers)
                  = fold_left (scoreEntry (resultNumbers r)) (l1 ++ l2) ([], emptyTiers)).
  { rewrite !fold_left_app. cbn [fold_left].
    destruct (fold_left (scoreEntry (resultNumbers r)) l1 ([], emptyTiers)) as [ws bt].
    rewrite scoreEntry_scoreOf, Hskip. reflexivity. }
  assert (Hscored : scoredEntries (resultNumbers r) (l1 ++ e :: l2)
                    = scoredEntries (resultNumbers r) (l1 ++ l2)).
  { rewrite !scoredEntries_app, scoredEntries_cons, Hskip. reflexivity. }
  destruct (calculateContestWinners_fields (l1 ++ e :: l2) r platform contestId Hwf)
    as (_ & _ & Hwin & Hbt & _).
  fold cw in Hwin, Hbt.
  assert (Hnot : forall w, In w (scoredEntries (resultNumbers r) (l1 ++ e :: l2)) ->
                           winnerEntry w <> e).
  { intros w Hw Heq. apply In_scoredEntries in Hw as (e' & _ & Hs).
    pose proof (scoreOf_entry _ _ _ Hs) as He'. congruence. }
  assert (Hsame : byTier cw = byTier cw' /\ winners cw = winners cw' /\
                  winningTier cw = winningTier cw' /\ prizePerWinner cw = prizePerWinner cw' /\
                  totalPrizeAwarded cw = totalPrizeAwarded cw' /\
                  totalEntries cw = List.length (l1 ++ e :: l2) /\
                  totalEntries cw' = List.length (l1 ++ l2)).
  { unfold cw, cw', calculateContestWinners, wellFormedResult in *.
    apply andb_prop in Hwf as [Hnd Hlen]. apply negb_true_iff in Hnd.
    rewrite Hnd, Hlen. cbn [negb orb]. cbv zeta. rewrite Hfold.
    destruct (fold_left (scoreEntry (resultNumbers r)) (l1 ++ l2) ([], emptyTiers)) as [ws bt].
    cbn. repeat split. }
  destruct Hsame as (H1 & H2 & H3 & H4 & H5 & H6 & H7).
  repeat split; try assumption.
  - rewrite H6, H7, !length_app. cbn [List.length]. lia.
  - intros t w Hw. apply Hnot. unfold tierList in Hw. rewrite Hbt in Hw.
    destruct ((1 <=? t) && (t <=? 5))%nat; [|destruct Hw].
    cbn [default from_option id] in Hw. apply List.filter_In in Hw as [Hw _]. exact Hw.
  - intros w Hw. apply Hnot. rewrite Hwin in Hw. apply In_jsSort in Hw.
    apply List.filter_In in Hw as [Hw _]. exact Hw.
Qed.

Lemma calculateContestWinners_skips_unscored_witness :
  totalEntries (calculateContestWinners
                  (sampleContest ++ sampleEntry "T-6" [70; 71; 72; 73; 74] :: [])
                  (Some sampleResult) "POPN1" "10") = 6%nat /\
  winners (calculateContestWinners
             (sampleContest ++ sampleEntry "T-6" [70; 71; 72; 73; 74] :: [])
             (Some sampleResult) "POPN1" "10")
  = winners (calculateContestWinners (sampleContest ++ []) (Some sampleResult) "POPN1" "10").
Proof.
  destruct (calculateContestWinners_skips_unscored sampleContest []
              (sampleEntry "T-6" [70; 71; 72; 73; 74]) sampleResult "POPN1" "10")
    as (H1 & _ & _ & H4 & _).
  - vm_compute. reflexivity.
  - right. right. eexists. split; [reflexivity|]. vm_compute. reflexivity.
  - split; [exact H1|exact H4].
Defined.

Lemma calculateContestWinners_tier_witness :
  winningTier (calculateContestWinners sampleContest (Some sampleResult) "POPN1" "10") = 5%nat /\
  prizePerWinner (calculateContestWinners sampleContest (Some sampleResult) "POPN1" "10")
    = (inject_Z (getPrizePool "POPN1") / inject_Z 2)%Q.
Proof.
  destruct (calculateContestWinners_tier sampleContest sampleResult "POPN1" "10")
    as (_ & _ & _ & _ & _ & H).
  - vm_compute. reflexivity.
  - destruct H as (H5 & Hp & _); [vm_compute; reflexivity|].
    split; [exact H5|exact Hp].
Defined.

(** C2, as stated, fails on its last part: with two valid entries of five
    matches and three valid entries of four, the winning tier is 5 and the
    prize per winner is the pool divided by 2, but the three entries of four
    matches are in [allWinners]. *)
Lemma calculateContestWinners_tier_counterexample :
  exists aw cache',
    calculateAllWinners true emptyCache sampleContest [sampleResult] "ALL"
      = Some (Ok (aw, cache')) /\
    map (fun cw => (winningTier cw, prizePerWinner cw)) (contestResults aw)
      = [(5%nat, (1000 # 2)%Q)] /\
    map (fun w => (ticketNumber (winnerEntry w), matches w)) (allWinners aw)
      = [("T-1", 5%nat); ("T-2", 5%nat); ("T-3", 4%nat); ("T-4", 4%nat); ("T-5", 4%nat)].
Proof.
  eexists _, _. split; [vm_compute; reflexivity|]. split; vm_compute; reflexivity.
Qed.

(** ** The winners of all contests *)

Lemma foldResult_total {A St : Type} (body : St -> A -> result St) items :
  (forall s x, exists s', body s x = Ok s') ->
  forall s, foldResult body items s
            = Ok (fold_left (fun s x => okOr s (body s x)) items s).
Proof.
  intros Hok. induction items as [|x items IH]; intros s; [reflexivity|].
  cbn [foldResult fold_left]. destruct (Hok s x) as [s' ->]. cbn [bindR okOr]. apply IH.
Qed.

Lemma fold_left_invariant {A St : Type} (f : St -> A -> St) (P : St -> Prop) items :
  (forall s x, In x items -> P s -> P (f s x)) ->
  forall s, P s -> P (fold_left f items s).
Proof.
  induction items as [|x items IH]; intros Hstep s Hs; [exact Hs|].
  cbn [fold_left]. apply IH.
  - intros s' y Hy. apply Hstep. right. exact Hy.
  - apply Hstep; [left; reflexivity|exact Hs].
Qed.

Lemma assocGet_assocPush {V : Type} (k c : string) (v : V) l :
  assocGet c (assocPush k v l)
  = if String.eqb k c then Some (default [] (assocGet c l) ++ [v])%list else assocGet c l.
Proof.
  induction l as [|[k' vs] l IH]; cbn [assocPush assocGet].
  - destruct (String.eqb k c); reflexivity.
  - destruct (String.eqb_spec k' k) as [->|Hne]; cbn [assocGet].
    + destruct (String.eqb k c); reflexivity.
    + destruct (String.eqb_spec k' c) as [->|Hne'].
      * destruct (String.eqb_spec k c) as [->|_]; [contradiction|reflexivity].
      * exact IH.
Qed.


Lemma resultsFold_lookup results c r :
  fst (resultsFold results) !! c = Some r -> In r results /\ resultContest r = c.
Proof.
  unfold resultsFold. revert c r.
  apply (fold_left_invariant
           (fun (acc : gmap string DrawResult * list string) r =>
              if String.eqb (resultContest r) "" then acc
              else (<[resultContest r := r]> (fst acc), setAdd (resultContest r) (snd acc)))
           (fun acc => forall c r, fst acc !! c = Some r -> In r results /\ resultContest r = c)).
  - intros acc x Hx IH c r.
    destruct (String.eqb (resultContest x) ""); [apply IH|]. cbn [fst].
    destruct (String.eqb_spec (resultContest x) c) as [<-|Hne].
    + rewrite lookup_insert_eq. intros H. injection H as <-. split; [exact Hx|reflexivity].
    + rewrite lookup_insert_ne by exact Hne. apply IH.
  - intros c r H. cbn [fst] in H. rewrite lookup_empty in H. discriminate.
Qed.

Lemma includes_In l x : includes l x = true <-> In x l.
Proof.
  unfold includes. rewrite existsb_exists. split.
  - intros (y & Hy & Heq). apply String.eqb_eq in Heq. subst y. exact Hy.
  - intros H. exists x. split; [exact H|apply String.eqb_refl].
Qed.

Lemma setAdd_In x y l : In y (setAdd x l) <-> y = x \/ In y l.
Proof.
  unfold setAdd. destruct (includes l x) eqn:E.
  - apply includes_In in E. split; [auto|]. intros [->|H]; assumption.
  - rewrite in_app_iff. cbn [In]. intuition.
Qed.

Lemma setAdd_NoDup x l : List.NoDup l -> List.NoDup (setAdd x l).
Proof.
  intros H. unfold setAdd. destruct (includes l x) eqn:E; [exact H|].
  assert (Hx : ~ In x l).
  { intros Hin. apply includes_In in Hin. congruence. }
  clear E. induction H as [|y l Hy Hl IH]; cbn [app].
  - constructor; [intros []|constructor].
  - constructor.
    + rewrite in_app_iff. cbn [In]. intros [H|[H|[]]]; [contradiction|].
      subst y. apply Hx. left. reflexivity.
    + apply IH. intros H. apply Hx. right. exact H.
Qed.

Lemma fold_setAdd ks : forall ids,
  List.NoDup ids ->
  List.NoDup (fold_left (fun ids c => setAdd c ids) ks ids) /\
  forall y, In y (fold_left (fun ids c => setAdd c ids) ks ids) <-> In y ks \/ In y ids.
Proof.
  induction ks as [|k ks IH]; intros ids Hnd; cbn [fold_left].
  - split; [exact Hnd|]. intros y. cbn [In]. tauto.
  - destruct (IH (setAdd k ids) (setAdd_NoDup k ids Hnd)) as [H1 H2].
    split; [exact H1|]. intros y. rewrite H2, setAdd_In. cbn [In]. intuition.
Qed.

Lemma resultsFold_ids_sound results :
  List.NoDup (snd (resultsFold results)) /\
  forall c, In c (snd (resultsFold results)) ->
            String.eqb c "" = false /\ exists r, In r results /\ resultContest r = c.
Proof.
  unfold resultsFold.
  apply (fold_left_invariant
           (fun (acc : gmap string DrawResult * list string) r =>
              if String.eqb (resultContest r) "" then acc
              else (<[resultContest r := r]> (fst acc), setAdd (resultContest r) (snd acc)))
           (fun acc => List.NoDup (snd acc) /\
              (forall c, In c (snd acc) ->
                 String.eqb c "" = false /\ exists r, In r results /\ resultContest r = c))).
  - intros acc x Hx [Hnd Hin].
    destruct (String.eqb (resultContest x) "") eqn:E; [split; assumption|]. cbn [snd].
    split; [apply setAdd_NoDup; exact Hnd|].
    intros c Hc. apply setAdd_In in Hc as [->|Hc]; [|apply Hin; exact Hc].
    split; [exact E|]. exists x. split; [exact Hx|reflexivity].
  - split; [constructor|]. intros c [].
Qed.

Lemma resultsFold_ids_complete results : forall c r,
  In r results -> resultContest r = c -> String.eqb c "" = false ->
  In c (snd (resultsFold results)).
Proof.
  unfold resultsFold.
  assert (Hfold : forall (rs : list DrawResult) (acc : gmap string DrawResult * list string) c,
            (In c (snd acc) \/
             exists r, In r rs /\ resultContest r = c /\ String.eqb c "" = false) ->
            In c (snd (fold_left
               (fun (acc : gmap string DrawResult * list string) r =>
                  if String.eqb (resultContest r) "" then acc
                  else (<[resultContest r := r]> (fst acc), setAdd (resultContest r) (snd acc)))
               rs acc))).
  { induction rs as [|x rs IH]; intros acc c Hc; cbn [fold_left].
    - destruct Hc as [Hc|(r & [] & _)]. exact Hc.
    - apply IH. destruct Hc as [Hc|(r & [<-|Hr] & Hrc & Hne)].
      + left. destruct (String.eqb (resultContest x) ""); [exact Hc|].
        cbn [snd]. apply setAdd_In. right. exact Hc.
      + left. rewrite Hrc, Hne. cbn [snd]. apply setAdd_In. left. reflexivity.
      + right. exists r. auto. }
  intros c r Hr Hc Hne. apply Hfold. right. exists r. auto.
Qed.

Lemma resultsFold_ids results :
  List.NoDup (snd (resultsFold results)) /\
  forall c, In c (snd (resultsFold results)) <->
            String.eqb c "" = false /\ exists r, In r results /\ resultContest r = c.
Proof.
  destruct (resultsFold_ids_sound results) as [Hnd Hin]. split; [exact Hnd|].
  intros c. split; [apply Hin|].
  intros [Hne (r & Hr & Hc)]. eapply resultsFold_ids_complete; eassumption.
Qed.

Lemma objectKeys_In {V : Type} (obj : list (string * V)) k :
  In k (objectKeys obj) <-> In k (map fst obj).
Proof.
  unfold objectKeys. cbv zeta. rewrite in_app_iff, In_jsSort, !List.filter_In.
  destruct (arrayIndex k); intuition; discriminate.
Qed.

Lemma assocPush_keys {V : Type} (k : string) (v : V) l c :
  In c (map fst (assocPush k v l)) <-> c = k \/ In c (map fst l).
Proof.
  induction l as [|[k' vs] l IH]; cbn [assocPush map fst In].
  - intuition.
  - destruct (String.eqb_spec k' k) as [->|Hne]; cbn [map fst In].
    + intuition.
    + rewrite IH. intuition.
Qed.

Lemma groupedByContest_keys entries c :
  In c (map fst (groupedByContest entries)) <-> exists e, In e entries /\ contestKey e = c.
Proof.
  unfold groupedByContest.
  assert (Hfold : forall es (grouped : list (string * list Entry)),
            In c (map fst (fold_left
               (fun grouped entry => assocPush (orElse (contest entry) "Unknown") entry grouped)
               es grouped))
            <-> In c (map fst grouped) \/ exists e, In e es /\ contestKey e = c).
  { induction es as [|e es IH]; intros grouped; cbn [fold_left].
    - split; [auto|]. intros [H|(e & [] & _)]. exact H.
    - rewrite IH, assocPush_keys. unfold contestKey. cbn [In]. split.
      + intros [[->|H]|(e' & He' & Hk)]; eauto 6.
      + intros [H|(e' & [<-|He'] & Hk)]; eauto 6. }
  rewrite Hfold. cbn [map In]. split; [intros [[]|H]; exact H|auto].
Qed.

Lemma contestKey_nonempty e : String.eqb (contestKey e) "" = false.
Proof.
  unfold contestKey, orElse. destruct (String.eqb (contest e) "") eqn:E; [reflexivity|exact E].
Qed.

(** [groupEntriesByContest] throws at the first contest that names a
    member of [Object.prototype]; without such a contest it returns the
    groups of the entries. *)
Lemma groupEntriesByContest_spec entries :
  groupEntriesByContest entries
  = if noInheritedNames (map contestKey entries) then Ok (groupedByContest entries)
    else Throw "TypeError: grouped[contest].push is not a function".
Proof.
  unfold groupEntriesByContest, groupedByContest.
  assert (H : forall grouped : list (string * list Entry),
            (forall k, isInheritedName k = true -> assocGet k grouped = None) ->
            foldResult (fun grouped entry =>
                          let contest := orElse (contest entry) "Unknown" in
                          match assocGet contest grouped with
                          | Some _ => Ok (assocPush contest entry grouped)
                          | None =>
                              if isInheritedName contest
                              then Throw "TypeError: grouped[contest].push is not a function"
                              else Ok (assocPush contest entry grouped)
                          end) entries grouped
            = if noInheritedNames (map contestKey entries)
              then Ok (fold_left (fun grouped entry =>
                                    assocPush (orElse (contest entry) "Unknown") entry grouped)
                                 entries grouped)
              else Throw "TypeError: grouped[contest].push is not a function").
  { induction entries as [|e es IH]; intros grouped Hg; [reflexivity|].
    cbn [foldResult map fold_left]. unfold noInheritedNames. cbn [forallb].
    fold (noInheritedNames (map contestKey es)). cbv zeta.
    change (orElse (contest e) "Unknown") with (contestKey e).
    destruct (isInheritedName (contestKey e)) eqn:Ei.
    - rewrite (Hg _ Ei). reflexivity.
    - cbn [negb andb].
      assert (Hg' : forall k, isInheritedName k = true ->
                      assocGet k (assocPush (contestKey e) e grouped) = None).
      { intros k Hk. rewrite assocGet_assocPush.
        destruct (String.eqb_spec (contestKey e) k) as [E|_]; [|apply Hg, Hk].
        rewrite E in Ei. congruence. }
      destruct (assocGet (contestKey e) grouped); cbn [bindR]; apply IH, Hg'. }
  apply H. intros k _. reflexivity.
Qed.

Lemma assocGet_key {V : Type} (c : string) (l : list (string * V)) :
  In c (map fst l) -> assocGet c l <> None.
Proof.
  induction l as [|[k v] l IH]; cbn [map fst In assocGet]; [intros []|].
  intros [->|H].
  - rewrite String.eqb_refl. discriminate.
  - destruct (String.eqb k c); [discriminate|apply IH, H].
Qed.

(** On a contest that has entries, or that does not name a member of
    [Object.prototype], the step of the loop reads an array. *)
Lemma contestStep_plain grouped resultsMap effectivePlatform prizePool st c :
  isInheritedName c = false \/ assocGet c grouped <> None ->
  contestStep grouped resultsMap effectivePlatform prizePool st c
  = plainContestStep grouped resultsMap effectivePlatform prizePool st c.
Proof.
  intros H. unfold contestStep, plainContestStep.
  destruct (assocGet c grouped) as [l|]; [reflexivity|].
  destruct H as [H|H]; [rewrite H; reflexivity|congruence].
Qed.

(** The contest ids of a run: those of the entries are keys of the groups,
    those of the results do not name a member of [Object.prototype] when no
    result does. *)
Lemma contestKeys_plain grouped results c :
  noInheritedNames (map resultContest results) = true ->
  In c (contestKeysOf grouped results) ->
  isInheritedName c = false \/ assocGet c grouped <> None.
Proof.
  intros Hr Hc. unfold contestKeysOf in Hc.
  destruct (resultsFold_ids results) as [Hnd Hids].
  apply (fold_setAdd (objectKeys grouped) _ Hnd) in Hc as [Hc|Hc].
  - right. apply assocGet_key, objectKeys_In, Hc.
  - left. apply Hids in Hc as (_ & r & Hin & <-).
    unfold noInheritedNames in Hr. rewrite forallb_forall in Hr.
    apply negb_true_iff, Hr, in_map, Hin.
Qed.

Section AggregatorFacts.

Variable dataStoreLoaded : bool.

Lemma plainContestStep_Ok entriesByContest resultsMap effectivePlatform prizePool st c :
  exists st', plainContestStep entriesByContest resultsMap effectivePlatform prizePool st c = Ok st'.
Proof.
  unfold plainContestStep, contestStepWith. destruct st as [[crs aws] stats].
  destruct (hasResult _); eauto.
Qed.


Lemma calculateAllWinners_cached b cache entries results platform c :
  cachedWinnersFor cache entries results platform = Some c ->
  calculateAllWinnersBatched dataStoreLoaded b cache entries results platform
  = Some (Ok (c, cache)).
Proof.
  intros H. unfold calculateAllWinnersBatched.
  change (if isWinnersCacheValid cache entries results
          then match getCachedWinners cache with
               | Some c => if String.eqb (awPlatform c) platform then Some c else None
               | None => None
               end
          else None) with (cachedWinnersFor cache entries results platform).
  rewrite H. reflexivity.
Qed.

Lemma cachedWinnersFor_set cache aw entries results :
  cachedWinnersFor
    (setCachedWinners cache aw (simpleHashEntries entries) (simpleHashResults results))
    entries results (awPlatform aw) = Some aw.
Proof.
  unfold cachedWinnersFor, isWinnersCacheValid, setCachedWinners, getCachedWinners.
  cbn [cacheWinners cacheWinnersEntriesHash cacheWinnersResultsHash].
  rewrite !String.eqb_refl. reflexivity.
Qed.

Lemma foldResult_contestStep grouped resultsMap effectivePlatform prizePool keys :
  forall st,
  (forall c, In c keys -> isInheritedName c = false \/ assocGet c grouped <> None) ->
  foldResult (contestStep grouped resultsMap effectivePlatform prizePool) keys st
  = Ok (runContests grouped resultsMap effectivePlatform prizePool keys st).
Proof.
  induction keys as [|c keys IH]; intros st H; [reflexivity|].
  cbn [foldResult]. unfold runContests. cbn [fold_left].
  rewrite contestStep_plain by (apply H; left; reflexivity).
  destruct (plainContestStep_Ok grouped resultsMap effectivePlatform prizePool st c)
    as [st' ->].
  cbn [bindR okOr]. apply IH. intros c' Hc'. apply H. right. exact Hc'.
Qed.

(** A run that finds no cached result, on entries (of the platform) and
    results whose contests do not name members of [Object.prototype],
    computes. *)
Lemma calculateAllWinners_miss b cache entries results platform :
  cachedWinnersFor cache entries results platform = None ->
  noInheritedNames (map contestKey (entriesOfPlatform dataStoreLoaded entries platform))
  = true ->
  noInheritedNames (map resultContest results) = true ->
  calculateAllWinnersBatched dataStoreLoaded (S b) cache entries results platform
  = Some (Ok (computedWinners dataStoreLoaded entries results platform,
              setCachedWinners cache (computedWinners dataStoreLoaded entries results platform)
                (simpleHashEntries entries) (simpleHashResults results))).
Proof.
  intros Hmiss He Hr. unfold calculateAllWinnersBatched.
  change (if isWinnersCacheValid cache entries results
          then match getCachedWinners cache with
               | Some c => if String.eqb (awPlatform c) platform then Some c else None
               | None => None
               end
          else None) with (cachedWinnersFor cache entries results platform).
  rewrite Hmiss. cbv zeta.
  change (if negb (String.eqb platform "") && negb (String.eqb platform "ALL") && dataStoreLoaded
          then filterByPlatform entries platform else entries)
    with (entriesOfPlatform dataStoreLoaded entries platform).
  rewrite groupEntriesByContest_spec, He.
  pose proof (fun c => contestKeys_plain
                         (groupedByContest (entriesOfPlatform dataStoreLoaded entries platform))
                         results c Hr) as Hkeys.
  unfold computedWinners, contestKeysOf in *. cbv zeta.
  fold (resultsFold results).
  destruct (resultsFold results) as [resultsMap ids]. cbn [fst snd] in *.
  rewrite forBatches_foldResult by lia. rewrite skipn_O.
  rewrite foldResult_contestStep by exact Hkeys.
  match goal with |- context [runContests ?a ?b ?c ?d ?e ?f] =>
    destruct (runContests a b c d e f) as [[crs aws] stats] end.
  reflexivity.
Qed.


(** What a run leaves in the cache: the result that it returns, under the
    hashes of its entries and results. *)
Lemma calculateAllWinners_caches b cache entries results platform out cache1 :
  calculateAllWinnersBatched dataStoreLoaded b cache entries results platform
  = Some (Ok (out, cache1)) ->
  cachedWinnersFor cache1 entries results platform = Some out.
Proof.
  destruct (cachedWinnersFor cache entries results platform) as [c|] eqn:Ec.
  - rewrite (calculateAllWinners_cached b cache entries results platform c Ec).
    intros H. injection H as <- <-. exact Ec.
  - unfold calculateAllWinnersBatched.
    change (if isWinnersCacheValid cache entries results
            then match getCachedWinners cache with
                 | Some c => if String.eqb (awPlatform c) platform then Some c else None
                 | None => None
                 end
            else None) with (cachedWinnersFor cache entries results platform).
    rewrite Ec. cbv zeta.
    destruct (groupEntriesByContest _) as [grouped|msg]; [|discriminate].
    destruct (fold_left _ results _) as [resultsMap ids].
    destruct (forBatches _ _ _ _ _ _) as [[[[crs aws] stats]|msg]|]; try discriminate.
    intros H. injection H as <- <-.
    match goal with |- cachedWinnersFor (setCachedWinners _ ?aw _ _) _ _ _ = _ =>
      change platform with (awPlatform aw) at 2 end.
    apply cachedWinnersFor_set.
Qed.




End AggregatorFacts.





(** ** Sorting *)

Lemma sortInsert_Permutation {A : Type} (compare : A -> A -> Z) x l :
  Permutation (sortInsert compare x l) (x :: l).
Proof.
  induction l as [|y l IH]; cbn [sortInsert]; [reflexivity|].
  destruct (compare x y <=? 0); [reflexivity|].
  rewrite IH. apply perm_swap.
Qed.

Lemma jsSort_Permutation {A : Type} (compare : A -> A -> Z) l :
  Permutation (jsSort compare l) l.
Proof.
  induction l as [|x l IH]; cbn [jsSort fold_right]; [reflexivity|].
  fold (jsSort compare l). rewrite sortInsert_Permutation, IH. reflexivity.
Qed.

Section SortedByKey.

Context {A : Type} (key : A -> Z) (compare : A -> A -> Z).
Hypothesis compare_key : forall a b, compare a b <= 0 <-> key a <= key b.

Lemma sortInsert_sorted x l :
  StronglySorted (fun a b => key a <= key b) l ->
  StronglySorted (fun a b => key a <= key b) (sortInsert compare x l).
Proof.
  induction 1 as [|y l Hl IH Hy]; cbn [sortInsert].
  - constructor; [constructor|constructor].
  - destruct (Z.leb_spec (compare x y) 0) as [Hle|Hgt].
    + apply compare_key in Hle. constructor.
      * constructor; assumption.
      * constructor; [exact Hle|].
        apply List.Forall_forall. intros z Hz.
        pose proof (proj1 (List.Forall_forall _ _) Hy z Hz). cbn in *. lia.
    + assert (key y <= key x).
      { destruct (Z.le_gt_cases (key x) (key y)) as [Hxy|Hxy]; [|lia].
        apply compare_key in Hxy. lia. }
      constructor; [exact IH|].
      apply List.Forall_forall. intros z Hz.
      apply (Permutation_in _ (sortInsert_Permutation compare x l)) in Hz.
      destruct Hz as [<-|Hz]; [assumption|].
      exact (proj1 (List.Forall_forall _ _) Hy z Hz).
Qed.

Lemma jsSort_sorted l : StronglySorted (fun a b => key a <= key b) (jsSort compare l).
Proof.
  induction l as [|x l IH]; cbn [jsSort fold_right]; [constructor|].
  fold (jsSort compare l). apply sortInsert_sorted. exact IH.
Qed.

End SortedByKey.

(** ** Counting matches *)

Lemma count_occ_filter_Z (f : Z -> bool) l n :
  count_occ Z.eq_dec (List.filter f l) n = if f n then count_occ Z.eq_dec l n else 0%nat.
Proof.
  induction l as [|x l IH]; cbn [List.filter count_occ].
  - destruct (f n); reflexivity.
  - destruct (Z.eq_dec x n) as [->|Hne].
    + destruct (f n) eqn:E; cbn [count_occ].
      * destruct (Z.eq_dec n n); [|contradiction]. rewrite IH. reflexivity.
      * exact IH.
    + destruct (f x); cbn [count_occ]; [destruct (Z.eq_dec x n); [contradiction|]|]; exact IH.
Qed.

(** X1. [countMatches] counts the entry numbers that are winning numbers,
    each as often as the entry has it: the matched numbers hold a number of
    the entry that is a winning number as many times as the entry does and
    no other number, in ascending order, and the count is their number, at
    most the number of entry numbers. *)
Theorem countMatches_spec entryNumbers winningNumbers :
  let m := countMatches entryNumbers winningNumbers in
  count m = List.length (matchedNumbers m) /\
  (count m <= List.length entryNumbers)%nat /\
  (forall n, count_occ Z.eq_dec (matchedNumbers m) n
             = if existsb (Z.eqb n) winningNumbers
               then count_occ Z.eq_dec entryNumbers n else 0%nat) /\
  (forall n, In n (matchedNumbers m) <-> In n entryNumbers /\ In n winningNumbers) /\
  StronglySorted Z.le (matchedNumbers m).
Proof.
  cbn zeta. unfold countMatches. cbn [count matchedNumbers].
  split; [symmetry; apply length_jsSort|].
  split; [apply List.filter_length_le|].
  split; [|split].
  - intros n.
    rewrite (proj1 (Permutation_count_occ Z.eq_dec _ _)
               (jsSort_Permutation (fun a b => a - b)
                  (List.filter (fun n0 => existsb (Z.eqb n0) winningNumbers) entryNumbers)) n).
    apply (count_occ_filter_Z (fun n0 => existsb (Z.eqb n0) winningNumbers)).
  - intros n. rewrite In_jsSort, List.filter_In, existsb_exists.
    split.
    + intros [Hn (x & Hx & Heq)]. apply Z.eqb_eq in Heq. subst x. auto.
    + intros [Hn Hw]. split; [exact Hn|]. exists n. split; [exact Hw|apply Z.eqb_refl].
  - apply (jsSort_sorted (fun n : Z => n) (fun a b => a - b)). intros a b. lia.
Qed.

Lemma filter_Permutation {A : Type} (P : A -> bool) l1 l2 :
  Permutation l1 l2 -> Permutation (List.filter P l1) (List.filter P l2).
Proof.
  induction 1 as [|x l1 l2 H IH|x y l|l1 l2 l3 H12 IH12 H23 IH23]; cbn [List.filter].
  - constructor.
  - destruct (P x); [constructor|]; exact IH.
  - destruct (P y), (P x); try reflexivity. apply perm_swap.
  - etransitivity; eassumption.
Qed.

(** X2. The count does not depend on the order of the numbers, of the entry
    or of the result. *)
Theorem countMatches_order_independent e1 e2 w1 w2 :
  Permutation e1 e2 -> Permutation w1 w2 ->
  count (countMatches e1 w1) = count (countMatches e2 w2).
Proof.
  intros He Hw. unfold countMatches. cbn [count].
  apply Permutation_length.
  rewrite (filter_Permutation _ e1 e2 He).
  erewrite List.filter_ext; [reflexivity|].
  intros n. apply eq_true_iff_eq. rewrite !existsb_exists.
  split; intros (x & Hx & Heq); exists x; (split; [|exact Heq]).
  - eapply Permutation_in; eassumption.
  - eapply Permutation_in; [symmetry|]; eassumption.
Qed.

Lemma countMatches_order_independent_witness :
  count (countMatches [1; 2; 3; 4; 5] [5; 9; 1; 7; 3])
  = count (countMatches [5; 4; 3; 2; 1] [3; 7; 1; 9; 5]).
Proof.
  apply countMatches_order_independent.
  - apply (Permutation_rev [1; 2; 3; 4; 5]).
  - apply (Permutation_rev [5; 9; 1; 7; 3]).
Defined.

(** ** More on the calendar and on the matcher *)

Lemma setHoursZero_bounds tz x : x - msPerDay < setHoursZero tz x <= x.
Proof.
  unfold setHoursZero, LocalTime, Day.
  pose proof (Z.mul_div_le (x + tz * msPerMinute) msPerDay ltac:(reflexivity)).
  pose proof (Z.mod_pos_bound (x + tz * msPerMinute) msPerDay ltac:(reflexivity)).
  pose proof (Z.div_mod (x + tz * msPerMinute) msPerDay ltac:(discriminate)).
  lia.
Qed.

(** X3. [getEligibleDrawDate] never throws.  Without a valid time it
    returns [null]; for a valid time it returns a day that is not a no-draw
    day, not before the midnight of the registration day in Sao Paulo and
    less than four days after it; on a draw day before the cutoff hour it
    is that midnight. *)
Theorem getEligibleDrawDate_draw_day (tz : Z) (t : Z) :
  getEligibleDrawDate tz None = Ok None /\
  exists d,
    getEligibleDrawDate tz (Some t) = Ok (Some d) /\
    isNoDrawDay tz d = false /\
    brazilMidnight t <= d < brazilMidnight t + 4 * msPerDay /\
    (isNoDrawDay tz (brazilMidnight t) = false ->
     getHours tz t < getCutoffHour tz (brazilMidnight t) -> d = brazilMidnight t).
Proof.
  split; [reflexivity|].
  unfold getEligibleDrawDate. cbv zeta. rewrite getBrazilDateString_nonempty.
  destruct (isNoDrawDay tz (brazilMidnight t)) eqn:Hnd; cbn [negb andb].
  - destruct (getNextValidDrawDate_ok tz (setDateNext (brazilMidnight t)))
      as (k & Hk & -> & Hd & _).
    cbn [bindR]. eexists. split; [reflexivity|]. split; [exact Hd|].
    pose proof (setHoursZero_bounds tz (setDateNext (brazilMidnight t))) as Hb.
    unfold setDateNext in *. change msPerDay with 86400000 in *.
    split; [lia|]. intros; discriminate.
  - destruct (Z.ltb_spec (getHours tz t) (getCutoffHour tz (brazilMidnight t))) as [Hlt|Hge].
    + eexists. split; [reflexivity|]. split; [exact Hnd|].
      change msPerDay with 86400000. split; [lia|]. intros; reflexivity.
    + destruct (getNextValidDrawDate_ok tz (setDateNext (brazilMidnight t)))
        as (k & Hk & -> & Hd & _).
      cbn [bindR]. eexists. split; [reflexivity|]. split; [exact Hd|].
      pose proof (setHoursZero_bounds tz (setDateNext (brazilMidnight t))) as Hb.
      unfold setDateNext in *. change msPerDay with 86400000 in *.
      split; [lia|]. intros; lia.
Qed.



Section MatcherOrder.

Variable tz : Z.


End MatcherOrder.


(** ** Normalisation of the draw date *)

Lemma splitDateParts_noSeparator s : hasNoSeparator s = true -> splitDateParts s = [s].
Proof.
  induction s as [|c s IH]; [reflexivity|]. cbn [hasNoSeparator splitDateParts].
  intros H. apply andb_prop in H as [Hc Hs]. apply negb_true_iff in Hc.
  rewrite Hc, (IH Hs). reflexivity.
Qed.

Lemma splitDateParts_cons_part a c b :
  hasNoSeparator a = true -> isDateSeparator c = true ->
  splitDateParts (a ++ String c b) = a :: splitDateParts b.
Proof.
  intros Ha Hc. induction a as [|x a IH].
  - change ("" ++ String c b) with (String c b). cbn [splitDateParts].
    rewrite Hc. reflexivity.
  - cbn [hasNoSeparator] in Ha. apply andb_prop in Ha as [Hx Ha]. apply negb_true_iff in Hx.
    change (String x a ++ String c b) with (String x (a ++ String c b)).
    cbn [splitDateParts]. rewrite Hx, (IH Ha). reflexivity.
Qed.

Lemma append_separator_nonempty a c b : String.eqb (a ++ String c b) "" = false.
Proof. destruct a; reflexivity. Qed.

(** X5. The draw date of a ticket as the matcher normalises it.  Three parts
    separated by [/] or [-]: when the first part has four characters the
    date is kept as it is written, otherwise the parts are read as day,
    month, year and written year-month-day with day and month padded to two
    characters.  A date with another number of parts becomes the empty
    string, which no eligible draw date equals. *)
Theorem normalizeDrawDate_forms p0 p1 p2 c1 c2 :
  hasNoSeparator p0 = true -> hasNoSeparator p1 = true -> hasNoSeparator p2 = true ->
  isDateSeparator c1 = true -> isDateSeparator c2 = true ->
  normalizeDrawDate (p0 ++ String c1 (p1 ++ String c2 p2))
  = (if Nat.eqb (String.length p0) 4 then p0 ++ String c1 (p1 ++ String c2 p2)
     else p2 ++ "-" ++ padStart2 p1 ++ "-" ++ padStart2 p0) /\
  normalizeDrawDate p0 = "" /\
  normalizeDrawDate (p0 ++ String c1 p1) = "".
Proof.
  intros H0 H1 H2 Hc1 Hc2. unfold normalizeDrawDate. repeat split.
  - rewrite append_separator_nonempty.
    rewrite splitDateParts_cons_part, splitDateParts_cons_part, splitDateParts_noSeparator
      by assumption.
    reflexivity.
  - destruct (String.eqb p0 ""); [reflexivity|].
    rewrite splitDateParts_noSeparator by assumption. reflexivity.
  - rewrite append_separator_nonempty.
    rewrite splitDateParts_cons_part, splitDateParts_noSeparator by assumption. reflexivity.
Qed.

Lemma normalizeDrawDate_forms_witness :
  normalizeDrawDate ("8" ++ String "/" ("1" ++ String "/" "2024"))
  = (if Nat.eqb (String.length "8") 4 then "8" ++ String "/" ("1" ++ String "/" "2024")
     else "2024" ++ "-" ++ padStart2 "1" ++ "-" ++ padStart2 "8") /\
  normalizeDrawDate "8" = "" /\
  normalizeDrawDate ("8" ++ String "/" "1") = "".
Proof.
  apply normalizeDrawDate_forms; reflexivity.
Defined.

(** ** Grouping by game id *)

Lemma groupRecharges_fold recharges g : forall m : gmap string (list Recharge),
  String.eqb g "" = false ->
  default [] (fold_left (fun (m : gmap string (list Recharge)) r =>
                 if String.eqb (rechargeGameId r) "" then m
                 else <[rechargeGameId r := (default [] (m !! rechargeGameId r) ++ [r])%list]> m)
              recharges m !! g)
  = (default [] (m !! g)
     ++ List.filter (fun r => String.eqb (rechargeGameId r) g) recharges)%list.
Proof.
  induction recharges as [|r rs IH]; intros m Hg; cbn [fold_left List.filter].
  - rewrite app_nil_r. reflexivity.
  - rewrite IH by exact Hg.
    destruct (String.eqb_spec (rechargeGameId r) g) as [<-|Hne].
    + rewrite Hg, lookup_insert_eq. cbn [default from_option id].
      rewrite <- app_assoc. reflexivity.
    + destruct (String.eqb (rechargeGameId r) ""); [reflexivity|].
      rewrite lookup_insert_ne by exact Hne. reflexivity.
Qed.

Lemma groupTickets_fold entries g : forall m : gmap string (list Entry),
  String.eqb g "" = false ->
  default [] (fold_left (fun (m : gmap string (list Entry)) e =>
                 if String.eqb (gameId e) "" then m
                 else <[gameId e := (default [] (m !! gameId e) ++ [e])%list]> m)
              entries m !! g)
  = (default [] (m !! g) ++ List.filter (fun e => String.eqb (gameId e) g) entries)%list.
Proof.
  induction entries as [|e es IH]; intros m Hg; cbn [fold_left List.filter].
  - rewrite app_nil_r. reflexivity.
  - rewrite IH by exact Hg.
    destruct (String.eqb_spec (gameId e) g) as [<-|Hne].
    + rewrite Hg, lookup_insert_eq. cbn [default from_option id].
      rewrite <- app_assoc. reflexivity.
    + destruct (String.eqb (gameId e) ""); [reflexivity|].
      rewrite lookup_insert_ne by exact Hne. reflexivity.
Qed.

(** The own keys of the map of the records by game id. *)
Lemma groupFold_lookup {A : Type} (key : A -> string) (items : list A) g :
  forall m : gmap string (list A),
  String.eqb g "" = false ->
  fold_left (fun (m : gmap string (list A)) x =>
               if String.eqb (key x) "" then m
               else <[key x := (default [] (m !! key x) ++ [x])%list]> m) items m !! g
  = match List.filter (fun x => String.eqb (key x) g) items with
    | [] => m !! g
    | l => Some (default [] (m !! g) ++ l)%list
    end.
Proof.
  induction items as [|x xs IH]; intros m Hg; cbn [fold_left List.filter]; [reflexivity|].
  rewrite IH by exact Hg.
  destruct (String.eqb_spec (key x) g) as [<-|Hne].
  - rewrite Hg, lookup_insert_eq. cbn [default from_option id].
    destruct (List.filter (fun y => String.eqb (key y) (key x)) xs) as [|y l].
    + reflexivity.
    + rewrite <- app_assoc. reflexivity.
  - destruct (String.eqb (key x) ""); [reflexivity|].
    rewrite lookup_insert_ne by exact Hne. reflexivity.
Qed.

Lemma groupFold_no_empty_key {A : Type} (key : A -> string) (items : list A) :
  forall m : gmap string (list A),
  fold_left (fun (m : gmap string (list A)) x =>
               if String.eqb (key x) "" then m
               else <[key x := (default [] (m !! key x) ++ [x])%list]> m) items m !! ""
  = m !! "".
Proof.
  induction items as [|x xs IH]; intros m; cbn [fold_left]; [reflexivity|].
  rewrite IH. destruct (String.eqb_spec (key x) "") as [|Hne]; [reflexivity|].
  apply lookup_insert_ne. exact Hne.
Qed.

(** X6. The grouping loops of [validateAllTickets], on the recharges and on
    the tickets.  A loop throws a TypeError when a game id names a member of
    [Object.prototype].  Otherwise it returns an object whose keys are the
    game ids that occur (the empty one apart), each with the records of
    that id in the order of the input. *)
Theorem grouping_by_game_id {A : Type} (key : A -> string) (subject : string)
    (items : list A) :
  (noInheritedNames (map key items) = false ->
   groupByGameId key subject items
   = Throw ("TypeError: " ++ subject ++ ".push is not a function")) /\
  (noInheritedNames (map key items) = true ->
   exists byId,
     groupByGameId key subject items = Ok byId /\
     byId !! "" = None /\
     forall g, String.eqb g "" = false ->
       byId !! g = match List.filter (fun x => String.eqb (key x) g) items with
                   | [] => None
                   | l => Some l
                   end).
Proof.
  rewrite groupByGameId_spec. split; intros H; rewrite H; [reflexivity|].
  eexists. split; [reflexivity|]. split.
  - rewrite groupFold_no_empty_key. apply lookup_empty.
  - intros g Hg. rewrite groupFold_lookup by exact Hg. rewrite lookup_empty. reflexivity.
Qed.

Lemma grouping_by_game_id_witness :
  (exists byId,
     groupByGameId gameId "ticketsByGameId[e.gameId]"
       [sampleTicket "T-1" (mondayAt 12) "08/01/2024"] = Ok byId /\
     byId !! "1234567890" = Some [sampleTicket "T-1" (mondayAt 12) "08/01/2024"]) /\
  groupByGameId gameId "ticketsByGameId[e.gameId]"
    [mkEntry (Some (mondayAt 12)) "POPN1" "constructor" (Some [1; 2; 3; 4; 5])
       "08/01/2024" "10" "T-1" "PENDING"]
  = Throw "TypeError: ticketsByGameId[e.gameId].push is not a function".
Proof.
  split.
  - destruct (proj2 (grouping_by_game_id gameId "ticketsByGameId[e.gameId]"
                       [sampleTicket "T-1" (mondayAt 12) "08/01/2024"]) eq_refl)
      as (byId & Hok & _ & Hkeys).
    exists byId. split; [exact Hok|]. exact (Hkeys "1234567890" eq_refl).
  - exact (proj1 (grouping_by_game_id gameId "ticketsByGameId[e.gameId]"
                    [mkEntry (Some (mondayAt 12)) "POPN1" "constructor" (Some [1; 2; 3; 4; 5])
                       "08/01/2024" "10" "T-1" "PENDING"]) eq_refl).
Defined.

(** ** More on the validation of tickets *)

Section ValidatorMore.

Variable tz : Z.

(** [validateTicket] returns, and what it returns. *)
Lemma validateTicket_returns tk rmap tmap :
  exists v, validateTicket tz tk rmap tmap = Ok v /\ ticket v = tk /\
    (vstatus v = VALID \/ vstatus v = INVALID) /\
    (forall r, matchedRecharge v = Some r -> vstatus v = VALID) /\
    (shortCircuited tk = true -> matchedRecharge v = None /\ isCutoff v = false).
Proof.
  unfold validateTicket.
  destruct (shortCircuited tk) eqn:Hsc.
  - unfold shortCircuited in Hsc. unfold validateTicketWith.
    destruct (includes ["VALID"; "VALIDADO"; "VALIDATED"] (toUpperCase (status tk))).
    + eexists. split; [reflexivity|]. cbn. repeat split; auto; discriminate.
    + cbn [orb] in Hsc. rewrite Hsc.
      eexists. split; [reflexivity|]. cbn. repeat split; auto; discriminate.
  - destruct (String.eqb (gameId tk) "") eqn:Hg.
    { unfold shortCircuited in Hsc. apply orb_false_elim in Hsc as [Hv Hi].
      unfold validateTicketWith. rewrite Hv, Hi, Hg.
      eexists. split; [reflexivity|]. cbn. repeat split; auto; discriminate. }
    destruct (Nat.eqb (List.length (default [] (rmap !! gameId tk))) 0) eqn:Hr.
    { unfold shortCircuited in Hsc. apply orb_false_elim in Hsc as [Hv Hi].
      unfold validateTicketWith. rewrite Hv, Hi, Hg, Hr.
      eexists. split; [reflexivity|]. cbn. repeat split; auto; discriminate. }
    rewrite validateTicketWith_reaches_matcher by assumption. cbv zeta.
    destruct (findMatchingRecharge_Ok tz tk (default [] (rmap !! gameId tk))
                (default [] (tmap !! gameId tk))) as [o ->].
    cbn [bindR]. destruct o; eexists; (split; [reflexivity|]); cbn;
      repeat split; auto; discriminate.
Qed.

(** X7. For a ticket whose game id does not name a member of
    [Object.prototype] (the grouping loops of [validateAllTickets] throw on
    such a ticket before [validateTicket] is called), and for every pair of
    maps, [validateTicket] returns an outcome of that ticket whose status is
    VALID or INVALID (UNKNOWN and CUTOFF are never produced), with a matched
    recharge only when VALID; a ticket that its upstream status decides has
    no matched recharge and no cutoff flag. *)
Theorem validateTicket_outcome tk rmap tmap :
  isInheritedName (gameId tk) = false ->
  exists v, validateTicket tz tk rmap tmap = Ok v /\ ticket v = tk /\
    (vstatus v = VALID \/ vstatus v = INVALID) /\
    (forall r, matchedRecharge v = Some r -> vstatus v = VALID) /\
    (shortCircuited tk = true -> matchedRecharge v = None /\ isCutoff v = false).
Proof. intros _. exact (validateTicket_returns tk rmap tmap). Qed.

(** X8. A recharge that [validateTicket] reports as matched is one of the
    recharges passed to [validateAllTickets], has the game id of the
    ticket, and a valid time strictly before the ticket's registration
    time. *)
Theorem matched_recharge_of_owner tk recharges tmap v r :
  validateTicket tz tk (groupRecharges recharges) tmap = Ok v ->
  matchedRecharge v = Some r ->
  In r recharges /\ rechargeGameId r = gameId tk /\ gameId tk <> "" /\
  exists rt tt, rechargeTime r = Some rt /\ parsedDate tk = Some tt /\ rt < tt.
Proof.
  unfold validateTicket. intros Hv Hm.
  destruct (shortCircuited tk) eqn:Hsc.
  { destruct (validateTicket_returns tk (groupRecharges recharges) tmap)
      as (v' & Hv' & _ & _ & _ & Hnone).
    unfold validateTicket in Hv'. rewrite Hv in Hv'. injection Hv' as <-.
    destruct (Hnone Hsc) as [Hn _]. congruence. }
  destruct (String.eqb (gameId tk) "") eqn:Hg.
  { unfold shortCircuited in Hsc. apply orb_false_elim in Hsc as [Hs1 Hs2].
    unfold validateTicketWith in Hv. rewrite Hs1, Hs2, Hg in Hv. injection Hv as <-.
    discriminate. }
  destruct (Nat.eqb (List.length (default [] (groupRecharges recharges !! gameId tk))) 0) eqn:Hr.
  { unfold shortCircuited in Hsc. apply orb_false_elim in Hsc as [Hs1 Hs2].
    unfold validateTicketWith in Hv. rewrite Hs1, Hs2, Hg, Hr in Hv. injection Hv as <-.
    discriminate. }
  rewrite validateTicketWith_reaches_matcher in Hv by assumption. cbv zeta in Hv.
  destruct (findMatchingRecharge tz tk (default [] (groupRecharges recharges !! gameId tk))
              (default [] (tmap !! gameId tk))) as [[r'|]|msg] eqn:Ef; cbn [bindR] in Hv;
    try discriminate; injection Hv as <-; cbn [matchedRecharge] in Hm; try discriminate.
  injection Hm as ->.
  apply findMatchingRecharge_Some in Ef as (tt & rt & Htk & Hrt & Hlt & Hin & _).
  assert (Hgroup : default [] (groupRecharges recharges !! gameId tk)
                   = List.filter (fun r => String.eqb (rechargeGameId r) (gameId tk)) recharges).
  { unfold groupRecharges. rewrite groupRecharges_fold by exact Hg.
    rewrite lookup_empty. reflexivity. }
  rewrite Hgroup in Hin.
  apply List.filter_In in Hin as [Hin Heq]. apply String.eqb_eq in Heq.
  repeat split; try assumption.
  - intros Hempty. rewrite Hempty in Hg. discriminate.
  - eauto.
Qed.

Lemma fold_countValidation_counts vs : forall st,
  let st' := fold_left countValidation vs st in
  valid st' = (valid st + List.length (List.filter
                 (fun v => match vstatus v with VALID => true | _ => false end) vs))%nat /\
  invalid st' = (invalid st + List.length (List.filter
                 (fun v => match vstatus v with INVALID => true | _ => false end) vs))%nat /\
  unknown st' = (unknown st + List.length (List.filter
                 (fun v => match vstatus v with VALID | INVALID => false | _ => true end) vs))%nat /\
  cutoff st' = (cutoff st + List.length (List.filter isCutoff vs))%nat.
Proof.
  induction vs as [|v vs IH]; intros st; cbn zeta; cbn [fold_left List.filter List.length].
  - repeat split; lia.
  - destruct (IH (countValidation st v)) as (H1 & H2 & H3 & H4).
    rewrite H1, H2, H3, H4. unfold countValidation.
    destruct (vstatus v), (isCutoff v); cbn; repeat split; lia.
Qed.

(** X9. The statistics of a run of [validateAllTickets] with [skipCache],
    when no game id of a recharge or of an entry names a member of
    [Object.prototype] (the grouping loops then throw): [unknown] is 0, so
    [valid + invalid] is the number of entries; [valid] and [cutoff] count
    the outcomes that are VALID and that carry the cutoff flag;
    [rechargeCount] is the number of recharges; and the run is what the
    cache holds afterwards. *)
Theorem validateAllTickets_statistics cache entries recharges :
  noInheritedNames (map rechargeGameId recharges) = true ->
  noInheritedNames (map gameId entries) = true ->
  exists run,
    validateAllTickets tz cache entries recharges true
      = Some (Ok (run, setCachedValidation cache (CachedRun run))) /\
    unknown (stats run) = 0%nat /\
    (valid (stats run) + invalid (stats run))%nat = List.length entries /\
    valid (stats run)
      = List.length (List.filter (fun v => match vstatus v with VALID => true | _ => false end)
                       (results run)) /\
    cutoff (stats run) = List.length (List.filter isCutoff (results run)) /\
    (cutoff (stats run) <= List.length entries)%nat /\
    rechargeCount run = List.length recharges.
Proof.
  intros Hr He. unfold validateAllTickets. change 50%nat with (S 49).
  rewrite validateAllTickets_compute by assumption. cbv zeta.
  eexists. split; [reflexivity|]. cbn [stats results rechargeCount].
  set (outcomes := map (outcomeOf tz (groupRecharges recharges) (groupTickets entries)) entries).
  destruct (fold_countValidation_counts outcomes
              (mkValidationStats (List.length entries) 0 0 0 0)) as (H1 & H2 & H3 & H4).
  cbn [valid invalid unknown cutoff] in H1, H2, H3, H4.
  destruct (fold_countValidation_sum outcomes
              (mkValidationStats (List.length entries) 0 0 0 0)) as (_ & Hsum).
  cbn [valid invalid unknown] in Hsum.
  assert (Hlen : List.length outcomes = List.length entries) by apply length_map.
  assert (Hunk : List.filter
                   (fun v => match vstatus v with VALID | INVALID => false | _ => true end)
                   outcomes = []).
  { apply filter_nil_forall. intros v Hv. unfold outcomes in Hv.
    apply in_map_iff in Hv as (e & <- & _). unfold outcomeOf.
    destruct (validateTicket_returns e (groupRecharges recharges) (groupTickets entries))
      as (v & -> & _ & [->| ->] & _); reflexivity. }
  rewrite Hunk in H3. cbn [List.length] in H3.
  pose proof (List.filter_length_le isCutoff outcomes).
  repeat split; lia.
Qed.

(** X10. When the validation cache holds the counts that
    [DataStore.getAccurateValidationCounts] stores with
    [DataFetcher.setCachedValidation] (and the entries are loaded),
    [validateAllTickets] without [skipCache] throws on [cached.stats.total];
    with [skipCache] it computes (when no game id names a member of
    [Object.prototype]). *)
Theorem validateAllTickets_counts_in_cache cache loaded nValid nInvalid nUnknown
    entries recharges :
  cacheEntries cache = Some loaded ->
  validateAllTickets tz (setCachedValidation cache (CachedCounts nValid nInvalid nUnknown))
    entries recharges false
  = Some (Throw "TypeError: Cannot read properties of undefined (reading 'total')") /\
  (noInheritedNames (map rechargeGameId recharges) = true ->
   noInheritedNames (map gameId entries) = true ->
   exists run cache',
     validateAllTickets tz (setCachedValidation cache (CachedCounts nValid nInvalid nUnknown))
       entries recharges true = Some (Ok (run, cache'))).
Proof.
  intros Hl. split.
  - unfold validateAllTickets, validateAllTicketsBatched, getCachedValidation, setCachedValidation.
    cbn [cacheEntries cacheValidation cacheValidationHash]. rewrite Hl.
    rewrite String.eqb_refl. reflexivity.
  - intros Hr He. unfold validateAllTickets. change 50%nat with (S 49).
    rewrite validateAllTickets_compute by assumption. cbv zeta. eauto.
Qed.

End ValidatorMore.

Lemma matched_recharge_of_owner_witness :
  In sampleRecharge [sampleRecharge] /\
  rechargeGameId sampleRecharge = gameId (sampleTicket "T-1" (mondayAt 19 + 60000) "08/01/2024") /\
  gameId (sampleTicket "T-1" (mondayAt 19 + 60000) "08/01/2024") <> "" /\
  exists rt tt, rechargeTime sampleRecharge = Some rt /\
                parsedDate (sampleTicket "T-1" (mondayAt 19 + 60000) "08/01/2024") = Some tt /\
                rt < tt.
Proof.
  apply (matched_recharge_of_owner (-180)
           (sampleTicket "T-1" (mondayAt 19 + 60000) "08/01/2024") [sampleRecharge] ∅
           (mkValidation (sampleTicket "T-1" (mondayAt 19 + 60000) "08/01/2024") VALID
              "Matched recharge R$50" (Some sampleRecharge) false)).
  - vm_compute. reflexivity.
  - reflexivity.
Defined.

Lemma validateAllTickets_counts_in_cache_witness :
  validateAllTickets (-180)
    (setCachedValidation (mkCache (Some []) None None None None None) (CachedCounts 0 0 0))
    [] [] false
  = Some (Throw "TypeError: Cannot read properties of undefined (reading 'total')").
Proof.
  apply (proj1 (validateAllTickets_counts_in_cache (-180)
                  (mkCache (Some []) None None None None None) [] 0 0 0 [] [] eq_refl)).
Defined.

Lemma validateAllTickets_statistics_witness :
  exists run,
    validateAllTickets (-180) emptyCache
      [sampleTicket "T-1" (mondayAt 19 + 60000) "08/01/2024";
       sampleTicket "T-2" (mondayAt 21) "08/01/2024"]
      [sampleRecharge] true
      = Some (Ok (run, setCachedValidation emptyCache (CachedRun run))) /\
    unknown (stats run) = 0%nat /\
    (valid (stats run) + invalid (stats run))%nat = 2%nat /\
    valid (stats run)
      = List.length (List.filter (fun v => match vstatus v with VALID => true | _ => false end)
                       (results run)) /\
    cutoff (stats run) = List.length (List.filter isCutoff (results run)) /\
    (cutoff (stats run) <= 2)%nat /\
    rechargeCount run = 1%nat.
Proof.
  apply (validateAllTickets_statistics (-180) emptyCache
           [sampleTicket "T-1" (mondayAt 19 + 60000) "08/01/2024";
            sampleTicket "T-2" (mondayAt 21) "08/01/2024"]
           [sampleRecharge]); reflexivity.
Defined.

(** ** More on the winners of all contests *)

Section AggregatorMore.

Variable dataStoreLoaded : bool.

Lemma calculateAllWinners_computedWinners b cache entries results platform :
  cachedWinnersFor cache entries results platform = None ->
  noInheritedNames (map contestKey (entriesOfPlatform dataStoreLoaded entries platform))
  = true ->
  noInheritedNames (map resultContest results) = true ->
  calculateAllWinnersBatched dataStoreLoaded (S b) cache entries results platform
  = Some (Ok (computedWinners dataStoreLoaded entries results platform,
              setCachedWinners cache (computedWinners dataStoreLoaded entries results platform)
                (simpleHashEntries entries) (simpleHashResults results))).
Proof. apply calculateAllWinners_miss. Qed.

(** The size of the batches does not change what [calculateAllWinners]
    does: what it returns or throws, and what it leaves in the cache. *)
Lemma calculateAllWinners_batch_independent b cache entries results platform :
  calculateAllWinnersBatched dataStoreLoaded (S b) cache entries results platform
  = calculateAllWinners dataStoreLoaded cache entries results platform.
Proof.
  unfold calculateAllWinners. change 10%nat with (S 9).
  unfold calculateAllWinnersBatched.
  destruct (if isWinnersCacheValid cache entries results then _ else None);
    [reflexivity|]. cbv zeta.
  destruct (groupEntriesByContest _) as [grouped|msg]; [|reflexivity].
  destruct (fold_left _ results _) as [resultsMap ids].
  rewrite !forBatches_foldResult by lia. reflexivity.
Qed.

(** X11. The cache of the winners is keyed by [simpleHash], which reads the
    length and the first and last records only: after a run that returns on
    one snapshot, a run on another snapshot with the same hashes (and the
    same platform) returns the result of the first. *)
Theorem calculateAllWinners_same_fingerprint cache entries1 entries2 results1 results2
    platform out cache1 :
  simpleHashEntries entries1 = simpleHashEntries entries2 ->
  simpleHashResults results1 = simpleHashResults results2 ->
  calculateAllWinners dataStoreLoaded cache entries1 results1 platform
    = Some (Ok (out, cache1)) ->
  calculateAllWinners dataStoreLoaded cache1 entries2 results2 platform
    = Some (Ok (out, cache1)).
Proof.
  intros He Hr Hrun. unfold calculateAllWinners in *.
  apply calculateAllWinners_cached.
  apply calculateAllWinners_caches in Hrun.
  unfold cachedWinnersFor, isWinnersCacheValid in *. rewrite <- He, <- Hr. exact Hrun.
Qed.

End AggregatorMore.

Lemma simpleHashEntries_ends eFirst eLast middle1 middle2 :
  List.length middle1 = List.length middle2 ->
  simpleHashEntries (eFirst :: middle1 ++ [eLast])
  = simpleHashEntries (eFirst :: middle2 ++ [eLast]).
Proof.
  intros H. unfold simpleHashEntries. cbn [head List.length].
  rewrite !length_app, H.
  replace (last (eFirst :: middle1 ++ [eLast])) with (Some eLast)
    by (symmetry; change (eFirst :: middle1 ++ [eLast])%list
                    with ((eFirst :: middle1) ++ [eLast])%list; apply last_snoc).
  replace (last (eFirst :: middle2 ++ [eLast])) with (Some eLast)
    by (symmetry; change (eFirst :: middle2 ++ [eLast])%list
                    with ((eFirst :: middle2) ++ [eLast])%list; apply last_snoc).
  reflexivity.
Qed.

Lemma calculateAllWinners_same_fingerprint_witness :
  exists out cache1,
    calculateAllWinners true emptyCache
      [sampleEntry "T-1" [1; 2; 3; 4; 5]; sampleEntry "T-2" [1; 2; 3; 4; 5];
       sampleEntry "T-3" [1; 2; 3; 4; 9]]
      [sampleResult] "ALL" = Some (Ok (out, cache1)) /\
    calculateAllWinners true cache1
      [sampleEntry "T-1" [1; 2; 3; 4; 5]; sampleEntry "T-9" [70; 71; 72; 73; 74];
       sampleEntry "T-3" [1; 2; 3; 4; 9]]
      [sampleResult] "ALL" = Some (Ok (out, cache1)).
Proof.
  eexists _, _. split; [vm_compute; reflexivity|].
  apply (calculateAllWinners_same_fingerprint true emptyCache
           [sampleEntry "T-1" [1; 2; 3; 4; 5]; sampleEntry "T-2" [1; 2; 3; 4; 5];
            sampleEntry "T-3" [1; 2; 3; 4; 9]]
           [sampleEntry "T-1" [1; 2; 3; 4; 5]; sampleEntry "T-9" [70; 71; 72; 73; 74];
            sampleEntry "T-3" [1; 2; 3; 4; 9]]
           [sampleResult] [sampleResult] "ALL").
  - apply (simpleHashEntries_ends (sampleEntry "T-1" [1; 2; 3; 4; 5])
             (sampleEntry "T-3" [1; 2; 3; 4; 9])
             [sampleEntry "T-2" [1; 2; 3; 4; 5]] [sampleEntry "T-9" [70; 71; 72; 73; 74]]).
    reflexivity.
  - reflexivity.
  - vm_compute. reflexivity.
Defined.

(** ** More on the winners of a contest *)

Lemma StronglySorted_weaken {A : Type} (R R' : A -> A -> Prop) l :
  (forall a b, R a b -> R' a b) -> StronglySorted R l -> StronglySorted R' l.
Proof.
  intros Himp. induction 1 as [|x l Hl IH Hx]; constructor; [exact IH|].
  apply List.Forall_forall. intros y Hy. apply Himp.
  exact (proj1 (List.Forall_forall _ _) Hx y Hy).
Qed.

(** A winner of a contest is built from a valid entry of the input that has
    numbers, with the matches that [countMatches] counts, 3 or more. *)
Lemma winners_members entries r platform contestId w :
  wellFormedResult r = true ->
  In w (winners (calculateContestWinners entries (Some r) platform contestId)) ->
  In (winnerEntry w) entries /\ isValidEntry (winnerEntry w) = true /\
  (3 <= matches w)%nat /\
  exists nums, numbers (winnerEntry w) = Some nums /\
               matches w = count (countMatches nums (resultNumbers r)) /\
               winnerMatched w = matchedNumbers (countMatches nums (resultNumbers r)).
Proof.
  intros Hwf Hw.
  destruct (calculateContestWinners_fields entries r platform contestId Hwf)
    as (_ & _ & Hwin & _).
  rewrite Hwin in Hw. apply In_jsSort in Hw.
  apply List.filter_In in Hw as [Hw Hq].
  apply In_scoredEntries in Hw as (e & He & Hs).
  unfold qualifies, MIN_MATCHES_TO_WIN in Hq. apply andb_prop in Hq as [Hv Hm].
  apply Nat.leb_le in Hm.
  pose proof (scoreOf_entry _ _ _ Hs) as Hwe.
  unfold scoreOf in Hs. destruct (numbers e) as [nums|] eqn:En; [|discriminate].
  destruct (Nat.eqb (List.length nums) 0); [discriminate|]. cbv zeta in Hs.
  destruct (0 <? count (countMatches nums (resultNumbers r)))%nat; [|discriminate].
  injection Hs as <-. cbn [winnerEntry winnerIsValid matches winnerMatched] in *.
  repeat split; try assumption. exists nums. auto.
Qed.

(** X12. The winners list of a contest with a well-formed result is a
    rearrangement of the valid scored entries with 3 matches or more, in
    non-increasing order of their matches; each winner is built from an
    entry of the input that has numbers and a valid status, and its matches
    are the count of [countMatches] for that entry. *)
Theorem winners_sorted_and_sound entries r platform contestId :
  wellFormedResult r = true ->
  let cw := calculateContestWinners entries (Some r) platform contestId in
  Permutation (winners cw)
    (List.filter qualifies (scoredEntries (resultNumbers r) entries)) /\
  StronglySorted (fun a b => (matches b <= matches a)%nat) (winners cw) /\
  forall w, In w (winners cw) ->
    In (winnerEntry w) entries /\ isValidEntry (winnerEntry w) = true /\
    (3 <= matches w)%nat /\
    exists nums, numbers (winnerEntry w) = Some nums /\
                 matches w = count (countMatches nums (resultNumbers r)) /\
                 winnerMatched w = matchedNumbers (countMatches nums (resultNumbers r)).
Proof.
  intros Hwf cw.
  destruct (calculateContestWinners_fields entries r platform contestId Hwf)
    as (_ & _ & Hwin & _). fold cw in Hwin.
  split; [rewrite Hwin; apply jsSort_Permutation|]. split.
  - rewrite Hwin.
    apply (StronglySorted_weaken
             (fun a b => - Z.of_nat (matches a) <= - Z.of_nat (matches b))); [intros; lia|].
    apply (jsSort_sorted (fun w => - Z.of_nat (matches w))
             (fun a b => Z.of_nat (matches b) - Z.of_nat (matches a))).
    intros; lia.
  - intros w Hw. exact (winners_members entries r platform contestId w Hwf Hw).
Qed.

Lemma winners_sorted_and_sound_witness :
  StronglySorted (fun a b => (matches b <= matches a)%nat)
    (winners (calculateContestWinners sampleContest (Some sampleResult) "POPN1" "10")).
Proof.
  apply (winners_sorted_and_sound sampleContest sampleResult "POPN1" "10").
  vm_compute. reflexivity.
Defined.

(** X13. The tiers of a contest with a well-formed result: the object has
    the keys 1 to 5 and no other; a bucket holds, in the order of the
    entries, the scored entries with that many matches, valid or not; a
    winner of at most 5 matches is in the bucket of its matches. *)
Theorem byTier_buckets entries r platform contestId :
  wellFormedResult r = true ->
  let cw := calculateContestWinners entries (Some r) platform contestId in
  (forall t, is_Some (byTier cw !! t) <-> (1 <= t <= 5)%nat) /\
  (forall t, (1 <= t <= 5)%nat ->
     tierList (byTier cw) t
     = List.filter (fun w => Nat.eqb (matches w) t)
         (scoredEntries (resultNumbers r) entries)) /\
  (forall t w, In w (tierList (byTier cw) t) -> matches w = t /\ (1 <= t <= 5)%nat) /\
  (forall w, In w (winners cw) -> (matches w <= 5)%nat ->
     In w (tierList (byTier cw) (matches w))).
Proof.
  intros Hwf cw.
  destruct (calculateContestWinners_fields entries r platform contestId Hwf)
    as (_ & _ & Hwin & Hbt & _). fold cw in Hwin, Hbt.
  assert (Hlist : forall t, (1 <= t <= 5)%nat ->
            tierList (byTier cw) t
            = List.filter (fun w => Nat.eqb (matches w) t)
                (scoredEntries (resultNumbers r) entries)).
  { intros t Ht. unfold tierList. rewrite Hbt.
    destruct (Nat.leb_spec 1 t); [|lia]. destruct (Nat.leb_spec t 5); [|lia]. reflexivity. }
  split; [|split; [exact Hlist|split]].
  - intros t. rewrite Hbt.
    destruct (Nat.leb_spec 1 t), (Nat.leb_spec t 5); cbn [andb];
      split; intros Hsome; try lia; try (eexists; reflexivity);
      destruct Hsome as [x Hx]; discriminate.
  - intros t w Hw. unfold tierList in Hw. rewrite Hbt in Hw.
    destruct (Nat.leb_spec 1 t), (Nat.leb_spec t 5); cbn [andb default from_option id] in Hw;
      try (destruct Hw; fail).
    apply List.filter_In in Hw as [_ Hm]. apply Nat.eqb_eq in Hm. lia.
  - intros w Hw H5. rewrite Hwin in Hw. apply In_jsSort in Hw.
    apply List.filter_In in Hw as [Hw Hq].
    unfold qualifies, MIN_MATCHES_TO_WIN in Hq. apply andb_prop in Hq as [_ Hm].
    apply Nat.leb_le in Hm.
    rewrite Hlist by lia. apply List.filter_In. split; [exact Hw|apply Nat.eqb_refl].
Qed.

Lemma byTier_buckets_witness :
  tierList (byTier (calculateContestWinners sampleContest (Some sampleResult) "POPN1" "10")) 4
  = List.filter (fun w => Nat.eqb (matches w) 4)
      (scoredEntries (resultNumbers sampleResult) sampleContest).
Proof.
  pose proof (byTier_buckets sampleContest sampleResult "POPN1" "10" eq_refl) as H.
  cbv zeta in H. destruct H as (_ & H & _). apply H. lia.
Defined.

(** X14. The statuses that the validator takes as invalid upstream are
    statuses with which the winner calculator does not take an entry as
    valid: such an entry is in no winners list. *)
Theorem upstream_invalid_is_no_winner e :
  includes ["INVALID"; "INVÃLIDO"] (toUpperCase (status e)) = true ->
  isValidEntry e = false /\
  forall entries r platform contestId w,
    In w (winners (calculateContestWinners entries r platform contestId)) ->
    winnerEntry w <> e.
Proof.
  intros H.
  assert (Hinv : isValidEntry e = false).
  { unfold isValidEntry, INVALID_STATUSES, includes in *. apply negb_false_iff.
    cbn [existsb] in *. rewrite orb_false_r in H.
    apply orb_prop in H as [-> | ->]; [reflexivity|]. apply orb_true_r. }
  split; [exact Hinv|].
  intros entries r platform contestId w Hw Heq.
  destruct r as [r|].
  - destruct (wellFormedResult r) eqn:Hwf.
    + destruct (winners_members entries r platform contestId w Hwf Hw) as (_ & Hv & _).
      congruence.
    + rewrite calculateContestWinners_noResult in Hw by exact Hwf. destruct Hw.
  - rewrite calculateContestWinners_noResult in Hw by exact I. destruct Hw.
Qed.

Lemma upstream_invalid_is_no_winner_witness :
  isValidEntry (mkEntry None "POPN1" "1" (Some [1; 2; 3; 4; 5]) "" "10" "T-1" "invalid") = false.
Proof.
  apply (upstream_invalid_is_no_winner
           (mkEntry None "POPN1" "1" (Some [1; 2; 3; 4; 5]) "" "10" "T-1" "invalid")).
  reflexivity.
Defined.

(** ** Platforms and groups *)


Lemma groupedByContest_fold entries c : forall grouped : list (string * list Entry),
  default [] (assocGet c (fold_left
                (fun grouped entry => assocPush (orElse (contest entry) "Unknown") entry grouped)
                entries grouped))
  = (default [] (assocGet c grouped)
     ++ List.filter (fun e => String.eqb (contestKey e) c) entries)%list.
Proof.
  induction entries as [|e es IH]; intros grouped; cbn [fold_left List.filter].
  - rewrite app_nil_r. reflexivity.
  - rewrite IH, assocGet_assocPush. unfold contestKey.
    destruct (String.eqb (orElse (contest e) "Unknown") c).
    + cbn [default from_option id]. rewrite <- app_assoc. reflexivity.
    + reflexivity.
Qed.

Lemma groupedByContest_group entries c :
  default [] (assocGet c (groupedByContest entries))
  = List.filter (fun e => String.eqb (contestKey e) c) entries.
Proof.
  unfold groupedByContest. rewrite groupedByContest_fold. reflexivity.
Qed.

Lemma assocGet_absent {V : Type} (c : string) (l : list (string * V)) :
  ~ In c (map fst l) -> assocGet c l = None.
Proof.
  induction l as [|[k v] l IH]; cbn [map fst In assocGet]; [reflexivity|].
  intros H. destruct (String.eqb_spec k c) as [->|_]; [exfalso; auto|]. apply IH. auto.
Qed.

(** X16. [groupEntriesByContest] throws a TypeError when the contest of an
    entry names a member of [Object.prototype].  Otherwise it returns an
    object whose keys are the contests of the entries ([Unknown] for an
    entry without contest), each with the entries of that contest in the
    order of the input. *)
Theorem groupEntriesByContest_groups entries :
  (noInheritedNames (map contestKey entries) = false ->
   groupEntriesByContest entries
   = Throw "TypeError: grouped[contest].push is not a function") /\
  (noInheritedNames (map contestKey entries) = true ->
   exists grouped,
     groupEntriesByContest entries = Ok grouped /\
     forall c,
       assocGet c grouped
       = match List.filter (fun e => String.eqb (contestKey e) c) entries with
         | [] => None
         | l => Some l
         end).
Proof.
  rewrite groupEntriesByContest_spec. split; intros H; rewrite H; [reflexivity|].
  eexists. split; [reflexivity|]. intros c.
  pose proof (groupedByContest_group entries c) as Hg.
  destruct (List.filter (fun e => String.eqb (contestKey e) c) entries) as [|x l] eqn:Ef.
  - apply assocGet_absent. rewrite groupedByContest_keys. intros (e & He & Hk).
    assert (Hin : In e (List.filter (fun e => String.eqb (contestKey e) c) entries)).
    { apply filter_In. split; [exact He|]. apply String.eqb_eq, Hk. }
    rewrite Ef in Hin. destruct Hin.
  - destruct (assocGet c (groupedByContest entries)) as [l'|]; [|discriminate].
    cbn [default from_option id] in Hg. rewrite Hg. reflexivity.
Qed.

Lemma groupEntriesByContest_groups_witness :
  (exists grouped,
     groupEntriesByContest sampleContest = Ok grouped /\
     assocGet "10" grouped = Some sampleContest) /\
  groupEntriesByContest
    [mkEntry (Some (mondayAt 12)) "POPN1" "1234567890" (Some [1; 2; 3; 4; 5])
       "08/01/2024" "constructor" "T-1" "PENDING"]
  = Throw "TypeError: grouped[contest].push is not a function".
Proof.
  split.
  - destruct (proj2 (groupEntriesByContest_groups sampleContest) eq_refl)
      as (grouped & Hok & Hkeys).
    exists grouped. split; [exact Hok|]. exact (Hkeys "10").
  - exact (proj1 (groupEntriesByContest_groups
                    [mkEntry (Some (mondayAt 12)) "POPN1" "1234567890" (Some [1; 2; 3; 4; 5])
                       "08/01/2024" "constructor" "T-1" "PENDING"]) eq_refl).
Defined.


(** ** Statistics of the winners of all contests *)

Lemma concat_Permutation {A : Type} (l1 l2 : list (list A)) :
  Permutation l1 l2 -> Permutation (concat l1) (concat l2).
Proof.
  induction 1 as [|x l1 l2 H IH|x y l|l1 l2 l3 H12 IH12 H23 IH23]; cbn [concat].
  - constructor.
  - apply Permutation_app_head. exact IH.
  - rewrite !app_assoc. apply Permutation_app_tail. apply Permutation_app_comm.
  - etransitivity; eassumption.
Qed.

Section AggregatorStats.

Variable dataStoreLoaded : bool.

(** The winning tier is positive only with a valid entry in that tier, and
    the prize then awarded is the pool. *)
Lemma contest_awarded entries result platform contestId :
  let cw := calculateContestWinners entries result platform contestId in
  hasResult cw = true -> (0 <? winningTier cw)%nat = true ->
  totalPrizeAwarded cw = Some (getPrizePool platform).
Proof.
  intros cw Hhas Hpos. destruct result as [r|].
  - destruct (wellFormedResult r) eqn:Hwf.
    + destruct (calculateContestWinners_fields entries r platform contestId Hwf)
        as (_ & _ & _ & _ & Htier & Hpool & _ & Htotal).
      fold cw in Htier, Hpool, Htotal.
      assert (Hne : (0 <? List.length (validInTier cw (winningTier cw)))%nat = true).
      { unfold validInTier. revert Hpos. rewrite Htier, winningTierFrom_5.
        destruct (0 <? List.length (List.filter winnerIsValid (tierList (byTier cw) 5)))%nat
          eqn:E5; [intros _; exact E5|].
        destruct (0 <? List.length (List.filter winnerIsValid (tierList (byTier cw) 4)))%nat
          eqn:E4; [intros _; exact E4|].
        destruct (0 <? List.length (List.filter winnerIsValid (tierList (byTier cw) 3)))%nat
          eqn:E3; [intros _; exact E3|].
        discriminate. }
      rewrite Htotal, Hpool, Hpos, Hne. reflexivity.
    + unfold cw in Hhas. rewrite calculateContestWinners_noResult in Hhas by exact Hwf.
      discriminate.
  - unfold cw in Hhas. rewrite calculateContestWinners_noResult in Hhas by exact I.
    discriminate.
Qed.

Lemma plainContestStep_invariant entriesByContest resultsMap effectivePlatform st c :
  getPrizePool effectivePlatform <> 0 ->
  statsInvariant (getPrizePool effectivePlatform) st ->
  statsInvariant (getPrizePool effectivePlatform)
    (okOr st (plainContestStep entriesByContest resultsMap effectivePlatform
                (getPrizePool effectivePlatform) st c)).
Proof.
  intros Hpool. destruct st as [[crs aws] stats]. unfold statsInvariant, plainContestStep, contestStepWith.
  intros (H1 & H2 & H3 & H4 & H5).
  set (cw := calculateContestWinners (default [] (assocGet c entriesByContest))
               (resultsMap !! c) effectivePlatform c).
  destruct (hasResult cw) eqn:Hhas; cbn [okOr].
  - rewrite !List.filter_app. cbn [List.filter]. rewrite Hhas. cbn [andb].
    rewrite !length_app, map_app, concat_app. cbn [List.length map concat].
    rewrite app_nil_r.
    cbn [totalContests contestsWithWinners statsTotalPrizeAwarded statsPrizePool].
    destruct (0 <? winningTier cw)%nat eqn:Hpos.
    + pose proof (contest_awarded (default [] (assocGet c entriesByContest))
                    (resultsMap !! c) effectivePlatform c Hhas Hpos) as Haw.
      fold cw in Haw. rewrite Haw.
      destruct (Z.eqb_spec (getPrizePool effectivePlatform) 0); [contradiction|].
      cbn [List.length]. repeat split; try lia. rewrite H5. reflexivity.
    + cbn [List.length]. repeat split; try lia. rewrite H5. reflexivity.
  - rewrite !List.filter_app. cbn [List.filter]. rewrite Hhas. cbn [andb].
    rewrite !app_nil_r. repeat split; assumption.
Qed.

(** The statistics that [calculateAllWinners] computes.  The contests
    with a result and those with winners are counted from the contest
    results; the prize awarded is the pool times the number of contests
    with winners; the total of winners is the length of [allWinners], which
    holds the winners of the contests with a result and nothing else. *)
Lemma computedWinners_statistics entries results platform :
  let aw := computedWinners dataStoreLoaded entries results platform in
  let stats := winnerStats aw in
  totalContests stats = List.length (List.filter hasResult (contestResults aw)) /\
  contestsWithWinners stats
    = List.length (List.filter (fun cw => hasResult cw && (0 <? winningTier cw)%nat)
                     (contestResults aw)) /\
  (contestsWithWinners stats <= totalContests stats <= List.length (contestResults aw))%nat /\
  statsTotalPrizeAwarded stats = statsPrizePool stats * Z.of_nat (contestsWithWinners stats) /\
  totalWinners stats = List.length (allWinners aw) /\
  Permutation (allWinners aw)
    (concat (map winners (List.filter hasResult (contestResults aw)))) /\
  statsPlatform stats = platform /\ awPlatform aw = platform.
Proof.
  cbv zeta. unfold computedWinners. cbv zeta.
  set (effectivePlatform := if String.eqb platform "ALL" then "DEFAULT" else platform).
  set (pool := getPrizePool effectivePlatform).
  set (grouped := groupedByContest (entriesOfPlatform dataStoreLoaded entries platform)).
  assert (Hpool : pool <> 0).
  { unfold pool, getPrizePool, getPlatformPrize, PLATFORM_PRIZES.
    destruct (assocGet effectivePlatform _) as [p|] eqn:E; [|discriminate].
    destruct (Z.eqb_spec p 0); [discriminate|assumption]. }
  assert (Hinv : statsInvariant pool
            (runContests grouped (fst (resultsFold results)) effectivePlatform pool
               (contestKeysOf grouped results)
               ([], [], mkWinnerStats 0 0 emptyTierCounts 0 0 platform pool)) /\
          statsPlatform (snd (runContests grouped (fst (resultsFold results)) effectivePlatform
               pool (contestKeysOf grouped results)
               ([], [], mkWinnerStats 0 0 emptyTierCounts 0 0 platform pool))) = platform).
  { unfold runContests.
    apply (fold_left_invariant
             (fun st contest => okOr st (plainContestStep grouped (fst (resultsFold results))
                                           effectivePlatform pool st contest))
             (fun st => statsInvariant pool st /\ statsPlatform (snd st) = platform)).
    - intros st c _ [Hi Hp]. split; [apply plainContestStep_invariant; assumption|].
      destruct st as [[crs aws] stats]. unfold plainContestStep, contestStepWith.
      destruct (hasResult _); cbn [okOr snd statsPlatform]; exact Hp.
    - split; [|reflexivity]. cbn. repeat split; lia. }
  destruct (runContests grouped (fst (resultsFold results)) effectivePlatform pool
              (contestKeysOf grouped results)
              ([], [], mkWinnerStats 0 0 emptyTierCounts 0 0 platform pool))
    as [[crs aws] stats].
  destruct Hinv as [(H1 & H2 & H3 & H4 & H5) Hp]. cbn [snd] in Hp.
  cbn [contestResults allWinners winnerStats awPlatform totalContests contestsWithWinners
       statsTotalPrizeAwarded totalWinners statsPlatform statsPrizePool].
  set (sorted := jsSort (fun a b => parseIntOrZero (cwContest b) - parseIntOrZero (cwContest a))
                   crs).
  assert (Hperm : Permutation sorted crs) by apply jsSort_Permutation.
  assert (Hf1 : Permutation (List.filter hasResult sorted) (List.filter hasResult crs))
    by (apply filter_Permutation; exact Hperm).
  assert (Hf2 : Permutation
                  (List.filter (fun cw => hasResult cw && (0 <? winningTier cw)%nat) sorted)
                  (List.filter (fun cw => hasResult cw && (0 <? winningTier cw)%nat) crs))
    by (apply filter_Permutation; exact Hperm).
  assert (L1 : List.length (List.filter hasResult sorted)
               = List.length (List.filter hasResult crs))
    by (apply Permutation_length; exact Hf1).
  assert (L2 : List.length
                 (List.filter (fun cw => hasResult cw && (0 <? winningTier cw)%nat) sorted)
               = List.length
                   (List.filter (fun cw => hasResult cw && (0 <? winningTier cw)%nat) crs))
    by (apply Permutation_length; exact Hf2).
  rewrite L1, L2.
  assert (L3 : List.length sorted = List.length crs) by apply length_jsSort.
  rewrite ?L3.
  assert (Hle : (List.length
                   (List.filter (fun cw => hasResult cw && (0 <? winningTier cw)%nat) crs)
                 <= List.length (List.filter hasResult crs))%nat).
  { clear. induction crs as [|cw crs IH]; [cbn; lia|].
    cbn [List.filter]. destruct (hasResult cw); cbn [andb]; [|exact IH].
    destruct (0 <? winningTier cw)%nat; cbn [List.length]; lia. }
  pose proof (List.filter_length_le hasResult crs) as Hle2.
  split; [exact H1|]. split; [exact H2|]. split; [lia|].
  split; [rewrite H4; exact H3|]. split; [reflexivity|].
  split; [|split; [exact Hp|reflexivity]].
  rewrite H5. apply concat_Permutation. apply Permutation_map. symmetry. exact Hf1.
Qed.

(** The contest results that [calculateAllWinners] computes are in
    non-increasing order of the number that [parseInt] reads in the contest
    id (0 when it reads none). *)
Lemma computedWinners_sorted entries results platform :
  StronglySorted (fun a b => parseIntOrZero (cwContest b) <= parseIntOrZero (cwContest a))
    (contestResults (computedWinners dataStoreLoaded entries results platform)).
Proof.
  unfold computedWinners. cbv zeta.
  match goal with |- context [runContests ?a ?b ?c ?d ?e ?f] =>
    destruct (runContests a b c d e f) as [[crs aws] stats] end.
  cbn [contestResults].
  apply (StronglySorted_weaken
           (fun a b => - parseIntOrZero (cwContest a) <= - parseIntOrZero (cwContest b)));
    [intros; lia|].
  apply (jsSort_sorted (fun cw => - parseIntOrZero (cwContest cw))
           (fun a b => parseIntOrZero (cwContest b) - parseIntOrZero (cwContest a))).
  intros; lia.
Qed.

End AggregatorStats.
(** ** The contests of a run *)

(** The contest id of the result object of a contest of the run. *)
Lemma cwContest_key entries result platform c :
  String.eqb c "" = false ->
  (forall r, result = Some r -> resultContest r = c) ->
  cwContest (calculateContestWinners entries result platform c) = c.
Proof.
  intros Hne Hres.
  assert (Hc : orElse (match result with Some r => resultContest r | None => "" end)
                 (orElse c (orElse (match entries with e :: _ => contest e | [] => "" end)
                              "Unknown")) = c).
  { destruct result as [r|].
    - rewrite (Hres r eq_refl). unfold orElse at 1. rewrite Hne. reflexivity.
    - unfold orElse at 1. cbn. unfold orElse at 1. rewrite Hne. reflexivity. }
  unfold calculateContestWinners. fold (resultContest). rewrite Hc.
  destruct result as [r|]; [|reflexivity].
  destruct (isNoDraw r || negb (Nat.eqb (List.length (resultNumbers r)) 5)); [reflexivity|].
  cbv zeta. destruct (fold_left _ _ _). reflexivity.
Qed.

Lemma list_sum_cons x l : list_sum (x :: l) = (x + list_sum l)%nat.
Proof. reflexivity. Qed.

Lemma count_key_absent (ks : list string) (k : string) :
  ~ In k ks ->
  list_sum (map (fun c => if String.eqb k c then 1%nat else 0%nat) ks) = 0%nat.
Proof.
  induction ks as [|c ks IH]; intros Hk; [reflexivity|].
  cbn [map]. rewrite list_sum_cons.
  destruct (String.eqb_spec k c) as [->|_]; [exfalso; apply Hk; left; reflexivity|].
  rewrite IH; [reflexivity|]. intros H. apply Hk. right. exact H.
Qed.

Lemma count_key_once (ks : list string) (k : string) :
  List.NoDup ks -> In k ks ->
  list_sum (map (fun c => if String.eqb k c then 1%nat else 0%nat) ks) = 1%nat.
Proof.
  induction 1 as [|c ks Hc Hnd IH]; [intros []|]. cbn [map]. rewrite list_sum_cons.
  intros [Heq|Hin].
  - subst c. rewrite String.eqb_refl, (count_key_absent ks k Hc). reflexivity.
  - destruct (String.eqb_spec k c) as [->|_]; [contradiction|]. rewrite (IH Hin). reflexivity.
Qed.

Lemma list_sum_map_add {A : Type} (f g : A -> nat) l :
  list_sum (map (fun c => (f c + g c)%nat) l) = (list_sum (map f l) + list_sum (map g l))%nat.
Proof.
  induction l as [|x l IH]; [reflexivity|]. cbn [map]. rewrite !list_sum_cons, IH. lia.
Qed.

(** Entries filed under the keys of a list without duplicates that has all
    their keys: each entry is in the group of exactly one key. *)
Lemma groups_partition (ks : list string) (entries : list Entry) :
  List.NoDup ks -> (forall e, In e entries -> In (contestKey e) ks) ->
  list_sum (map (fun c => List.length
                    (List.filter (fun e => String.eqb (contestKey e) c) entries)) ks)
  = List.length entries.
Proof.
  intros Hnd. induction entries as [|e es IH]; intros Hin.
  - cbn [List.filter List.length]. clear. induction ks as [|c ks IHk]; [reflexivity|].
    cbn [map]. rewrite list_sum_cons, IHk. reflexivity.
  - rewrite (map_ext _ (fun c => ((if String.eqb (contestKey e) c then 1 else 0)
                + List.length (List.filter (fun e0 => String.eqb (contestKey e0) c) es))%nat)).
    + rewrite list_sum_map_add, IH by (intros x Hx; apply Hin; right; exact Hx).
      rewrite (count_key_once ks (contestKey e) Hnd (Hin e (or_introl eq_refl))).
      reflexivity.
    + intros c. cbn [List.filter]. destruct (String.eqb (contestKey e) c); reflexivity.
Qed.

Section Contests.

Variable dataStoreLoaded : bool.

Lemma runContests_results grouped resultsMap effectivePlatform prizePool keys :
  forall init,
  fst (fst (runContests grouped resultsMap effectivePlatform prizePool keys init))
  = (fst (fst init)
     ++ map (fun c => calculateContestWinners (default [] (assocGet c grouped))
                        (resultsMap !! c) effectivePlatform c) keys)%list.
Proof.
  unfold runContests. induction keys as [|k keys IH]; intros init; cbn [fold_left map].
  - rewrite app_nil_r. reflexivity.
  - rewrite IH. destruct init as [[crs aws] stats]. unfold plainContestStep, contestStepWith.
    destruct (hasResult _); cbn [okOr fst]; rewrite <- app_assoc; reflexivity.
Qed.

(** The contests of a run of [calculateAllWinners].  Each contest id of
    a result and each contest key of an entry (of the platform) has exactly
    one contest result, and there is no other; the result of a contest
    counts as [totalEntries] the entries filed under it, so that the
    [totalEntries] of the contest results add up to the number of
    entries. *)
Lemma computedWinners_contests entries results platform :
  let aw := computedWinners dataStoreLoaded entries results platform in
  let mine := entriesOfPlatform dataStoreLoaded entries platform in
  List.NoDup (map cwContest (contestResults aw)) /\
  (forall c, In c (map cwContest (contestResults aw)) <->
     (String.eqb c "" = false /\ exists r, In r results /\ resultContest r = c) \/
     (exists e, In e mine /\ contestKey e = c)) /\
  (forall cw, In cw (contestResults aw) ->
     totalEntries cw
     = List.length (List.filter (fun e => String.eqb (contestKey e) (cwContest cw)) mine)) /\
  list_sum (map totalEntries (contestResults aw)) = List.length mine.
Proof.
  cbv zeta. unfold computedWinners. cbv zeta.
  set (mine := entriesOfPlatform dataStoreLoaded entries platform).
  set (grouped := groupedByContest mine).
  set (effectivePlatform := if String.eqb platform "ALL" then "DEFAULT" else platform).
  set (pool := getPrizePool effectivePlatform).
  set (keys := contestKeysOf grouped results).
  pose proof (runContests_results grouped (fst (resultsFold results)) effectivePlatform pool keys
                ([], [], mkWinnerStats 0 0 emptyTierCounts 0 0 platform pool)) as Hcrs.
  destruct (runContests grouped (fst (resultsFold results)) effectivePlatform pool keys
              ([], [], mkWinnerStats 0 0 emptyTierCounts 0 0 platform pool))
    as [[crs aws] stats].
  cbn [fst app] in Hcrs. cbn [contestResults].
  set (calc := fun c => calculateContestWinners (default [] (assocGet c grouped))
                          (fst (resultsFold results) !! c) effectivePlatform c) in Hcrs.
  (* the keys *)
  destruct (resultsFold_ids results) as [Hnd Hids].
  destruct (fold_setAdd (objectKeys grouped) (snd (resultsFold results)) Hnd) as [Hkn Hki].
  fold (contestKeysOf grouped results) in Hkn, Hki. fold keys in Hkn, Hki.
  assert (Hkeys : forall c, In c keys <->
            (String.eqb c "" = false /\ exists r, In r results /\ resultContest r = c) \/
            (exists e, In e mine /\ contestKey e = c)).
  { intros c. rewrite Hki, objectKeys_In. unfold grouped.
    rewrite groupedByContest_keys. split.
    - intros [H|H]; [right; exact H|left; apply Hids; exact H].
    - intros [[Hne (r & Hr & Hc)]|H]; [right|left; exact H].
      eapply resultsFold_ids_complete; eassumption. }
  assert (Hnonempty : forall c, In c keys -> String.eqb c "" = false).
  { intros c Hc. apply Hkeys in Hc as [[Hne _]|(e & _ & <-)]; [exact Hne|].
    apply contestKey_nonempty. }
  assert (Hcalc : forall c, In c keys -> cwContest (calc c) = c).
  { intros c Hc. unfold calc. apply cwContest_key; [apply Hnonempty; exact Hc|].
    intros r Hr. apply (resultsFold_lookup results c r Hr). }
  assert (Hmap : map cwContest crs = keys).
  { rewrite Hcrs, map_map. rewrite <- (map_id keys) at 2.
    apply map_ext_in. exact Hcalc. }
  set (sorted := jsSort (fun a b => parseIntOrZero (cwContest b) - parseIntOrZero (cwContest a))
                   crs).
  assert (Hperm : Permutation sorted crs) by apply jsSort_Permutation.
  assert (Hpm : Permutation (map cwContest sorted) keys).
  { rewrite <- Hmap. apply Permutation_map. exact Hperm. }
  assert (Htotal : forall cw, In cw crs ->
            totalEntries cw
            = List.length (List.filter (fun e => String.eqb (contestKey e) (cwContest cw)) mine)).
  { intros cw Hcw. rewrite Hcrs in Hcw. apply in_map_iff in Hcw as (c & <- & Hc).
    rewrite (Hcalc c Hc). unfold calc.
    assert (Ht : forall es res p k, totalEntries (calculateContestWinners es res p k)
                                    = List.length es).
    { intros es res p k. unfold calculateContestWinners. destruct res as [r|]; [|reflexivity].
      destruct (isNoDraw r || negb (Nat.eqb (List.length (resultNumbers r)) 5)); [reflexivity|].
      cbv zeta. destruct (fold_left _ _ _). reflexivity. }
    rewrite Ht. unfold grouped, groupedByContest.
    rewrite groupedByContest_fold. reflexivity. }
  split; [|split; [|split]].
  - eapply Permutation_NoDup; [symmetry; exact Hpm|exact Hkn].
  - intros c. rewrite <- Hkeys. split; intros H.
    + eapply Permutation_in; [exact Hpm|exact H].
    + eapply Permutation_in; [symmetry; exact Hpm|exact H].
  - intros cw Hcw. apply Htotal. eapply Permutation_in; [exact Hperm|exact Hcw].
  - transitivity (list_sum (map totalEntries crs)).
    { clear -Hperm. induction Hperm; cbn [map]; rewrite ?list_sum_cons; lia. }
    rewrite (map_ext_in totalEntries
               (fun cw => List.length
                  (List.filter (fun e => String.eqb (contestKey e) (cwContest cw)) mine)) crs Htotal).
    rewrite <- (map_map cwContest
                  (fun c => List.length
                     (List.filter (fun e => String.eqb (contestKey e) c) mine)) crs).
    rewrite Hmap. apply groups_partition; [exact Hkn|].
    intros e He. apply Hkeys. right. exists e. auto.
Qed.

End Contests.
(** ** A run of [calculateAllWinners] that does not find its result cached *)

Section AllWinnersRun.

Variable dataStoreLoaded : bool.

(** X17. The statistics of a run of [calculateAllWinners] that computes its
    result (no cached result under the hashes, no contest that names a
    member of [Object.prototype]).  [totalContests] counts the contests with a usable draw result
    and [contestsWithWinners] those of them with a winning tier, so
    [contestsWithWinners <= totalContests]; the prize awarded is the prize
    pool once per contest with winners; [totalWinners] is the length of
    [allWinners], which holds exactly the winners of the contests with a
    result. *)
Theorem calculateAllWinners_statistics cache entries results platform :
  cachedWinnersFor cache entries results platform = None ->
  noInheritedNames (map contestKey (entriesOfPlatform dataStoreLoaded entries platform))
  = true ->
  noInheritedNames (map resultContest results) = true ->
  exists aw cache',
    calculateAllWinners dataStoreLoaded cache entries results platform
      = Some (Ok (aw, cache')) /\
    totalContests (winnerStats aw)
      = List.length (List.filter hasResult (contestResults aw)) /\
    contestsWithWinners (winnerStats aw)
      = List.length (List.filter (fun cw => hasResult cw && (0 <? winningTier cw)%nat)
                       (contestResults aw)) /\
    (contestsWithWinners (winnerStats aw) <= totalContests (winnerStats aw)
       <= List.length (contestResults aw))%nat /\
    statsTotalPrizeAwarded (winnerStats aw)
      = statsPrizePool (winnerStats aw) * Z.of_nat (contestsWithWinners (winnerStats aw)) /\
    totalWinners (winnerStats aw) = List.length (allWinners aw) /\
    Permutation (allWinners aw)
      (concat (map winners (List.filter hasResult (contestResults aw)))) /\
    statsPlatform (winnerStats aw) = platform /\ awPlatform aw = platform.
Proof.
  intros Hmiss He Hr. eexists _, _. split.
  - unfold calculateAllWinners. apply calculateAllWinners_computedWinners; assumption.
  - apply computedWinners_statistics.
Qed.

(** X18. A run of [calculateAllWinners] that computes its result (no cached
    result under the hashes, no contest that names a member of
    [Object.prototype]) returns the contests by descending contest number:
    the double that [parseInt] reads off the contest id, 0 when it reads
    none. *)
Theorem calculateAllWinners_sorted cache entries results platform :
  cachedWinnersFor cache entries results platform = None ->
  noInheritedNames (map contestKey (entriesOfPlatform dataStoreLoaded entries platform))
  = true ->
  noInheritedNames (map resultContest results) = true ->
  exists aw cache',
    calculateAllWinners dataStoreLoaded cache entries results platform
      = Some (Ok (aw, cache')) /\
    StronglySorted (fun a b => parseIntOrZero (cwContest b) <= parseIntOrZero (cwContest a))
      (contestResults aw).
Proof.
  intros Hmiss He Hr. eexists _, _. split.
  - unfold calculateAllWinners. apply calculateAllWinners_computedWinners; assumption.
  - apply computedWinners_sorted.
Qed.

(** X19. The contests of a run of [calculateAllWinners] that computes its
    result (no cached result under the hashes, no contest that names a
    member of [Object.prototype]).  Each contest appears once; the contests are those of the draw
    results (with a non-empty id) and those of the entries of the platform
    (an entry without contest is of contest [Unknown]); [totalEntries] of a
    contest is the number of entries of the platform in that contest, and
    these numbers add up to the number of entries of the platform. *)
Theorem calculateAllWinners_contests cache entries results platform :
  cachedWinnersFor cache entries results platform = None ->
  noInheritedNames (map contestKey (entriesOfPlatform dataStoreLoaded entries platform))
  = true ->
  noInheritedNames (map resultContest results) = true ->
  exists aw cache',
    calculateAllWinners dataStoreLoaded cache entries results platform
      = Some (Ok (aw, cache')) /\
    List.NoDup (map cwContest (contestResults aw)) /\
    (forall c, In c (map cwContest (contestResults aw)) <->
       (String.eqb c "" = false /\ exists r, In r results /\ resultContest r = c) \/
       (exists e, In e (entriesOfPlatform dataStoreLoaded entries platform) /\
                  contestKey e = c)) /\
    (forall cw, In cw (contestResults aw) ->
       totalEntries cw
       = List.length (List.filter (fun e => String.eqb (contestKey e) (cwContest cw))
                        (entriesOfPlatform dataStoreLoaded entries platform))) /\
    list_sum (map totalEntries (contestResults aw))
    = List.length (entriesOfPlatform dataStoreLoaded entries platform).
Proof.
  intros Hmiss He Hr. eexists _, _. split.
  - unfold calculateAllWinners. apply calculateAllWinners_computedWinners; assumption.
  - apply computedWinners_contests.
Qed.

End AllWinnersRun.

Lemma calculateAllWinners_statistics_witness :
  exists aw cache',
    calculateAllWinners false emptyCache sampleContest [sampleResult] "ALL"
      = Some (Ok (aw, cache')) /\
    totalContests (winnerStats aw)
      = List.length (List.filter hasResult (contestResults aw)) /\
    contestsWithWinners (winnerStats aw)
      = List.length (List.filter (fun cw => hasResult cw && (0 <? winningTier cw)%nat)
                       (contestResults aw)) /\
    (contestsWithWinners (winnerStats aw) <= totalContests (winnerStats aw)
       <= List.length (contestResults aw))%nat /\
    statsTotalPrizeAwarded (winnerStats aw)
      = statsPrizePool (winnerStats aw) * Z.of_nat (contestsWithWinners (winnerStats aw)) /\
    totalWinners (winnerStats aw) = List.length (allWinners aw) /\
    Permutation (allWinners aw)
      (concat (map winners (List.filter hasResult (contestResults aw)))) /\
    statsPlatform (winnerStats aw) = "ALL" /\ awPlatform aw = "ALL".
Proof.
  apply (calculateAllWinners_statistics false emptyCache sampleContest [sampleResult] "ALL");
    vm_compute; reflexivity.
Defined.

Lemma calculateAllWinners_sorted_witness :
  exists aw cache',
    calculateAllWinners false emptyCache sampleContest [sampleResult] "ALL"
      = Some (Ok (aw, cache')) /\
    StronglySorted (fun a b => parseIntOrZero (cwContest b) <= parseIntOrZero (cwContest a))
      (contestResults aw).
Proof.
  apply (calculateAllWinners_sorted false emptyCache sampleContest [sampleResult] "ALL");
    vm_compute; reflexivity.
Defined.

Lemma calculateAllWinners_contests_witness :
  exists aw cache',
    calculateAllWinners true emptyCache sampleContest [sampleResult] "POPN1"
      = Some (Ok (aw, cache')) /\
    List.NoDup (map cwContest (contestResults aw)) /\
    (forall c, In c (map cwContest (contestResults aw)) <->
       (String.eqb c "" = false /\ exists r, In r [sampleResult] /\ resultContest r = c) \/
       (exists e, In e (entriesOfPlatform true sampleContest "POPN1") /\
                  contestKey e = c)) /\
    (forall cw, In cw (contestResults aw) ->
       totalEntries cw
       = List.length (List.filter (fun e => String.eqb (contestKey e) (cwContest cw))
                        (entriesOfPlatform true sampleContest "POPN1"))) /\
    list_sum (map totalEntries (contestResults aw))
    = List.length (entriesOfPlatform true sampleContest "POPN1").
Proof.
  apply (calculateAllWinners_contests true emptyCache sampleContest [sampleResult] "POPN1");
    vm_compute; reflexivity.
Defined.

(** ** Engagement *)

Lemma uniqueIds_spec ids :
  List.NoDup (uniqueIds ids) /\
  forall id, In id (uniqueIds ids) <-> id <> "" /\ In id ids.
Proof.
  unfold uniqueIds.
  destruct (fold_setAdd (List.filter (fun id => negb (String.eqb id "")) ids) [])
    as [Hnd Hin]; [constructor|].
  split; [exact Hnd|]. intros id. rewrite Hin, filter_In.
  split.
  - intros [[Hi Hne]|[]]. split; [|exact Hi].
    intros ->. discriminate.
  - intros [Hne Hi]. left. split; [exact Hi|].
    destruct (String.eqb_spec id ""); [contradiction|reflexivity].
Qed.

(** A set built from a list without duplicates is that list. *)
Lemma fold_setAdd_NoDup ks : forall ids,
  List.NoDup (ids ++ ks) ->
  fold_left (fun set id => setAdd id set) ks ids = (ids ++ ks)%list.
Proof.
  induction ks as [|k ks IH]; intros ids Hnd; cbn [fold_left].
  - rewrite app_nil_r. reflexivity.
  - assert (Hk : includes ids k = false).
    { destruct (includes ids k) eqn:E; [|reflexivity].
      apply includes_In in E. apply NoDup_remove_2 in Hnd.
      exfalso. apply Hnd. apply in_or_app. left. exact E. }
    unfold setAdd at 2. rewrite Hk.
    rewrite IH; rewrite <- app_assoc; [reflexivity|exact Hnd].
Qed.

Lemma NoDup_filter_list {A : Type} (f : A -> bool) l :
  List.NoDup l -> List.NoDup (List.filter f l).
Proof.
  induction 1 as [|x l Hx Hnd IH]; cbn [List.filter]; [constructor|].
  destruct (f x); [|exact IH]. constructor; [|exact IH].
  intros Hin. apply filter_In in Hin. apply Hx, Hin.
Qed.

Lemma set_of_filter f ids :
  List.NoDup ids ->
  fold_left (fun set id => setAdd id set) (List.filter f ids) [] = List.filter f ids.
Proof.
  intros Hnd. apply (fold_setAdd_NoDup (List.filter f ids) []).
  cbn [app]. apply NoDup_filter_list, Hnd.
Qed.

(** Two lists without duplicates that have the same members have the same
    length. *)
Lemma NoDup_same_length {A : Type} (l1 l2 : list A) :
  List.NoDup l1 -> List.NoDup l2 -> (forall x, In x l1 <-> In x l2) ->
  List.length l1 = List.length l2.
Proof.
  intros H1 H2 Hiff. apply Nat.le_antisymm.
  - apply NoDup_incl_length; [exact H1|]. intros x Hx. apply Hiff, Hx.
  - apply NoDup_incl_length; [exact H2|]. intros x Hx. apply Hiff, Hx.
Qed.

Lemma filter_split_length {A : Type} (f : A -> bool) l :
  (List.length (List.filter f l) + List.length (List.filter (fun x => negb (f x)) l)
   = List.length l)%nat.
Proof.
  induction l as [|x l IH]; cbn [List.filter]; [reflexivity|].
  destruct (f x); cbn [negb List.length]; lia.
Qed.

(** The counts of the recharges by game id. *)
Lemma assocIncr_keys k counts :
  List.NoDup (map fst counts) ->
  List.NoDup (map fst (assocIncr k counts)) /\
  (forall c, In c (map fst (assocIncr k counts)) <-> c = k \/ In c (map fst counts)).
Proof.
  induction counts as [|[k' n] rest IH]; intros Hnd; cbn [assocIncr map fst].
  - split; [constructor; [intros []|constructor]|]. intros c. cbn. intuition.
  - inversion Hnd as [|x l Hx Hrest]; subst.
    destruct (String.eqb_spec k' k) as [->|Hne]; cbn [map fst].
    + split; [exact Hnd|]. intros c. cbn. intuition.
    + destruct (IH Hrest) as [IHnd IHin]. split.
      * constructor; [|exact IHnd]. rewrite IHin. intros [->|Hin]; [congruence|contradiction].
      * intros c. cbn [In]. rewrite IHin. intuition.
Qed.

Lemma assocGet_assocIncr k counts c :
  assocGet c (assocIncr k counts)
  = if String.eqb k c then Some (S (default 0%nat (assocGet c counts)))
    else assocGet c counts.
Proof.
  induction counts as [|[k' n] rest IH]; cbn [assocIncr assocGet].
  - destruct (String.eqb k c); reflexivity.
  - destruct (String.eqb_spec k' k) as [->|Hne]; cbn [assocGet].
    + destruct (String.eqb k c); reflexivity.
    + rewrite IH. destruct (String.eqb_spec k' c) as [->|Hne'].
      * destruct (String.eqb_spec k c); [congruence|reflexivity].
      * reflexivity.
Qed.

Lemma rechargeCounts_spec recharges : forall counts,
  List.NoDup (map fst counts) ->
  let counts' :=
    fold_left (fun counts r =>
                 if String.eqb (rechargeGameId r) "" then counts
                 else assocIncr (rechargeGameId r) counts) recharges counts in
  List.NoDup (map fst counts') /\
  (forall c, In c (map fst counts') <->
             (c <> "" /\ exists r, In r recharges /\ rechargeGameId r = c) \/
             In c (map fst counts)) /\
  (forall c, c <> "" ->
     default 0%nat (assocGet c counts')
     = (default 0%nat (assocGet c counts)
        + List.length (List.filter (fun r => String.eqb (rechargeGameId r) c) recharges))%nat).
Proof.
  induction recharges as [|r rs IH]; intros counts Hnd; cbn [fold_left].
  - split; [exact Hnd|]. split.
    + intros c. split; [intros H; right; exact H|].
      intros [[_ [r [[] _]]]|H]; exact H.
    + intros c _. cbn. lia.
  - destruct (String.eqb_spec (rechargeGameId r) "") as [He|Hne].
    + destruct (IH counts Hnd) as (H1 & H2 & H3). split; [exact H1|]. split.
      * intros c. rewrite H2. split.
        -- intros [(Hc & r' & Hin & Hr')|H]; [left|right; exact H].
           split; [exact Hc|]. exists r'. split; [right; exact Hin|exact Hr'].
        -- intros [(Hc & r' & [<-|Hin] & Hr')|H]; [congruence| |right; exact H].
           left. split; [exact Hc|]. exists r'. split; assumption.
      * intros c Hc. rewrite (H3 c Hc). cbn [List.filter].
        destruct (String.eqb_spec (rechargeGameId r) c); [congruence|reflexivity].
    + destruct (assocIncr_keys (rechargeGameId r) counts Hnd) as [Hnd' Hin'].
      destruct (IH _ Hnd') as (H1 & H2 & H3). split; [exact H1|]. split.
      * intros c. rewrite H2, Hin'. split.
        -- intros [(Hc & r' & Hin & Hr')|[->|H]].
           ++ left. split; [exact Hc|]. exists r'. split; [right; exact Hin|exact Hr'].
           ++ left. split; [exact Hne|]. exists r. split; [left; reflexivity|reflexivity].
           ++ right. exact H.
        -- intros [(Hc & r' & [<-|Hin] & Hr')|H].
           ++ right. left. symmetry. exact Hr'.
           ++ left. split; [exact Hc|]. exists r'. split; assumption.
           ++ right. right. exact H.
      * intros c Hc. rewrite (H3 c Hc), assocGet_assocIncr. cbn [List.filter].
        destruct (String.eqb (rechargeGameId r) c); cbn [default from_option id List.length]; lia.
Qed.

Lemma objectKeys_Permutation {V : Type} (obj : list (string * V)) :
  Permutation (objectKeys obj) (map fst obj).
Proof.
  unfold objectKeys. cbv zeta.
  rewrite jsSort_Permutation.
  induction (map fst obj) as [|k ks IH]; cbn [List.filter]; [reflexivity|].
  destruct (arrayIndex k); cbn [app].
  - constructor. exact IH.
  - rewrite <- Permutation_middle. constructor. exact IH.
Qed.

(** X20. The figures of [analyzeEngagement].  The rechargers are the
    distinct non-empty game ids of the recharges; they split into the
    participants (those with a ticket) and those without a ticket, so that
    [totalParticipants + rechargedNoTicket = totalRechargers];
    [multiRechargeNoTicket] counts the rechargers without a ticket that have
    two recharges or more. *)
Theorem analyzeEngagement_figures entries recharges :
  let e := analyzeEngagement entries recharges in
  List.NoDup (rechargerIds e) /\
  (forall id, In id (rechargerIds e) <->
     id <> "" /\ exists r, In r recharges /\ rechargeGameId r = id) /\
  (forall id, In id (participantIds e) <->
     In id (rechargerIds e) /\ exists t, In t entries /\ gameId t = id) /\
  (forall id, In id (rechargedNoTicketIds e) <->
     In id (rechargerIds e) /\ ~ exists t, In t entries /\ gameId t = id) /\
  totalRechargers e = List.length (rechargerIds e) /\
  totalParticipants e = List.length (participantIds e) /\
  rechargedNoTicket e = List.length (rechargedNoTicketIds e) /\
  (totalParticipants e + rechargedNoTicket e = totalRechargers e)%nat /\
  multiRechargeNoTicket e
  = List.length
      (List.filter
         (fun id => (2 <=? List.length (List.filter
                                          (fun r => String.eqb (rechargeGameId r) id)
                                          recharges))%nat)
         (rechargedNoTicketIds e)).
Proof.
  cbv zeta. unfold analyzeEngagement. cbv zeta.
  cbn [rechargerIds participantIds rechargedNoTicketIds totalRechargers totalParticipants
       rechargedNoTicket multiRechargeNoTicket].
  destruct (uniqueIds_spec (map rechargeGameId recharges)) as [HndR HinR].
  destruct (uniqueIds_spec (map gameId entries)) as [HndT HinT].
  set (R := uniqueIds (map rechargeGameId recharges)) in *.
  set (T := uniqueIds (map gameId entries)) in *.
  rewrite !set_of_filter by assumption.
  assert (HR : forall id, In id R <-> id <> "" /\ exists r, In r recharges /\ rechargeGameId r = id).
  { intros id. rewrite HinR, in_map_iff. split.
    - intros [Hne [r [Hr Hin]]]. split; [exact Hne|]. exists r. split; assumption.
    - intros [Hne [r [Hin Hr]]]. split; [exact Hne|]. exists r. split; assumption. }
  assert (HT : forall id, id <> "" -> In id T <-> exists t, In t entries /\ gameId t = id).
  { intros id Hne. rewrite HinT, in_map_iff. split.
    - intros [_ [t [Ht Hin]]]. exists t. split; assumption.
    - intros [t [Hin Ht]]. split; [exact Hne|]. exists t. split; assumption. }
  split; [exact HndR|]. split; [exact HR|].
  split.
  { intros id. rewrite filter_In, includes_In. split.
    - intros [Ht Hr]. split; [exact Hr|]. apply HT; [apply HR, Hr|exact Ht].
    - intros [Hr Ht]. split; [|exact Hr]. apply HT; [apply HR, Hr|exact Ht]. }
  split.
  { intros id. rewrite filter_In. split.
    - intros [Hr Hn]. split; [exact Hr|]. intros Ht.
      apply HT in Ht; [|apply HR, Hr]. apply includes_In in Ht. rewrite Ht in Hn. discriminate.
    - intros [Hr Hn]. split; [exact Hr|].
      destruct (includes T id) eqn:E; [|reflexivity].
      exfalso. apply Hn. apply HT; [apply HR, Hr|]. apply includes_In, E. }
  split; [reflexivity|]. split; [reflexivity|]. split; [reflexivity|].
  split.
  { rewrite <- (filter_split_length (fun id => includes T id) R). f_equal.
    apply NoDup_same_length.
    - apply NoDup_filter_list, HndT.
    - apply NoDup_filter_list, HndR.
    - intros id. rewrite !filter_In, !includes_In. tauto. }
  set (counts := fold_left _ recharges []).
  destruct (rechargeCounts_spec recharges []) as (HndC & HinC & HcountC); [constructor|].
  fold counts in HndC, HinC, HcountC.
  assert (HndK : List.NoDup (objectKeys counts)).
  { apply (Permutation_NoDup (l := map fst counts)); [|exact HndC].
    symmetry. apply objectKeys_Permutation. }
  unfold objectEntries.
  apply NoDup_same_length.
  - apply NoDup_filter_list.
    assert (Hmap : forall ks, List.NoDup ks ->
              List.NoDup (map fst (List.filter
                                     (fun kv : string * option nat =>
                                        (1 <? default 0%nat (snd kv))%nat)
                                     (map (fun k => (k, assocGet k counts)) ks)))).
    { induction 1 as [|k ks Hk Hnd IH]; cbn [map List.filter]; [constructor|].
      destruct (1 <? _)%nat; [|exact IH]. cbn [map fst]. constructor; [|exact IH].
      intros Hin. apply Hk. apply in_map_iff in Hin as [[k' v] [Hk' Hin]]. cbn in Hk'. subst k'.
      apply filter_In in Hin as [Hin _]. apply in_map_iff in Hin as [k'' [Heq Hk'']].
      injection Heq as Heq _. subst k''. exact Hk''. }
    apply Hmap, HndK.
  - apply NoDup_filter_list, NoDup_filter_list, HndR.
  - intros gid. rewrite !filter_In. rewrite in_map_iff. split.
    + intros [[[k v] [Hk Hin]] Hnot]. cbn in Hk. subst k.
      apply filter_In in Hin as [Hin Hcount]. apply in_map_iff in Hin as [k [Heq Hkey]].
      injection Heq as -> <-. cbn [snd] in Hcount.
      apply objectKeys_In, HinC in Hkey as [[Hne Hex]|[]].
      rewrite (HcountC gid Hne) in Hcount. cbn [assocGet default from_option id] in Hcount.
      split; [split; [apply HR; split; assumption|exact Hnot]|].
      apply Nat.leb_le. apply Nat.ltb_lt in Hcount. lia.
    + intros [[Hr Hnot] Hcount]. split; [|exact Hnot].
      exists (gid, assocGet gid counts). split; [reflexivity|].
      apply filter_In. split.
      * apply in_map_iff. exists gid. split; [reflexivity|].
        apply objectKeys_In, HinC. left. apply HR, Hr.
      * cbn [snd]. rewrite (HcountC gid) by apply HR, Hr.
        cbn [assocGet default from_option id].
        apply Nat.ltb_lt. apply Nat.leb_le in Hcount. lia.
Qed.

(** ** One contest and the run over all contests *)

(** The platform of [calculateContestWinners] decides the prize pool and
    the platform code of the result only, and the three platforms have the
    same prize. *)
Lemma calculateContestWinners_platform entries result c1 c2 :
  cwContest (calculateContestWinners entries result "POPN1" c1)
  = cwContest (calculateContestWinners entries result "DEFAULT" c2) ->
  calculateContestWinners entries result "POPN1" c1
  = withPlatform "POPN1" (calculateContestWinners entries result "DEFAULT" c2).
Proof.
  unfold calculateContestWinners. cbv zeta.
  change (getPrizePool "POPN1") with 1000. change (getPrizePool "DEFAULT") with 1000.
  destruct result as [r|].
  - destruct (isNoDraw r || negb (Nat.eqb (List.length (resultNumbers r)) 5)).
    + cbn [cwContest]. intros ->. reflexivity.
    + destruct (fold_left (scoreEntry (resultNumbers r)) entries ([], emptyTiers))
        as [ws tiers].
      cbn [cwContest]. intros ->. reflexivity.
  - cbn [cwContest]. intros ->. reflexivity.
Qed.

(** The result that [calculateAllWinners] files under a contest id, when
    no two results have the same contest id. *)
Lemma resultsFold_find results c :
  List.NoDup (map resultContest results) -> c <> "" ->
  fst (resultsFold results) !! c
  = List.find (fun r => String.eqb (resultContest r) c) results.
Proof.
  intros Hnd Hc. unfold resultsFold.
  assert (H : forall acc : gmap string DrawResult * list string,
            fst (fold_left
                   (fun (acc : gmap string DrawResult * list string) r =>
                      if String.eqb (resultContest r) "" then acc
                      else (<[resultContest r := r]> (fst acc),
                            setAdd (resultContest r) (snd acc)))
                   results acc) !! c
            = match List.find (fun r => String.eqb (resultContest r) c) results with
              | Some r => Some r
              | None => fst acc !! c
              end).
  { induction results as [|x xs IH]; intros acc; cbn [fold_left List.find]; [reflexivity|].
    cbn [map] in Hnd. inversion Hnd as [|y l Hx Hxs]; subst.
    rewrite (IH Hxs).
    destruct (String.eqb_spec (resultContest x) c) as [Heq|Hne].
    - destruct (String.eqb_spec (resultContest x) "") as [He|_]; [congruence|].
      destruct (List.find (fun r => String.eqb (resultContest r) c) xs) as [r|] eqn:Ef.
      + exfalso. apply find_some in Ef as [Hin Hr]. apply String.eqb_eq in Hr.
        apply Hx. rewrite Heq, <- Hr. apply in_map, Hin.
      + cbn [fst]. rewrite Heq. apply lookup_insert_eq.
    - destruct (List.find (fun r => String.eqb (resultContest r) c) xs); [reflexivity|].
      destruct (String.eqb (resultContest x) ""); [reflexivity|].
      cbn [fst]. apply lookup_insert_ne. exact Hne. }
  rewrite H. cbn [fst]. rewrite lookup_empty.
  destruct (List.find _ results); reflexivity.
Qed.

Lemma filter_contest_key entries c :
  c <> "" -> c <> "Unknown" ->
  List.filter (fun e => String.eqb (contestKey e) c) entries
  = List.filter (fun e => String.eqb (contest e) c) entries.
Proof.
  intros Hc Hu. apply filter_ext. intros e. unfold contestKey, orElse.
  destruct (String.eqb_spec (contest e) "") as [He|He]; [|reflexivity].
  rewrite He.
  destruct (String.eqb_spec "Unknown" c); [congruence|].
  destruct (String.eqb_spec "" c); [congruence|reflexivity].
Qed.

Section OneContest.

Variable dataStoreLoaded : bool.

(** X21. The winners of one contest and the run over all contests.  When no
    two draw results have the same contest id and no contest names a member
    of [Object.prototype], [getContestWinners] on a contest of a run of
    [calculateAllWinners] at platform [ALL] that computes its result returns the
    contest result of that run, with the platform code [POPN1] where the run
    has [DEFAULT] -- but for the contest [Unknown], under which the run
    files the entries without contest. *)
Theorem getContestWinners_agrees cache entries results :
  List.NoDup (map resultContest results) ->
  cachedWinnersFor cache entries results "ALL" = None ->
  noInheritedNames (map contestKey entries) = true ->
  noInheritedNames (map resultContest results) = true ->
  exists aw cache',
    calculateAllWinners dataStoreLoaded cache entries results "ALL"
      = Some (Ok (aw, cache')) /\
    forall cw, In cw (contestResults aw) -> cwContest cw <> "Unknown" ->
      cwPlatform cw = "DEFAULT" /\
      getContestWinners (cwContest cw) entries results = withPlatform "POPN1" cw.
Proof.
  intros Hnd Hmiss Hown Hres. eexists _, _. split.
  { unfold calculateAllWinners. apply calculateAllWinners_computedWinners; assumption. }
  clear Hown Hres.
  unfold computedWinners. cbv zeta.
  change (entriesOfPlatform dataStoreLoaded entries "ALL") with entries.
  change (if String.eqb "ALL" "ALL" then "DEFAULT" else "ALL") with "DEFAULT".
  set (grouped := groupedByContest entries).
  pose proof (runContests_results grouped (fst (resultsFold results))
                "DEFAULT" (getPrizePool "DEFAULT") (contestKeysOf grouped results)
                ([], [], mkWinnerStats 0 0 emptyTierCounts 0 0 "ALL" (getPrizePool "DEFAULT")))
    as Hcrs.
  destruct (runContests grouped (fst (resultsFold results)) "DEFAULT"
              (getPrizePool "DEFAULT") (contestKeysOf grouped results) _)
    as [[crs aws] stats].
  cbn [fst app contestResults] in Hcrs |- *. subst crs.
  intros cw Hin. apply In_jsSort in Hin. apply in_map_iff in Hin as [c [<- Hc]].
  (* the contest ids of the run *)
  unfold contestKeysOf in Hc.
  destruct (resultsFold_ids results) as [HndIds HinIds].
  apply (fold_setAdd (objectKeys grouped) _ HndIds) in Hc.
  assert (Hne : c <> "").
  { destruct Hc as [Hc|Hc].
    - apply objectKeys_In, groupedByContest_keys in Hc as [e [_ <-]].
      pose proof (contestKey_nonempty e) as H. intros E. rewrite E in H. discriminate.
    - apply HinIds in Hc as [H _]. intros ->. discriminate. }
  assert (Hkey : cwContest (calculateContestWinners (default [] (assocGet c grouped))
                              (fst (resultsFold results) !! c) "DEFAULT" c) = c).
  { apply cwContest_key.
    - destruct (String.eqb_spec c ""); [contradiction|reflexivity].
    - intros r Hr. apply resultsFold_lookup in Hr. apply Hr. }
  rewrite Hkey. intros Hu. split.
  { unfold calculateContestWinners. cbv zeta.
    destruct (fst (resultsFold results) !! c) as [r|]; [|reflexivity].
    destruct (isNoDraw r || _); [reflexivity|].
    destruct (fold_left _ _ _); reflexivity. }
  unfold getContestWinners. cbv zeta.
  rewrite <- (resultsFold_find results c Hnd Hne).
  rewrite <- (filter_contest_key entries c Hne Hu).
  assert (Hgroup : default [] (assocGet c grouped)
                   = List.filter (fun e => String.eqb (contestKey e) c) entries).
  { unfold grouped, groupedByContest. rewrite groupedByContest_fold. reflexivity. }
  rewrite <- Hgroup.
  apply calculateContestWinners_platform. rewrite Hkey.
  destruct (fst (resultsFold results) !! c) as [r|] eqn:Er.
  - apply resultsFold_lookup in Er as [_ Hrc].
    unfold calculateContestWinners. cbv zeta.
    destruct (isNoDraw r || _); [|destruct (fold_left _ _ _)];
      cbn [cwContest]; unfold orElse at 1; rewrite Hrc;
      destruct (String.eqb_spec c ""); congruence.
  - (* no result: the contest is the one of the first entry *)
    destruct Hc as [Hc|Hc].
    + apply objectKeys_In, groupedByContest_keys in Hc as [e [He Hk]].
      assert (Hin : In e (default [] (assocGet c grouped))).
      { rewrite Hgroup. apply filter_In. split; [exact He|]. apply String.eqb_eq, Hk. }
      destruct (default [] (assocGet c grouped)) as [|e0 es] eqn:Eg; [destruct Hin|].
      assert (H0 : In e0 (List.filter (fun e => String.eqb (contestKey e) c) entries)).
      { rewrite <- Hgroup. left. reflexivity. }
      apply filter_In in H0 as [_ H0]. apply String.eqb_eq in H0.
      unfold calculateContestWinners. cbv zeta. cbn [cwContest].
      unfold contestKey in H0. unfold orElse at 1 2. cbn [String.eqb].
      exact H0.
    + exfalso. apply HinIds in Hc as [_ [r [Hr Hrc]]].
      rewrite (resultsFold_find results c Hnd Hne) in Er.
      apply (find_none _ _ Er) in Hr. apply String.eqb_neq in Hr. contradiction.
Qed.

End OneContest.

Lemma getContestWinners_agrees_witness :
  exists aw cache',
    calculateAllWinners false emptyCache sampleContest [sampleResult] "ALL"
      = Some (Ok (aw, cache')) /\
    forall cw, In cw (contestResults aw) -> cwContest cw <> "Unknown" ->
      cwPlatform cw = "DEFAULT" /\
      getContestWinners (cwContest cw) sampleContest [sampleResult] = withPlatform "POPN1" cw.
Proof.
  apply (getContestWinners_agrees false emptyCache sampleContest [sampleResult]).
  - cbn [map]. constructor; [intros []|constructor].
  - vm_compute. reflexivity.
  - reflexivity.
  - reflexivity.
Defined.

(** ** Rows of the results sheet *)

Lemma resultCells_range (row : list string) (cols : list nat) : forall numbers,
  List.Forall (fun n => 1 <= n <= 80) numbers ->
  List.Forall (fun n => 1 <= n <= 80)
    (fold_left (fun numbers i =>
                  match nth_error row i with
                  | Some cell =>
                      match parseInt10 cell with
                      | Some num =>
                          if (1 <=? num) && (num <=? 80) then (numbers ++ [num])%list
                          else numbers
                      | None => numbers
                      end
                  | None => numbers
                  end) cols numbers).
Proof.
  induction cols as [|i cols IH]; intros numbers Hn; cbn [fold_left]; [exact Hn|].
  apply IH. destruct (nth_error row i) as [cell|]; [|exact Hn].
  destruct (parseInt10 cell) as [num|]; [|exact Hn].
  destruct ((1 <=? num) && (num <=? 80)) eqn:E; [|exact Hn].
  apply andb_prop in E as [E1 E2].
  apply List.Forall_app. split; [exact Hn|]. constructor; [lia|constructor].
Qed.

(** X22. What [parseResultRow] lets through.  A parsed row has a contest id;
    it is either a no-draw row without numbers, or it has exactly five
    numbers, each from 1 to 80, in ascending order.  So
    [calculateContestWinners] scores against every parsed result that is not
    a no-draw row, and files it under the contest id of the row. *)
Theorem parseResultRow_scored row r :
  parseResultRow row = Some r ->
  resultContest r <> "" /\
  (isNoDraw r = true -> resultNumbers r = []) /\
  (isNoDraw r = false ->
     List.length (resultNumbers r) = 5%nat /\
     List.Forall (fun n => 1 <= n <= 80) (resultNumbers r) /\
     StronglySorted Z.le (resultNumbers r)) /\
  forall entries platform contestId,
    hasResult (calculateContestWinners entries (Some r) platform contestId)
    = negb (isNoDraw r) /\
    cwContest (calculateContestWinners entries (Some r) platform contestId)
    = resultContest r.
Proof.
  unfold parseResultRow. cbv zeta.
  destruct (String.eqb_spec (trim (nth 0 row "")) "") as [|Hc]; [discriminate|].
  destruct (stringIncludes "no draw" (toLowerCase (String.concat " " row))).
  - intros H. injection H as <-. cbn [resultContest isNoDraw resultNumbers].
    split; [exact Hc|]. split; [reflexivity|]. split; [discriminate|].
    intros entries platform contestId. unfold calculateContestWinners. cbv zeta.
    cbn [isNoDraw resultContest orb hasResult cwContest negb]. split; [reflexivity|].
    unfold orElse at 1. destruct (String.eqb_spec (trim (nth 0 row "")) ""); [contradiction|].
    reflexivity.
  - set (numbers := fold_left _ [2; 3; 4; 5; 6]%nat []).
    destruct (Nat.eqb_spec (List.length numbers) 5) as [Hlen|]; [|discriminate].
    cbn [negb]. intros H. injection H as <-. cbn [resultContest isNoDraw resultNumbers].
    split; [exact Hc|]. split; [discriminate|].
    assert (Hl : List.length (jsSort (fun a b => a - b) numbers) = 5%nat)
      by (rewrite length_jsSort; exact Hlen).
    split.
    + intros _. split; [exact Hl|]. split.
      * apply List.Forall_forall. intros n Hn. apply In_jsSort in Hn.
        pose proof (resultCells_range row [2; 3; 4; 5; 6]%nat [] (List.Forall_nil _)) as Hr.
        exact (proj1 (List.Forall_forall _ _) Hr n Hn).
      * apply (jsSort_sorted (fun n : Z => n) (fun a b => a - b)). intros a b. lia.
    + intros entries platform contestId. unfold calculateContestWinners. cbv zeta.
      cbn [isNoDraw resultContest resultNumbers orb]. rewrite Hl. cbn [Nat.eqb negb].
      destruct (fold_left _ entries _) as [ws tiers]. cbn [hasResult cwContest].
      split; [reflexivity|].
      unfold orElse at 1. destruct (String.eqb_spec (trim (nth 0 row "")) ""); [contradiction|].
      reflexivity.
Qed.

Lemma parseResultRow_scored_witness :
  resultContest sampleResult <> "" /\
  (isNoDraw sampleResult = true -> resultNumbers sampleResult = []) /\
  (isNoDraw sampleResult = false ->
     List.length (resultNumbers sampleResult) = 5%nat /\
     List.Forall (fun n => 1 <= n <= 80) (resultNumbers sampleResult) /\
     StronglySorted Z.le (resultNumbers sampleResult)) /\
  forall entries platform contestId,
    hasResult (calculateContestWinners entries (Some sampleResult) platform contestId)
    = negb (isNoDraw sampleResult) /\
    cwContest (calculateContestWinners entries (Some sampleResult) platform contestId)
    = resultContest sampleResult.
Proof.
  apply (parseResultRow_scored [" 10 "; "08/01/2024"; "5"; "4"; " 3"; "2abc"; "+1"; ""; "sheet"]).
  vm_compute. reflexivity.
Defined.

(** ** Instances *)

Lemma getEligibleDrawDate_draw_day_witness :
  getEligibleDrawDate (-180) (Some (mondayAt 12))
  = Ok (Some (brazilMidnight (mondayAt 12))).
Proof.
  destruct (getEligibleDrawDate_draw_day (-180) (mondayAt 12))
    as [_ [d (Hd & _ & _ & Hsame)]].
  rewrite Hd, Hsame; [reflexivity| |]; vm_compute; reflexivity.
Defined.

Lemma validateTicket_outcome_witness :
  exists v,
    validateTicket (-180)
      (mkEntry (Some (mondayAt 12)) "POPN1" "1234567890" (Some [1; 2; 3; 4; 5])
         "08/01/2024" "10" "T-1" "validado") ∅ ∅ = Ok v /\
    matchedRecharge v = None /\ isCutoff v = false.
Proof.
  destruct (validateTicket_outcome (-180)
              (mkEntry (Some (mondayAt 12)) "POPN1" "1234567890" (Some [1; 2; 3; 4; 5])
                 "08/01/2024" "10" "T-1" "validado") ∅ ∅ eq_refl)
    as (v & Hv & _ & _ & _ & Hsc).
  exists v. split; [exact Hv|]. apply Hsc. vm_compute. reflexivity.
Defined.
